(** * keep/api/models/alert.py: the alert model, its validators and the
      construction of an [AlertDto]

    The development follows the Python source function by function.  The
    first part models what the source takes from the interpreter and its
    libraries (text, UTF-8, SHA-256, [json.dumps], [datetime], and the
    validation loop of pydantic 1.x, which the decorators [validator] and
    [root_validator] hook into); the second part is the source itself
    ([AlertSeverity], [AlertStatus], the four field validators and the two
    root validators of [AlertDto]); the last part states and proves the
    properties. *)

From Stdlib Require Import String Ascii Strings.Byte.
From Stdlib Require Import ZArith NArith DecimalN Bool Lia List.
Import ListNotations.

Set Implicit Arguments.
Set Warnings "-register-all".

(** ** Text

    A Python [str] is a sequence of Unicode code points.  [len], slicing and
    comparison all work on code points, so that is what the model keeps: a
    list of numbers.  Code points above [0x10FFFF] do not exist in Python;
    the model does not exclude them by type, and the UTF-8 encoder below
    rejects them. *)

Definition pystr := list N.

Fixpoint py (s : string) : pystr :=
  match s with
  | EmptyString => []
  | String c s' => N_of_ascii c :: py s'
  end.

Fixpoint pystr_eqb (a b : pystr) : bool :=
  match a, b with
  | [], [] => true
  | x :: a', y :: b' => N.eqb x y && pystr_eqb a' b'
  | _, _ => false
  end.

(** [str.lower()].  Only the ASCII letters are mapped.  Python maps every
    cased code point, but no code point outside [A-Z] has a lower-case form
    made of the ASCII letters the source compares against ([true], and the
    words of pydantic's boolean table), so every comparison made below agrees
    with Python's. *)
Definition lower_cp (c : N) : N :=
  if (65 <=? c)%N && (c <=? 90)%N then (c + 32)%N else c.

Definition str_lower (s : pystr) : pystr := map lower_cp s.

(** Decimal rendering of integers, as [str(n)] and [json.dumps] print them. *)
Fixpoint uint_digits (u : Decimal.uint) : pystr :=
  match u with
  | Decimal.Nil => []
  | Decimal.D0 u' => 48%N :: uint_digits u'
  | Decimal.D1 u' => 49%N :: uint_digits u'
  | Decimal.D2 u' => 50%N :: uint_digits u'
  | Decimal.D3 u' => 51%N :: uint_digits u'
  | Decimal.D4 u' => 52%N :: uint_digits u'
  | Decimal.D5 u' => 53%N :: uint_digits u'
  | Decimal.D6 u' => 54%N :: uint_digits u'
  | Decimal.D7 u' => 55%N :: uint_digits u'
  | Decimal.D8 u' => 56%N :: uint_digits u'
  | Decimal.D9 u' => 57%N :: uint_digits u'
  end.

Definition N_repr (n : N) : pystr := uint_digits (N.to_uint n).

Definition int_repr (z : Z) : pystr :=
  match z with
  | Zneg p => 45%N :: N_repr (Npos p)
  | _ => N_repr (Z.to_N z)
  end.

(** [n] printed in at least [width] digits, zero-padded on the left
    ([%04d], [%02d], [%06d]). *)
Definition zero_pad (width : nat) (n : N) : pystr :=
  let d := N_repr n in
  repeat 48%N (width - length d) ++ d.

(** Lower-case hexadecimal digit of a value below 16. *)
Definition hex_digit (n : N) : N :=
  if (n <? 10)%N then (48 + n)%N else (87 + n)%N.

(** ** Bytes and UTF-8

    [str.encode()] with its default codec.  A lone surrogate
    ([U+D800]..[U+DFFF]) has no UTF-8 form: Python raises
    [UnicodeEncodeError], a subclass of [ValueError]. *)

Definition byte_of_N (n : N) : byte :=
  match Byte.of_N (n mod 256) with
  | Some b => b
  | None => x00
  end.

Definition utf8_cp (c : N) : option (list byte) :=
  if (c <? 0x80)%N then Some [byte_of_N c]
  else if (c <? 0x800)%N then
    Some [byte_of_N (0xC0 + N.shiftr c 6); byte_of_N (0x80 + N.land c 0x3F)]
  else if (0xD800 <=? c)%N && (c <=? 0xDFFF)%N then None
  else if (c <? 0x10000)%N then
    Some [byte_of_N (0xE0 + N.shiftr c 12);
          byte_of_N (0x80 + N.land (N.shiftr c 6) 0x3F);
          byte_of_N (0x80 + N.land c 0x3F)]
  else if (c <? 0x110000)%N then
    Some [byte_of_N (0xF0 + N.shiftr c 18);
          byte_of_N (0x80 + N.land (N.shiftr c 12) 0x3F);
          byte_of_N (0x80 + N.land (N.shiftr c 6) 0x3F);
          byte_of_N (0x80 + N.land c 0x3F)]
  else None.

Fixpoint encode (s : pystr) : option (list byte) :=
  match s with
  | [] => Some []
  | c :: s' =>
      match utf8_cp c, encode s' with
      | Some b, Some bs => Some (b ++ bs)
      | _, _ => None
      end
  end.


(** ** SHA-256 ([hashlib.sha256], FIPS 180-4)

    Words are 32-bit values held in [Z]; every addition wraps at [2^32]. *)

Module SHA256.

Local Open Scope Z_scope.

Definition wrap (x : Z) : Z := x mod 4294967296.

Definition add (x y : Z) : Z := wrap (x + y).

Definition rotr (n x : Z) : Z :=
  Z.lor (Z.shiftr x n) (wrap (Z.shiftl x (32 - n))).

Definition ch (x y z : Z) : Z :=
  Z.lxor (Z.land x y) (Z.land (Z.lxor x 4294967295) z).

Definition maj (x y z : Z) : Z :=
  Z.lxor (Z.lxor (Z.land x y) (Z.land x z)) (Z.land y z).

Definition bsig0 (x : Z) : Z := Z.lxor (Z.lxor (rotr 2 x) (rotr 13 x)) (rotr 22 x).
Definition bsig1 (x : Z) : Z := Z.lxor (Z.lxor (rotr 6 x) (rotr 11 x)) (rotr 25 x).
Definition ssig0 (x : Z) : Z := Z.lxor (Z.lxor (rotr 7 x) (rotr 18 x)) (Z.shiftr x 3).
Definition ssig1 (x : Z) : Z := Z.lxor (Z.lxor (rotr 17 x) (rotr 19 x)) (Z.shiftr x 10).

Definition round_constants : list Z :=
  [ 0x428A2F98; 0x71374491; 0xB5C0FBCF; 0xE9B5DBA5;
    0x3956C25B; 0x59F111F1; 0x923F82A4; 0xAB1C5ED5;
    0xD807AA98; 0x12835B01; 0x243185BE; 0x550C7DC3;
    0x72BE5D74; 0x80DEB1FE; 0x9BDC06A7; 0xC19BF174;
    0xE49B69C1; 0xEFBE4786; 0x0FC19DC6; 0x240CA1CC;
    0x2DE92C6F; 0x4A7484AA; 0x5CB0A9DC; 0x76F988DA;
    0x983E5152; 0xA831C66D; 0xB00327C8; 0xBF597FC7;
    0xC6E00BF3; 0xD5A79147; 0x06CA6351; 0x14292967;
    0x27B70A85; 0x2E1B2138; 0x4D2C6DFC; 0x53380D13;
    0x650A7354; 0x766A0ABB; 0x81C2C92E; 0x92722C85;
    0xA2BFE8A1; 0xA81A664B; 0xC24B8B70; 0xC76C51A3;
    0xD192E819; 0xD6990624; 0xF40E3585; 0x106AA070;
    0x19A4C116; 0x1E376C08; 0x2748774C; 0x34B0BCB5;
    0x391C0CB3; 0x4ED8AA4A; 0x5B9CCA4F; 0x682E6FF3;
    0x748F82EE; 0x78A5636F; 0x84C87814; 0x8CC70208;
    0x90BEFFFA; 0xA4506CEB; 0xBEF9A3F7; 0xC67178F2 ].

(** The eight working variables, and the hash value between blocks. *)
Record state := State {
  ha : Z; hb : Z; hc : Z; hd : Z; he : Z; hf : Z; hg : Z; hh : Z }.

Definition initial : state :=
  State 0x6A09E667 0xBB67AE85 0x3C6EF372 0xA54FF53A
        0x510E527F 0x9B05688C 0x1F83D9AB 0x5BE0CD19.

(** Padding: the byte [0x80], zeros up to 56 modulo 64, then the length of
    the message in bits as a 64-bit big-endian number. *)
Definition be_bytes (n : nat) (x : Z) : list Z :=
  map (fun i => Z.land (Z.shiftr x (8 * Z.of_nat i)) 255) (rev (seq 0 n)).

Definition pad (msg : list Z) : list Z :=
  let len := length msg in
  let zeros := ((64 - ((len + 9) mod 64)) mod 64)%nat in
  msg ++ [128] ++ repeat 0 zeros ++ be_bytes 8 (8 * Z.of_nat len).

Fixpoint be_words (bs : list Z) : list Z :=
  match bs with
  | b0 :: b1 :: b2 :: b3 :: rest =>
      (Z.shiftl b0 24 + Z.shiftl b1 16 + Z.shiftl b2 8 + b3) :: be_words rest
  | _ => []
  end.

(** The message schedule, most recent word first: [W_t] is computed from
    [W_(t-2)], [W_(t-7)], [W_(t-15)] and [W_(t-16)]. *)
Fixpoint expand (n : nat) (rw : list Z) : list Z :=
  match n with
  | O => rw
  | S n' =>
      let w := add (add (ssig1 (nth 1 rw 0)) (nth 6 rw 0))
                   (add (ssig0 (nth 14 rw 0)) (nth 15 rw 0)) in
      expand n' (w :: rw)
  end.

Definition schedule (block : list Z) : list Z :=
  rev (expand 48 (rev (be_words block))).

Definition round (s : state) (kw : Z * Z) : state :=
  let t1 := add (add (add (hh s) (bsig1 (he s))) (ch (he s) (hf s) (hg s)))
                (add (fst kw) (snd kw)) in
  let t2 := add (bsig0 (ha s)) (maj (ha s) (hb s) (hc s)) in
  State (add t1 t2) (ha s) (hb s) (hc s) (add (hd s) t1) (he s) (hf s) (hg s).

Definition compress (h : state) (block : list Z) : state :=
  let s := fold_left round (combine round_constants (schedule block)) h in
  State (add (ha h) (ha s)) (add (hb h) (hb s)) (add (hc h) (hc s))
        (add (hd h) (hd s)) (add (he h) (he s)) (add (hf h) (hf s))
        (add (hg h) (hg s)) (add (hh h) (hh s)).

Fixpoint blocks (fuel : nat) (h : state) (bs : list Z) : state :=
  match fuel, bs with
  | S fuel', _ :: _ => blocks fuel' (compress h (firstn 64 bs)) (skipn 64 bs)
  | _, _ => h
  end.

Definition hash (msg : list byte) : state :=
  let padded := pad (map (fun b => Z.of_N (Byte.to_N b)) msg) in
  blocks (length padded) initial padded.

Definition digest_words (s : state) : list Z :=
  [ha s; hb s; hc s; hd s; he s; hf s; hg s; hh s].

(** The eight hexadecimal digits of a word, most significant first. *)
Definition word_hex (x : Z) : pystr :=
  map (fun i => hex_digit (Z.to_N (Z.land (Z.shiftr x (4 * Z.of_nat i)) 15)))
      (rev (seq 0 8)).

(** [hashlib.sha256(data).hexdigest()] *)
Definition hexdigest (msg : list byte) : pystr :=
  flat_map word_hex (digest_words (hash msg)).

End SHA256.

(** ** The two enumerations of the source

    [AlertSeverity] members carry the pair (name, order); [__new__] stores
    the name as the member's value, so [AlertSeverity(x)] looks a member up
    by its name.  The declarations come first because members are values a
    payload can hold. *)

Inductive AlertSeverity := CRITICAL | HIGH | WARNING | INFO | LOW.

Inductive AlertStatus := FIRING | RESOLVED | ACKNOWLEDGED | SUPPRESSED | PENDING.

(** ** Python values

    What a payload may hold: the JSON values (floats left out: the model has
    no floating point) and members of the two enumerations, which callers and
    the first root validator put into the mapping.  A [dict] keeps insertion
    order, which [json.dumps] shows, so it is a list of entries; its keys are
    hashable values. *)

Inductive pyval :=
| PNone
| PBool (b : bool)
| PInt (z : Z)
| PStr (s : pystr)
| PList (l : list pyval)
| PDict (d : list (pyval * pyval))
| PSeverity (m : AlertSeverity)
| PStatus (m : AlertStatus).

(** Truth value of an object ([bool(x)], [not x], [if x]).  Members of a
    plain [Enum] are always true. *)
Definition truthy (v : pyval) : bool :=
  match v with
  | PNone => false
  | PBool b => b
  | PInt z => negb (Z.eqb z 0)
  | PStr s => negb (pystr_eqb s [])
  | PList l => match l with [] => false | _ => true end
  | PDict d => match d with [] => false | _ => true end
  | PSeverity _ | PStatus _ => true
  end.

(** The number a value is when [isinstance(v, int)] holds; [bool] is a
    subclass of [int]. *)
Definition as_int (v : pyval) : option Z :=
  match v with
  | PBool b => Some (if b then 1 else 0)%Z
  | PInt z => Some z
  | _ => None
  end.

Definition severity_eqb (a b : AlertSeverity) : bool :=
  match a, b with
  | CRITICAL, CRITICAL | HIGH, HIGH | WARNING, WARNING | INFO, INFO | LOW, LOW => true
  | _, _ => false
  end.

Definition status_eqb (a b : AlertStatus) : bool :=
  match a, b with
  | FIRING, FIRING | RESOLVED, RESOLVED | ACKNOWLEDGED, ACKNOWLEDGED
  | SUPPRESSED, SUPPRESSED | PENDING, PENDING => true
  | _, _ => false
  end.

(** [a == b] when [a] is hashable (not a list or a dict): [None], numbers
    ([True == 1]), strings and enumeration members.  This is the equality of
    dictionary keys and of the membership test in [validate_deleted], whose
    left operand is a string or [None]. *)
Definition scalar_eq (a b : pyval) : bool :=
  match a, b with
  | PNone, PNone => true
  | PStr s, PStr t => pystr_eqb s t
  | PSeverity m, PSeverity n => severity_eqb m n
  | PStatus m, PStatus n => status_eqb m n
  | _, _ =>
      match as_int a, as_int b with
      | Some x, Some y => Z.eqb x y
      | _, _ => false
      end
  end.

Definition hashable (v : pyval) : bool :=
  match v with
  | PList _ | PDict _ => false
  | _ => true
  end.

(** *** Dictionaries with arbitrary hashable keys ([labels], [assignees]) *)

Fixpoint pydict_get (d : list (pyval * pyval)) (k : pyval) : option pyval :=
  match d with
  | [] => None
  | (k', v) :: d' => if scalar_eq k k' then Some v else pydict_get d' k
  end.

Fixpoint pydict_set (d : list (pyval * pyval)) (k v : pyval) : list (pyval * pyval) :=
  match d with
  | [] => [(k, v)]
  | (k', v') :: d' =>
      if scalar_eq k k' then (k', v) :: d' else (k', v') :: pydict_set d' k v
  end.

(** *** Dictionaries keyed by strings

    The keyword arguments of the constructor, the [values] every validator
    receives, and the [__dict__] of the finished object. *)

Definition kwargs := list (pystr * pyval).

(** [d.get(k)]; [None] of the option is Python's "absent". *)
Fixpoint dict_get (d : kwargs) (k : pystr) : option pyval :=
  match d with
  | [] => None
  | (k', v) :: d' => if pystr_eqb k k' then Some v else dict_get d' k
  end.

(** [d[k] = v]: an existing key keeps its place, a new one goes last. *)
Fixpoint dict_set (d : kwargs) (k : pystr) (v : pyval) : kwargs :=
  match d with
  | [] => [(k, v)]
  | (k', v') :: d' =>
      if pystr_eqb k k' then (k', v) :: d' else (k', v') :: dict_set d' k v
  end.

(** [d.pop(k, None)], the dictionary that is left. *)
Fixpoint dict_pop (d : kwargs) (k : pystr) : kwargs :=
  match d with
  | [] => []
  | (k', v') :: d' =>
      if pystr_eqb k k' then d' else (k', v') :: dict_pop d' k
  end.

Definition dict_has (d : kwargs) (k : pystr) : bool :=
  match dict_get d k with Some _ => true | None => false end.

(** [values.get(k)] as a Python value: an absent key reads as [None]. *)
Definition get_or_none (d : kwargs) (k : pystr) : pyval :=
  match dict_get d k with Some v => v | None => PNone end.

Definition as_pydict (d : kwargs) : pyval :=
  PDict (map (fun kv => (PStr (fst kv), snd kv)) d).

(** ** Exceptions, the clock and the log

    The exceptions the modelled code raises.  pydantic turns a [ValueError]
    or [TypeError] (and their subclasses) raised inside a validator into a
    validation error; any other exception leaves the constructor as it is. *)

Inductive pyexn :=
| ValueError
| UnicodeEncodeError
| TypeError
| KeyError (key : pystr)
| AttributeError.

Definition caught_by_pydantic (e : pyexn) : bool :=
  match e with
  | ValueError | UnicodeEncodeError | TypeError => true
  | KeyError _ | AttributeError => false
  end.

(** [except ValueError] *)
Definition is_ValueError (e : pyexn) : bool :=
  match e with
  | ValueError | UnicodeEncodeError => true
  | _ => false
  end.

(** The warnings the source logs. *)
Inductive log_record :=
| NoNameWarning
| InvalidSeverityWarning (severity : pyval) (event : kwargs)
| InvalidStatusWarning (status : pyval) (event : kwargs).

Record datetime := DateTime {
  year : N; month : N; day : N;
  hour : N; minute : N; second : N; microsecond : N }.

Inductive res (A : Type) :=
| Ret (a : A)
| Raise (e : pyexn).
Arguments Raise {A} e.

(** A run of effectful code: what it returned or raised, how many times the
    clock has been read so far, and the warnings it logged. *)
Record run (A : Type) := Run {
  outcome : res A;
  reads : nat;
  logged : list log_record }.

(** Effectful code starts from the number of clock readings made before it. *)
Definition M (A : Type) : Type := nat -> run A.

Definition ret {A} (a : A) : M A := fun n => Run (Ret a) n [].

Definition raise {A} (e : pyexn) : M A := fun n => Run (Raise e) n [].

Definition bind {A B} (m : M A) (k : A -> M B) : M B :=
  fun n =>
    let r := m n in
    match outcome r with
    | Ret a =>
        let r' := k a (reads r) in
        Run (outcome r') (reads r') (logged r ++ logged r')
    | Raise e => Run (Raise e) (reads r) (logged r)
    end.

Notation "x <- m ;; k" := (bind m (fun x => k))
  (at level 61, m at next level, right associativity).
Notation "m ;;; k" := (bind m (fun _ => k))
  (at level 61, right associativity).

Definition warning (r : log_record) : M unit := fun n => Run (Ret tt) n [r].

(** [try: m except ValueError: h] *)
Definition try_except_ValueError {A} (m : M A) (h : M A) : M A :=
  fun n =>
    let r := m n in
    match outcome r with
    | Ret a => r
    | Raise e =>
        if is_ValueError e then
          let r' := h (reads r) in
          Run (outcome r') (reads r') (logged r ++ logged r')
        else r
    end.

Definition lift {A} (o : option A) (e : pyexn) : M A :=
  match o with Some a => ret a | None => raise e end.

(** ** [json.dumps]

    The default encoder: [ensure_ascii], separators [", "] and [": "], no
    [default] hook.  A value it does not know (here: a member of an
    enumeration, as a value or as a key) raises [TypeError]. *)

(** [\uXXXX] *)
Definition json_u (n : N) : pystr :=
  [92; 117; hex_digit (N.land (N.shiftr n 12) 15); hex_digit (N.land (N.shiftr n 8) 15);
   hex_digit (N.land (N.shiftr n 4) 15); hex_digit (N.land n 15)]%N.

Definition json_escape (c : N) : pystr :=
  if (c =? 34)%N then [92; 34]%N
  else if (c =? 92)%N then [92; 92]%N
  else if (c =? 10)%N then [92; 110]%N
  else if (c =? 13)%N then [92; 114]%N
  else if (c =? 9)%N then [92; 116]%N
  else if (c =? 8)%N then [92; 98]%N
  else if (c =? 12)%N then [92; 102]%N
  else if (32 <=? c)%N && (c <=? 126)%N then [c]
  else if (c <? 0x10000)%N then json_u c
  else
    let n := (c - 0x10000)%N in
    json_u (N.lor 0xD800 (N.land (N.shiftr n 10) 0x3FF))
    ++ json_u (N.lor 0xDC00 (N.land n 0x3FF)).

Definition json_string (s : pystr) : pystr :=
  [34%N] ++ flat_map json_escape s ++ [34%N].

(** A key is written as a string; [str], [int], [bool] and [None] keys are
    converted, any other key raises [TypeError]. *)
Definition json_key (k : pyval) : option pystr :=
  match k with
  | PStr s => Some (json_string s)
  | PBool true => Some (json_string (py "true"))
  | PBool false => Some (json_string (py "false"))
  | PNone => Some (json_string (py "null"))
  | PInt z => Some (json_string (int_repr z))
  | _ => None
  end.

Fixpoint join (sep : pystr) (parts : list pystr) : pystr :=
  match parts with
  | [] => []
  | [x] => x
  | x :: rest => x ++ sep ++ join sep rest
  end.

Fixpoint json_dumps (v : pyval) : option pystr :=
  match v with
  | PNone => Some (py "null")
  | PBool true => Some (py "true")
  | PBool false => Some (py "false")
  | PInt z => Some (int_repr z)
  | PStr s => Some (json_string s)
  | PList l =>
      let fix items (l : list pyval) : option (list pystr) :=
        match l with
        | [] => Some []
        | x :: l' =>
            match json_dumps x, items l' with
            | Some a, Some b => Some (a :: b)
            | _, _ => None
            end
        end in
      match items l with
      | Some parts => Some (py "[" ++ join (py ", ") parts ++ py "]")
      | None => None
      end
  | PDict d =>
      let fix entries (d : list (pyval * pyval)) : option (list pystr) :=
        match d with
        | [] => Some []
        | (k, x) :: d' =>
            match json_key k, json_dumps x, entries d' with
            | Some a, Some b, Some c => Some ((a ++ py ": " ++ b) :: c)
            | _, _, _ => None
            end
        end in
      match entries d with
      | Some parts => Some (py "{" ++ join (py ", ") parts ++ py "}")
      | None => None
      end
  | PSeverity _ | PStatus _ => None
  end.

(** ** [datetime]

    Aware UTC instants, compared field by field. *)

Definition datetime_key (d : datetime) : list N :=
  [year d; month d; day d; hour d; minute d; second d; microsecond d].

Fixpoint lex_ltb (a b : list N) : bool :=
  match a, b with
  | x :: a', y :: b' => (x <? y)%N || ((x =? y)%N && lex_ltb a' b')
  | _, _ => false
  end.

(** [a < b] *)
Definition datetime_ltb (a b : datetime) : bool :=
  lex_ltb (datetime_key a) (datetime_key b).

(** [d.isoformat()] of an aware UTC instant: the microseconds are printed
    only when they are not zero. *)
Definition isoformat (d : datetime) : pystr :=
  zero_pad 4 (year d) ++ py "-" ++ zero_pad 2 (month d) ++ py "-" ++ zero_pad 2 (day d)
  ++ py "T" ++ zero_pad 2 (hour d) ++ py ":" ++ zero_pad 2 (minute d) ++ py ":"
  ++ zero_pad 2 (second d)
  ++ (if (microsecond d =? 0)%N then [] else py "." ++ zero_pad 6 (microsecond d))
  ++ py "+00:00".

Definition is_leap (y : N) : bool :=
  ((y mod 4 =? 0) && (negb (y mod 100 =? 0) || (y mod 400 =? 0)))%N.

Definition days_in_month (y m : N) : N :=
  if (m =? 2)%N then (if is_leap y then 29 else 28)%N
  else if ((m =? 4) || (m =? 6) || (m =? 9) || (m =? 11))%N then 30%N
  else 31%N.

(** The checks of the [datetime] constructor ([ValueError] when one fails). *)
Definition make_datetime (y mo d h mi s us : N) : option datetime :=
  if ((1 <=? y) && (y <=? 9999) && (1 <=? mo) && (mo <=? 12)
      && (1 <=? d) && (d <=? days_in_month y mo)
      && (h <=? 23) && (mi <=? 59) && (s <=? 59) && (us <=? 999999))%N
  then Some (DateTime y mo d h mi s us)
  else None.

(** ** What the platform supplies

    Four things the source reaches through the interpreter and its libraries
    and whose definitions are tables or code outside the repository:
    - [clock k] is what the [k]-th call of [datetime.datetime.now(utc)]
      returns during a construction;
    - [unicode_decimal c] is the value of the code point [c >= 128] when it is
      a decimal digit of Unicode (category Nd), which the regular expressions
      of [strptime] accept for [\d] beside [0-9];
    - [fromisoformat_parses s] tells whether [datetime.fromisoformat(s)]
      returns (its grammar differs between Python versions);
    - [any_http_url v] is pydantic's validation of a value as an
      [AnyHttpUrl] ([None] when it is refused). *)

Record platform := Platform {
  clock : nat -> datetime;
  unicode_decimal : N -> option N;
  fromisoformat_parses : pystr -> bool;
  any_http_url : pyval -> option pyval }.

(** [datetime.datetime.now(datetime.timezone.utc)] *)
Definition now (pf : platform) : M datetime :=
  fun n => Run (Ret (clock pf n)) (S n) [].

(** *** [datetime.strptime(s, "%Y-%m-%dT%H:%M:%S.%fZ")]

    [strptime] turns the format into a regular expression, compiled with
    [IGNORECASE], and matches it against the text; the groups below are the
    ones of [_strptime.TimeRE].  Alternatives are tried in order, with
    backtracking, as [re] does. *)

Inductive cclass :=
| Lit (c : N)               (* a literal character *)
| LitNoCase (upper lower : N)  (* a letter of the format, either case *)
| Range (lo hi : N)         (* [lo-hi] *)
| AnyDigit.                 (* \d *)

Definition digit_value (pf : platform) (c : N) : option N :=
  if (48 <=? c)%N && (c <=? 57)%N then Some (c - 48)%N
  else if (128 <=? c)%N then unicode_decimal pf c
  else None.

Definition cclass_matches (pf : platform) (k : cclass) (c : N) : bool :=
  match k with
  | Lit x => (c =? x)%N
  | LitNoCase u l => (c =? u)%N || (c =? l)%N
  | Range lo hi => (lo <=? c)%N && (c <=? hi)%N
  | AnyDigit => match digit_value pf c with Some _ => true | None => false end
  end.

Inductive regex_item :=
| Chr (k : cclass)
| Group (alternatives : list (list cclass)).

Fixpoint match_seq (pf : platform) (ks : list cclass) (s : pystr)
  : option (pystr * pystr) :=
  match ks with
  | [] => Some ([], s)
  | k :: ks' =>
      match s with
      | c :: s' =>
          if cclass_matches pf k c then
            match match_seq pf ks' s' with
            | Some (m, rest) => Some (c :: m, rest)
            | None => None
            end
          else None
      | [] => None
      end
  end.

(** The captured groups and the text left after the match. *)
Fixpoint regex_match (pf : platform) (p : list regex_item) (s : pystr)
  : option (list pystr * pystr) :=
  match p with
  | [] => Some ([], s)
  | Chr k :: p' =>
      match s with
      | c :: s' => if cclass_matches pf k c then regex_match pf p' s' else None
      | [] => None
      end
  | Group alts :: p' =>
      let fix try (alts : list (list cclass)) : option (list pystr * pystr) :=
        match alts with
        | [] => None
        | a :: alts' =>
            match match_seq pf a s with
            | Some (m, s') =>
                match regex_match pf p' s' with
                | Some (caps, rest) => Some (m :: caps, rest)
                | None => try alts'
                end
            | None => try alts'
            end
        end in
      try alts
  end.

Definition d09 : cclass := Range 48 57.

Definition re_Y : regex_item := Group [[AnyDigit; AnyDigit; AnyDigit; AnyDigit]].
Definition re_m : regex_item :=
  Group [[Lit 49; Range 48 50]; [Lit 48; Range 49 57]; [Range 49 57]].
Definition re_d : regex_item :=
  Group [[Lit 51; Range 48 49]; [Range 49 50; AnyDigit]; [Lit 48; Range 49 57];
         [Range 49 57]; [Lit 32; Range 49 57]].
Definition re_H : regex_item :=
  Group [[Lit 50; Range 48 51]; [Range 48 49; AnyDigit]; [AnyDigit]].
Definition re_M : regex_item := Group [[Range 48 53; AnyDigit]; [AnyDigit]].
Definition re_S : regex_item :=
  Group [[Lit 54; Range 48 49]; [Range 48 53; AnyDigit]; [AnyDigit]].
Definition re_f : regex_item :=
  Group [repeat d09 6; repeat d09 5; repeat d09 4; repeat d09 3; repeat d09 2; repeat d09 1].

(** [%Y-%m-%dT%H:%M:%S.%fZ] *)
Definition dismiss_until_regex : list regex_item :=
  [re_Y; Chr (Lit 45); re_m; Chr (Lit 45); re_d; Chr (LitNoCase 84 116);
   re_H; Chr (Lit 58); re_M; Chr (Lit 58); re_S; Chr (Lit 46); re_f;
   Chr (LitNoCase 90 122)].

(** [int(s)] of a matched group: decimal digits, blanks skipped. *)
Definition int_of_group (pf : platform) (s : pystr) : N :=
  fold_left (fun acc c =>
               match digit_value pf c with
               | Some d => (10 * acc + d)%N
               | None => acc
               end) s 0%N.

(** [None]: [strptime] raises [ValueError] (no match, text left over, or a
    date the [datetime] constructor refuses). *)
Definition strptime_dismiss_until (pf : platform) (s : pystr) : option datetime :=
  match regex_match pf dismiss_until_regex s with
  | Some ([gy; gm; gd; gH; gM; gS; gf], []) =>
      make_datetime (int_of_group pf gy) (int_of_group pf gm) (int_of_group pf gd)
                    (int_of_group pf gH) (int_of_group pf gM) (int_of_group pf gS)
                    (int_of_group pf (gf ++ repeat 48%N (6 - length gf)))
  | _ => None
  end.

(** * The source: [AlertSeverity] and [AlertStatus] *)

(** The member's value (its name) and [severity_order]. *)
Definition severity_value (m : AlertSeverity) : pystr :=
  match m with
  | CRITICAL => py "critical"
  | HIGH => py "high"
  | WARNING => py "warning"
  | INFO => py "info"
  | LOW => py "low"
  end.

Definition order (m : AlertSeverity) : Z :=
  match m with
  | CRITICAL => 5
  | HIGH => 4
  | WARNING => 3
  | INFO => 2
  | LOW => 1
  end.

Definition status_value (m : AlertStatus) : pystr :=
  match m with
  | FIRING => py "firing"
  | RESOLVED => py "resolved"
  | ACKNOWLEDGED => py "acknowledged"
  | SUPPRESSED => py "suppressed"
  | PENDING => py "pending"
  end.

(** Iteration over the class goes through the members as declared. *)
Definition AlertSeverity_members : list AlertSeverity :=
  [CRITICAL; HIGH; WARNING; INFO; LOW].

Definition AlertStatus_members : list AlertStatus :=
  [FIRING; RESOLVED; ACKNOWLEDGED; SUPPRESSED; PENDING].

(** The member whose order is [n], the first one in the order of the class. *)
Definition member_by_order (n : Z) : option AlertSeverity :=
  find (fun severity => Z.eqb (order severity) n) AlertSeverity_members.

(** Calling an [Enum] class: the member itself when it is given one, the
    member whose value is [v] otherwise. *)
Definition severity_by_value (v : pyval) : option AlertSeverity :=
  match v with
  | PSeverity m => Some m
  | PStr s => find (fun m => pystr_eqb s (severity_value m)) AlertSeverity_members
  | _ => None
  end.

Definition status_by_value (v : pyval) : option AlertStatus :=
  match v with
  | PStatus m => Some m
  | PStr s => find (fun m => pystr_eqb s (status_value m)) AlertStatus_members
  | _ => None
  end.

(** [AlertSeverity.from_number(n)]: [ValueError] when no order matches. *)
Definition from_number (n : Z) : M AlertSeverity :=
  lift (member_by_order n) ValueError.

(** [AlertSeverity(v)] and [AlertStatus(v)]: [ValueError] when [v] is no
    member and no member's value. *)
Definition AlertSeverity_call (v : pyval) : M AlertSeverity :=
  lift (severity_by_value v) ValueError.

Definition AlertStatus_call (v : pyval) : M AlertStatus :=
  lift (status_by_value v) ValueError.

(** The result of a rich comparison: a truth value, or [NotImplemented]
    when the other operand is not an [AlertSeverity]. *)
Inductive comparison_result :=
| Answer (b : bool)
| NotImplemented.

Definition compare_orders (op : Z -> Z -> bool) (self : AlertSeverity) (other : pyval)
  : comparison_result :=
  match other with
  | PSeverity o => Answer (op (order self) (order o))
  | _ => NotImplemented
  end.

(** [__lt__], [__le__], [__gt__], [__ge__] *)
Definition severity_lt := compare_orders Z.ltb.
Definition severity_le := compare_orders Z.leb.
Definition severity_gt := compare_orders Z.gtb.
Definition severity_ge := compare_orders Z.geb.

(** * The source: the validators of [AlertDto] *)

Section Validators.

Variable pf : platform.

(** [payload.encode()]: a value that is not a string has no such method. *)
Definition str_encode (payload : pyval) : M (list byte) :=
  match payload with
  | PStr s => lift (encode s) UnicodeEncodeError
  | _ => raise AttributeError
  end.

(** [fingerprint[:255]].  A dictionary cannot be sliced ([TypeError] up to
    Python 3.11); numbers, booleans and members cannot be subscripted. *)
Definition slice_255 (v : pyval) : M pyval :=
  match v with
  | PStr s => ret (PStr (firstn 255 s))
  | PList l => ret (PList (firstn 255 l))
  | _ => raise TypeError
  end.

(** [@validator("fingerprint", pre=True, always=True)] *)
Definition assign_fingerprint_if_none (fingerprint : pyval) (values : kwargs) : M pyval :=
  match fingerprint with
  | PNone =>
      let name := get_or_none values (py "name") in
      fingerprint_payload <-
        (if negb (truthy name) then
           warning NoNameWarning ;;;
           match json_dumps (as_pydict values) with
           | Some text => ret (PStr text)
           | None => raise TypeError
           end
         else ret name) ;;
      data <- str_encode fingerprint_payload ;;
      ret (PStr (SHA256.hexdigest data))
  | _ => slice_255 fingerprint
  end.

(** [@validator("deleted", pre=True, always=True)]: a value that is neither
    a boolean nor a list falls off the end of the function, which returns
    [None]. *)
Definition validate_deleted (deleted : pyval) (values : kwargs) : M pyval :=
  match deleted with
  | PBool _ => ret deleted
  | PList l => ret (PBool (existsb (scalar_eq (get_or_none values (py "lastReceived"))) l))
  | _ => ret PNone
  end.

(** [@validator("lastReceived", pre=True, always=True)] *)
Definition validate_last_received (last_received : pyval) (values : kwargs) : M pyval :=
  if negb (truthy last_received) then
    t <- now pf ;;
    ret (PStr (isoformat t))
  else ret last_received.

(** [strptime] raises [TypeError] when its argument is not a string. *)
Definition strptime (v : pyval) : M datetime :=
  match v with
  | PStr s => lift (strptime_dismiss_until pf s) ValueError
  | _ => raise TypeError
  end.

Definition str_equals (v : pyval) (s : pystr) : bool :=
  match v with
  | PStr t => pystr_eqb t s
  | _ => false
  end.

(** The first statement of [validate_dismissed]: a string becomes the
    boolean [dismissed.lower() == "true"], anything else is kept. *)
Definition normalize_dismissed (dismissed : pyval) : pyval :=
  match dismissed with
  | PStr s => PBool (pystr_eqb (str_lower s) (py "true"))
  | _ => dismissed
  end.

(** [@validator("dismissed", pre=True, always=True)] *)
Definition validate_dismissed (dismissed : pyval) (values : kwargs) : M pyval :=
  let dismissed := normalize_dismissed dismissed in
  if negb (truthy dismissed) then ret dismissed
  else
    let dismiss_until := get_or_none values (py "dismissUntil") in
    if negb (truthy dismiss_until) || str_equals dismiss_until (py "forever")
    then ret dismissed
    else
      dismiss_until_datetime <- strptime dismiss_until ;;
      t <- now pf ;;
      ret (PBool (datetime_ltb t dismiss_until_datetime)).

(** [datetime.datetime.fromisoformat(lastReceived)], for its exceptions. *)
Definition fromisoformat (v : pyval) : M unit :=
  match v with
  | PStr s => if fromisoformat_parses pf s then ret tt else raise ValueError
  | _ => raise TypeError
  end.

(** [assignees.get(lastReceived) or assignees.get(dt)].  Only a dictionary
    has [get]; [dt] is a [datetime], which no key of a modelled dictionary
    equals, so the second lookup finds nothing. *)
Definition lookup_assignee (assignees lastReceived : pyval) : M pyval :=
  match assignees with
  | PDict d =>
      match pydict_get d lastReceived with
      | Some a => if truthy a then ret a else ret PNone
      | None => ret PNone
      end
  | _ => raise AttributeError
  end.

(** The three blocks of [set_default_values], in the order of the source.

    "Check and set default severity": *)
Definition default_severity (values : kwargs) : M kwargs :=
  let severity := get_or_none values (py "severity") in
  try_except_ValueError
    (member <- match as_int severity with
               | Some n => from_number n
               | None => AlertSeverity_call severity
               end ;;
     ret (dict_set values (py "severity") (PSeverity member)))
    (warning (InvalidSeverityWarning severity values) ;;;
     ret (dict_set values (py "severity") (PSeverity INFO))).

(** "Check and set default status": *)
Definition default_status (values : kwargs) : M kwargs :=
  let status := get_or_none values (py "status") in
  try_except_ValueError
    (member <- AlertStatus_call status ;;
     ret (dict_set values (py "status") (PStatus member)))
    (warning (InvalidStatusWarning status values) ;;;
     ret (dict_set values (py "status") (PStatus FIRING))).

(** The assignee: [values["lastReceived"]] raises [KeyError] when the key is
    absent; [assignees] is popped, and looked into when it is true. *)
Definition set_assignee (values : kwargs) : M kwargs :=
  lastReceived <- lift (dict_get values (py "lastReceived")) (KeyError (py "lastReceived")) ;;
  let assignees := get_or_none values (py "assignees") in
  let values := dict_pop values (py "assignees") in
  if truthy assignees then
    fromisoformat lastReceived ;;;
    assignee <- lookup_assignee assignees lastReceived ;;
    ret (dict_set values (py "assignee") assignee)
  else ret values.

(** [@root_validator(pre=True)] *)
Definition set_default_values (values : kwargs) : M kwargs :=
  values <- default_severity values ;;
  values <- default_status values ;;
  values <- set_assignee values ;;
  ret (dict_pop values (py "deletedAt")).

(** [@root_validator(pre=False)] *)
Definition validate_status (values : kwargs) : M kwargs :=
  if truthy (get_or_none values (py "dismissed"))
  then ret (dict_set values (py "status") (PStatus SUPPRESSED))
  else ret values.

End Validators.

(** * pydantic 1.x: fields, type validators and the validation loop

    The class statement declares the fields; [BaseModel.__init__] runs
    [validate_model]: the pre root validators on the raw mapping, then every
    field in declaration order (its [pre] validators, then the validators of
    its type), then the unknown keys ([Extra.allow]), then the post root
    validators.  [Config.use_enum_values] stores the value of a member, not
    the member. *)

Inductive error_kind :=
| MissingError
| NoneIsNotAllowedError
| StrError
| BoolError
| EnumMemberError
| ListError
| DictError
| UrlError
| ValidatorError (e : pyexn).

(** Where an error was found: a field (and the index inside a list), or
    [__root__]. *)
Definition location := (pystr * option nat)%type.

Definition error := (location * error_kind)%type.

Definition root_location : location := (py "__root__", None).

Inductive ftype :=
| TStr
| TBool
| TSeverity
| TStatus
| TListStr
| TDict
| TAnyHttpUrl.

Definition str_validator (v : pyval) : option pystr :=
  match v with
  | PStr s => Some s
  | PInt z => Some (int_repr z)
  | PBool true => Some (py "True")
  | PBool false => Some (py "False")
  | _ => None
  end.

Definition BOOL_FALSE : list pystr :=
  [py "0"; py "off"; py "f"; py "false"; py "n"; py "no"].

Definition BOOL_TRUE : list pystr :=
  [py "1"; py "on"; py "t"; py "true"; py "y"; py "yes"].

Definition bool_validator (v : pyval) : option bool :=
  match v with
  | PBool b => Some b
  | PInt z => if Z.eqb z 1 then Some true else if Z.eqb z 0 then Some false else None
  | PStr s =>
      let l := str_lower s in
      if existsb (pystr_eqb l) BOOL_TRUE then Some true
      else if existsb (pystr_eqb l) BOOL_FALSE then Some false
      else None
  | _ => None
  end.

(** [enum_member_validator] with [use_enum_values]. *)
Definition severity_member_validator (v : pyval) : option pyval :=
  option_map (fun m => PStr (severity_value m)) (severity_by_value v).

Definition status_member_validator (v : pyval) : option pyval :=
  option_map (fun m => PStr (status_value m)) (status_by_value v).

(** The items of a [list[str]], each with its index. *)
Fixpoint validate_items (i : nat) (l : list pyval) : list (option nat * error_kind) * list pyval :=
  match l with
  | [] => ([], [])
  | x :: l' =>
      let (errs, vals) := validate_items (S i) l' in
      match str_validator x with
      | Some s => (errs, PStr s :: vals)
      | None => ((Some i, StrError) :: errs, vals)
      end
  end.

(** [dict(v)] reads [v] as a sequence of pairs: each item must be an
    iterable of two elements (a list, a string of two characters, or a
    dictionary of two keys) whose first element is hashable. *)
Definition as_pair (x : pyval) : option (pyval * pyval) :=
  match x with
  | PList [k; v] => Some (k, v)
  | PStr [a; b] => Some (PStr [a], PStr [b])
  | PDict [(k1, _); (k2, _)] => Some (k1, k2)
  | _ => None
  end.

Fixpoint dict_of_pairs (l : list pyval) (acc : list (pyval * pyval))
  : option (list (pyval * pyval)) :=
  match l with
  | [] => Some acc
  | x :: l' =>
      match as_pair x with
      | Some (k, v) => if hashable k then dict_of_pairs l' (pydict_set acc k v) else None
      | None => None
      end
  end.

Definition dict_validator (v : pyval) : option pyval :=
  match v with
  | PDict d => Some v
  | PList l => option_map PDict (dict_of_pairs l [])
  | PStr [] => Some (PDict [])
  | _ => None
  end.

Section Pydantic.

Variable pf : platform.

(** The validators pydantic derives from the type of a field: the value, or
    the errors (with the index of the item for a list). *)
Definition type_validate (t : ftype) (v : pyval) : list (option nat * error_kind) + pyval :=
  match t with
  | TStr =>
      match str_validator v with
      | Some s => inr (PStr s)
      | None => inl [(None, StrError)]
      end
  | TBool =>
      match bool_validator v with
      | Some b => inr (PBool b)
      | None => inl [(None, BoolError)]
      end
  | TSeverity =>
      match severity_member_validator v with
      | Some x => inr x
      | None => inl [(None, EnumMemberError)]
      end
  | TStatus =>
      match status_member_validator v with
      | Some x => inr x
      | None => inl [(None, EnumMemberError)]
      end
  | TListStr =>
      match v with
      | PList l =>
          match validate_items 0 l with
          | ([], vals) => inr (PList vals)
          | (errs, _) => inl errs
          end
      | _ => inl [(None, ListError)]
      end
  | TDict =>
      match dict_validator v with
      | Some d => inr d
      | None => inl [(None, DictError)]
      end
  | TAnyHttpUrl =>
      match any_http_url pf v with
      | Some u => inr u
      | None => inl [(None, UrlError)]
      end
  end.

(** A declared field: its type, whether a value is required, the default,
    whether [None] is accepted, and its [pre=True, always=True] validator
    when the model declares one. *)
Record field := Field {
  f_name : pystr;
  f_type : ftype;
  f_required : bool;
  f_default : pyval;
  f_allow_none : bool;
  f_pre : option (pyval -> kwargs -> M pyval) }.

Definition required (name : string) (t : ftype) pre : field :=
  Field (py name) t true PNone false pre.

Definition optional (name : string) (t : ftype) pre : field :=
  Field (py name) t false PNone true pre.

Definition defaulted (name : string) (t : ftype) (default : pyval) pre : field :=
  Field (py name) t false default false pre.

(** The fields of [AlertDto], in the order of the class body.  [source] and
    [labels] are optional with a default that is not [None]. *)
Definition AlertDto_fields : list field :=
  [ required "id" TStr None;
    required "name" TStr None;
    required "status" TStatus None;
    required "severity" TSeverity None;
    required "lastReceived" TStr (Some (validate_last_received pf));
    defaulted "environment" TStr (PStr (py "undefined")) None;
    optional "isDuplicate" TBool None;
    optional "duplicateReason" TStr None;
    optional "service" TStr None;
    Field (py "source") TListStr false (PList []) true None;
    optional "apiKeyRef" TStr None;
    optional "message" TStr None;
    optional "description" TStr None;
    defaulted "pushed" TBool (PBool false) None;
    optional "event_id" TStr None;
    optional "url" TAnyHttpUrl None;
    Field (py "labels") TDict false (PDict []) true None;
    optional "fingerprint" TStr (Some assign_fingerprint_if_none);
    defaulted "deleted" TBool (PBool false) (Some validate_deleted);
    optional "dismissUntil" TStr None;
    defaulted "dismissed" TBool (PBool false) (Some (validate_dismissed pf));
    optional "assignee" TStr None;
    optional "providerId" TStr None;
    optional "providerType" TStr None;
    defaulted "group" TBool (PBool false) None;
    optional "note" TStr None;
    optional "startedAt" TStr None;
    defaulted "isNoisy" TBool (PBool false) None ].

(** What validating one value gives: the value to store, or errors. *)
Definition field_result := (list error + pyval)%type.

Definition at_field (f : field) (errs : list (option nat * error_kind)) : list error :=
  map (fun e => ((f_name f, fst e), snd e)) errs.

(** After the [pre] validators: [None] is returned as it is when the field
    accepts it and refused otherwise; any other value goes through the
    validators of the type. *)
Definition validate_typed (f : field) (v : pyval) : field_result :=
  match v with
  | PNone =>
      if f_allow_none f then inr PNone
      else inl [((f_name f, None), NoneIsNotAllowedError)]
  | _ =>
      match type_validate (f_type f) v with
      | inr x => inr x
      | inl errs => inl (at_field f errs)
      end
  end.

(** [ModelField.validate]: an exception of a [pre] validator that pydantic
    catches becomes the field's error; another one goes on. *)
Definition field_validate (f : field) (v : pyval) (values : kwargs) : M field_result :=
  match f_pre f with
  | None => ret (validate_typed f v)
  | Some validator =>
      fun n =>
        let r := validator v values n in
        match outcome r with
        | Ret v' => Run (Ret (validate_typed f v')) (reads r) (logged r)
        | Raise e =>
            if caught_by_pydantic e
            then Run (Ret (inl [((f_name f, None), ValidatorError e)])) (reads r) (logged r)
            else Run (Raise e) (reads r) (logged r)
        end
  end.

(** The state of the loop over the fields: the validated values and the
    errors collected so far. *)
Definition loop_state := (kwargs * list error)%type.

Definition store (f : field) (st : loop_state) (r : field_result) : loop_state :=
  match r with
  | inr v => (dict_set (fst st) (f_name f) v, snd st)
  | inl errs => (fst st, snd st ++ errs)
  end.

(** One turn of the loop of [validate_model]. *)
Definition field_step (input : kwargs) (st : loop_state) (f : field) : M loop_state :=
  match dict_get input (f_name f) with
  | None =>
      if f_required f then
        ret (fst st, snd st ++ [((f_name f, None), MissingError)])
      else
        match f_pre f with
        | None => ret (dict_set (fst st) (f_name f) (f_default f), snd st)
        | Some _ =>
            r <- field_validate f (f_default f) (fst st) ;;
            ret (store f st r)
        end
  | Some v =>
      r <- field_validate f v (fst st) ;;
      ret (store f st r)
  end.

Fixpoint fields_loop (input : kwargs) (fs : list field) (st : loop_state) : M loop_state :=
  match fs with
  | [] => ret st
  | f :: fs' =>
      st' <- field_step input st f ;;
      fields_loop input fs' st'
  end.

Definition is_field (fs : list field) (k : pystr) : bool :=
  existsb (fun f => pystr_eqb k (f_name f)) fs.

(** [Extra.allow]: the keys of the input that are no field are kept as they
    are.  Python goes through them in the order of a set, which is not
    specified; the model takes the order of the input. *)
Definition add_extras (fs : list field) (input values : kwargs) : kwargs :=
  fold_left (fun vals kv => dict_set vals (fst kv) (snd kv))
            (filter (fun kv => negb (is_field fs (fst kv))) input) values.

(** What the constructor gives when no exception other than pydantic's own
    leaves it: the object (its [__dict__]), or [ValidationError]. *)
Inductive construction :=
| Object (fields : kwargs)
| ValidationError (errors : list error).

(** [AlertDto(payload...)]: [BaseModel.__init__] and [validate_model]. *)
Definition AlertDto_new (payload : kwargs) : M construction :=
  fun n =>
    let pre := set_default_values pf payload n in
    match outcome pre with
    | Raise e =>
        if caught_by_pydantic e
        then Run (Ret (ValidationError [(root_location, ValidatorError e)]))
                 (reads pre) (logged pre)
        else Run (Raise e) (reads pre) (logged pre)
    | Ret input =>
        let rest :=
          (st <- fields_loop input AlertDto_fields ([], []) ;;
           let values := add_extras AlertDto_fields input (fst st) in
           values <- validate_status values ;;
           ret (match snd st with
                | [] => Object values
                | errors => ValidationError errors
                end)) (reads pre) in
        Run (outcome rest) (reads rest) (logged pre ++ logged rest)
    end.

End Pydantic.

(** * Definitions used to state the properties *)

(** What the first [try] of [set_default_values] computes from the raw
    severity: a member, or nothing ([ValueError]). *)
Definition coerce_severity (severity : pyval) : option AlertSeverity :=
  match as_int severity with
  | Some n => member_by_order n
  | None => severity_by_value severity
  end.

(** The value read through a key of the finished object. *)
Definition attribute (obj : kwargs) (name : string) : option pyval :=
  dict_get obj (py name).

(** The pattern the specification words for [dismissUntil], read to the
    letter: [YYYY-MM-DDTHH:MM:SS.ffffffZ], every field with its full number
    of ASCII digits. *)
Definition is_digit (c : N) : bool := (48 <=? c)%N && (c <=? 57)%N.

Fixpoint matches_shape (shape s : pystr) : bool :=
  match shape, s with
  | [], [] => true
  | p :: shape', c :: s' =>
      (if (p =? 100)%N then is_digit c else (c =? p)%N) && matches_shape shape' s'
  | _, _ => false
  end.

(** In the shape, the letter [d] stands for one digit. *)
Definition exact_dismiss_until_pattern (s : pystr) : bool :=
  matches_shape (py "dddd-dd-ddTdd:dd:dd.ddddddZ") s.

(** A platform to run examples on: the clock starts at 2024-05-17 10:30 UTC
    and advances by a second at each reading; only the ASCII digits are
    digits; every text is read by [fromisoformat]; nothing is a URL. *)
Definition example_platform : platform :=
  Platform (fun k => DateTime 2024 5 17 10 30 (N.of_nat k) 123456)
           (fun _ => None) (fun _ => true) (fun _ => None).

(** Keyword arguments written with string literals. *)
Definition payload_of (l : list (string * pyval)) : kwargs :=
  map (fun kv => (py (fst kv), snd kv)) l.

Definition str (s : string) : pyval := PStr (py s).


(** The object a construction built (the empty mapping when it built none). *)
Definition object_of (r : run construction) : kwargs :=
  match outcome r with
  | Ret (Object obj) => obj
  | _ => []
  end.

(** The fields around [status], [severity], [dismissUntil] and [dismissed]
    in the declaration order. *)
Definition status_field : field := required "status" TStatus None.
Definition severity_field : field := required "severity" TSeverity None.
Definition dismissed_field (pf : platform) : field :=
  defaulted "dismissed" TBool (PBool false) (Some (validate_dismissed pf)).

(** The payload with a severity that is no member replaced by [info] and a
    status that is no member replaced by [firing]; an absent key counts as
    the value [None], which is no member, and is added. *)
Definition with_defaults (payload : kwargs) : kwargs :=
  let severity := get_or_none payload (py "severity") in
  let status := get_or_none payload (py "status") in
  dict_set
    (dict_set payload (py "severity")
              (match coerce_severity severity with
               | Some _ => severity
               | None => str "info"
               end))
    (py "status")
    (match status_by_value status with
     | Some _ => status
     | None => str "firing"
     end).

(** The member the first root validator settles on: the one the raw value
    names, or the default. *)
Definition severity_or_info (severity : pyval) : AlertSeverity :=
  match coerce_severity severity with
  | Some m => m
  | None => INFO
  end.

Definition status_or_firing (status : pyval) : AlertStatus :=
  match status_by_value status with
  | Some m => m
  | None => FIRING
  end.

(** The mapping after the two [try] statements. *)
Definition with_enums (values : kwargs) : kwargs :=
  let v1 := dict_set values (py "severity")
                     (PSeverity (severity_or_info (get_or_none values (py "severity")))) in
  dict_set v1 (py "status") (PStatus (status_or_firing (get_or_none values (py "status")))).

Definition enum_warnings (values : kwargs) : list log_record :=
  (match coerce_severity (get_or_none values (py "severity")) with
   | Some _ => []
   | None => [InvalidSeverityWarning (get_or_none values (py "severity")) values]
   end)
  ++
  (let v1 := dict_set values (py "severity")
                      (PSeverity (severity_or_info (get_or_none values (py "severity")))) in
   match status_by_value (get_or_none values (py "status")) with
   | Some _ => []
   | None => [InvalidStatusWarning (get_or_none values (py "status")) v1]
   end).

(** Kinds and places of validation errors. *)
Definition not_missing (e : error) : Prop := snd e <> MissingError.

Definition located_at (k : pystr) (e : error) : Prop := fst (fst e) = k.

(** What the second root validator returns: it changes [status] and
    nothing else. *)
Definition after_validate_status (values : kwargs) : kwargs :=
  if truthy (get_or_none values (py "dismissed"))
  then dict_set values (py "status") (PStatus SUPPRESSED)
  else values.

Definition is_KeyError (e : pyexn) : bool :=
  match e with
  | KeyError _ => true
  | _ => false
  end.



Ltac each_field Hin :=
  unfold AlertDto_fields in Hin; simpl In in Hin;
  repeat (destruct Hin as [Hin | Hin]; [subst |]); [.. | contradiction].


(** ** Keys *)

(** A Python dictionary holds a key once. *)
Definition unique_keys (d : kwargs) : Prop := NoDup (map fst d).


(** ** The source: [AlertDto.__eq__] and [AlertDto.__ne__]

    [self.dict()] goes through the [__dict__] of the object, unknown keys
    included, and through every list and dictionary in it; with
    [use_enum_values] a member becomes its value. *)
Fixpoint get_value (v : pyval) : pyval :=
  match v with
  | PList l => PList (map get_value l)
  | PDict d =>
      PDict ((fix items (d : list (pyval * pyval)) : list (pyval * pyval) :=
                match d with
                | [] => []
                | (k, x) :: d' => (k, get_value x) :: items d'
                end) d)
  | PSeverity m => PStr (severity_value m)
  | PStatus m => PStr (status_value m)
  | _ => v
  end.

Definition dict_method (self : kwargs) : kwargs :=
  map (fun kv => (fst kv, get_value (snd kv))) self.

(** Python's [==] on the values of the model: numbers and booleans by
    value, lists item by item, dictionaries by their keys, whatever the
    order. *)
Fixpoint py_eq (a b : pyval) {struct a} : bool :=
  match a with
  | PList l1 =>
      match b with
      | PList l2 =>
          (fix all2 (l1 l2 : list pyval) : bool :=
             match l1, l2 with
             | [], [] => true
             | x :: l1', y :: l2' => py_eq x y && all2 l1' l2'
             | _, _ => false
             end) l1 l2
      | _ => false
      end
  | PDict d1 =>
      match b with
      | PDict d2 =>
          Nat.eqb (length d1) (length d2)
          && (fix all_in (d : list (pyval * pyval)) : bool :=
                match d with
                | [] => true
                | (k, x) :: d' =>
                    match pydict_get d2 k with
                    | Some y => py_eq x y
                    | None => false
                    end && all_in d'
                end) d1
      | _ => false
      end
  | _ =>
      match b with
      | PList _ | PDict _ => false
      | _ => scalar_eq a b
      end
  end.

(** [dict_self == dict_other]: as many keys, and every key of the first in
    the second with an equal value. *)
Definition dict_eq (a b : kwargs) : bool :=
  Nat.eqb (length a) (length b)
  && forallb (fun kv => match dict_get b (fst kv) with
                        | Some y => py_eq (snd kv) y
                        | None => false
                        end) a.

(** "Fields to exclude from comparison". *)
Definition exclude_fields : list pystr :=
  [py "lastReceived"; py "startedAt"; py "event_id"].

(** The right operand of a comparison: an [AlertDto] (its [__dict__]), or
    anything else. *)
Inductive operand :=
| Instance (fields : kwargs)
| NotAnAlertDto (v : pyval).

(** [AlertDto.__eq__] *)
Definition AlertDto_eq (self : kwargs) (other : operand) : bool :=
  match other with
  | Instance other =>
      let dict_self := dict_method self in
      let dict_other := dict_method other in
      let dict_self := fold_left dict_pop exclude_fields dict_self in
      let dict_other := fold_left dict_pop exclude_fields dict_other in
      dict_eq dict_self dict_other
  | NotAnAlertDto _ => false
  end.

(** [AlertDto.__ne__] *)
Definition AlertDto_ne (self : kwargs) (other : operand) : bool :=
  negb (AlertDto_eq self other).

(** The errors a construction reported (none when it reported none). *)
Definition errors_of (r : run construction) : list error :=
  match outcome r with
  | Ret (ValidationError errs) => errs
  | _ => []
  end.


(** ** The source: the request bodies

    [DeleteRequestBody] and [DismissRequestBody] are plain models: fields
    without validators, and the [Config] of [BaseModel], whose [extra] is
    [Extra.ignore]: unknown keys are dropped. *)








(** * Properties *)

(** ** Text and dictionaries *)

Lemma pystr_eqb_eq (a b : pystr) : pystr_eqb a b = true <-> a = b.
Proof.
  revert b. induction a as [|x a IH]; destruct b as [|y b]; simpl; split;
    try congruence; try reflexivity.
  - intros H. apply andb_true_iff in H. destruct H as [Hx Ha].
    apply N.eqb_eq in Hx. apply IH in Ha. congruence.
  - intros H. inversion H; subst. rewrite N.eqb_refl. simpl. apply IH. reflexivity.
Qed.

Lemma pystr_eqb_refl (a : pystr) : pystr_eqb a a = true.
Proof. apply pystr_eqb_eq. reflexivity. Qed.

Lemma pystr_eqb_neq (a b : pystr) : pystr_eqb a b = false <-> a <> b.
Proof.
  split.
  - intros H E. apply pystr_eqb_eq in E. congruence.
  - intros H. destruct (pystr_eqb a b) eqn:E; [|reflexivity].
    apply pystr_eqb_eq in E. contradiction.
Qed.


Lemma dict_get_set_eq (d : kwargs) (k : pystr) (v : pyval) :
  dict_get (dict_set d k v) k = Some v.
Proof.
  induction d as [|[k' v'] d IH]; simpl.
  - rewrite pystr_eqb_refl. reflexivity.
  - destruct (pystr_eqb k k') eqn:E; simpl; rewrite E; [reflexivity | exact IH].
Qed.

Lemma dict_get_set_neq (d : kwargs) (k k1 : pystr) (v : pyval) :
  pystr_eqb k1 k = false -> dict_get (dict_set d k v) k1 = dict_get d k1.
Proof.
  intros Hne. induction d as [|[k' v'] d IH]; simpl.
  - rewrite Hne. reflexivity.
  - destruct (pystr_eqb k k') eqn:E; simpl.
    + apply pystr_eqb_eq in E. subst k'. rewrite Hne. reflexivity.
    + destruct (pystr_eqb k1 k'); [reflexivity | exact IH].
Qed.

Lemma dict_get_pop_neq (d : kwargs) (k k1 : pystr) :
  pystr_eqb k1 k = false -> dict_get (dict_pop d k) k1 = dict_get d k1.
Proof.
  intros Hne. induction d as [|[k' v'] d IH]; simpl; [reflexivity|].
  destruct (pystr_eqb k k') eqn:E; simpl.
  - apply pystr_eqb_eq in E. subst k'. rewrite Hne. reflexivity.
  - destruct (pystr_eqb k1 k'); [reflexivity | exact IH].
Qed.

Lemma dict_set_absent (d : kwargs) (k : pystr) (v : pyval) :
  dict_get d k = None -> dict_set d k v = d ++ [(k, v)].
Proof.
  induction d as [|[k' v'] d IH]; simpl; [reflexivity|].
  destruct (pystr_eqb k k'); [discriminate|].
  intros H. rewrite IH by exact H. reflexivity.
Qed.

Lemma dict_set_set (d : kwargs) (k : pystr) (v v' : pyval) :
  dict_set (dict_set d k v) k v' = dict_set d k v'.
Proof.
  induction d as [|[k' w] d IH]; simpl.
  - rewrite pystr_eqb_refl. reflexivity.
  - destruct (pystr_eqb k k') eqn:E; simpl; rewrite E; [reflexivity|].
    rewrite IH. reflexivity.
Qed.

Lemma get_or_none_set_eq (d : kwargs) (k : pystr) (v : pyval) :
  get_or_none (dict_set d k v) k = v.
Proof. unfold get_or_none. rewrite dict_get_set_eq. reflexivity. Qed.

Lemma get_or_none_set_neq (d : kwargs) (k k1 : pystr) (v : pyval) :
  pystr_eqb k1 k = false -> get_or_none (dict_set d k v) k1 = get_or_none d k1.
Proof. intros H. unfold get_or_none. rewrite dict_get_set_neq by exact H. reflexivity. Qed.

(** ** The digest is 64 characters long *)

Lemma hexdigest_length (data : list byte) : length (SHA256.hexdigest data) = 64.
Proof.
  unfold SHA256.hexdigest, SHA256.digest_words.
  destruct (SHA256.hash data). reflexivity.
Qed.

(** ** The text [json.dumps] writes is ASCII, so encoding it cannot fail *)













(** ** Running effectful code *)

Lemma bind_Ret_inv {A B : Type} (m : M A) (k : A -> M B) (n : nat) (b : B) :
  outcome (bind m k n) = Ret b ->
  exists a, outcome (m n) = Ret a /\ outcome (k a (reads (m n))) = Ret b.
Proof.
  unfold bind. cbv zeta. destruct (outcome (m n)) as [a|e] eqn:E; simpl; intros H.
  - exists a. split; [reflexivity | exact H].
  - discriminate.
Qed.

Lemma bind_run {A B : Type} (m : M A) (k : A -> M B) (n : nat) (a : A) :
  outcome (m n) = Ret a ->
  bind m k n = Run (outcome (k a (reads (m n)))) (reads (k a (reads (m n))))
                   (logged (m n) ++ logged (k a (reads (m n)))).
Proof. unfold bind. cbv zeta. intros E. rewrite E. reflexivity. Qed.

Lemma bind_raise {A B : Type} (m : M A) (k : A -> M B) (n : nat) (e : pyexn) :
  outcome (m n) = Raise e ->
  bind m k n = Run (Raise e) (reads (m n)) (logged (m n)).
Proof. unfold bind. cbv zeta. intros E. rewrite E. reflexivity. Qed.

(** Two computations that agree on what they return and on the clock agree
    on both after any continuation: the log plays no part. *)
Lemma bind_same {A B : Type} (m1 m2 : M A) (k : A -> M B) (n1 n2 : nat) :
  outcome (m1 n1) = outcome (m2 n2) -> reads (m1 n1) = reads (m2 n2) ->
  outcome (bind m1 k n1) = outcome (bind m2 k n2)
  /\ reads (bind m1 k n1) = reads (bind m2 k n2).
Proof.
  unfold bind. cbv zeta. intros Ho Hr. rewrite Ho, Hr.
  destruct (outcome (m2 n2)); simpl; split; reflexivity.
Qed.

(** ** The first root validator *)

Section RootValidators.

Variable pf : platform.

Lemma default_severity_run (values : kwargs) (n : nat) :
  let severity := get_or_none values (py "severity") in
  default_severity values n =
  Run (Ret (dict_set values (py "severity") (PSeverity (severity_or_info severity)))) n
      (match coerce_severity severity with
       | Some _ => []
       | None => [InvalidSeverityWarning severity values]
       end).
Proof.
  cbv zeta. unfold default_severity, severity_or_info, coerce_severity,
    try_except_ValueError, from_number, AlertSeverity_call, bind, lift.
  cbv zeta.
  destruct (as_int (get_or_none values (py "severity"))) as [z|].
  - destruct (member_by_order z); reflexivity.
  - destruct (severity_by_value (get_or_none values (py "severity"))); reflexivity.
Qed.

Lemma default_status_run (values : kwargs) (n : nat) :
  let status := get_or_none values (py "status") in
  default_status values n =
  Run (Ret (dict_set values (py "status") (PStatus (status_or_firing status)))) n
      (match status_by_value status with
       | Some _ => []
       | None => [InvalidStatusWarning status values]
       end).
Proof.
  cbv zeta. unfold default_status, status_or_firing,
    try_except_ValueError, AlertStatus_call, bind, lift.
  cbv zeta.
  destruct (status_by_value (get_or_none values (py "status"))); reflexivity.
Qed.

(** [set_default_values] is its third block run on the mapping with the two
    members in place; the warnings come first in its log. *)
Lemma set_default_values_run (values : kwargs) (n : nat) :
  let tail := (v <- set_assignee pf (with_enums values) ;;
               ret (dict_pop v (py "deletedAt"))) n in
  set_default_values pf values n =
  Run (outcome tail) (reads tail) (enum_warnings values ++ logged tail).
Proof.
  cbv zeta. unfold set_default_values.
  rewrite (@bind_run _ _ _ _ _ (dict_set values (py "severity")
             (PSeverity (severity_or_info (get_or_none values (py "severity"))))))
    by (rewrite default_severity_run; reflexivity).
  rewrite !default_severity_run. cbn [outcome reads logged].
  rewrite (@bind_run _ _ _ _ _ (with_enums values)).
  2:{ rewrite default_status_run. cbn [outcome].
      rewrite get_or_none_set_neq by reflexivity. reflexivity. }
  rewrite !default_status_run. cbn [outcome reads logged].
  rewrite get_or_none_set_neq by reflexivity.
  unfold enum_warnings. cbv zeta. rewrite <- app_assoc. reflexivity.
Qed.

Lemma set_assignee_get (values input : kwargs) (n : nat) (k : pystr) :
  outcome (set_assignee pf values n) = Ret input ->
  pystr_eqb k (py "assignees") = false ->
  pystr_eqb k (py "assignee") = false ->
  dict_get input k = dict_get values k.
Proof.
  unfold set_assignee. intros H H1 H2.
  apply bind_Ret_inv in H. destruct H as [lr [_ H]].
  destruct (truthy (get_or_none values (py "assignees"))).
  - apply bind_Ret_inv in H. destruct H as [u [_ H]].
    apply bind_Ret_inv in H. destruct H as [a [_ H]].
    inversion H; subst. rewrite dict_get_set_neq by exact H2.
    apply dict_get_pop_neq. exact H1.
  - inversion H; subst. apply dict_get_pop_neq. exact H1.
Qed.

Lemma set_assignee_has_lastReceived (values input : kwargs) (n : nat) :
  outcome (set_assignee pf values n) = Ret input ->
  exists v, dict_get values (py "lastReceived") = Some v.
Proof.
  unfold set_assignee. intros H.
  apply bind_Ret_inv in H. destruct H as [lr [H _]].
  destruct (dict_get values (py "lastReceived")) as [v|]; [eauto | discriminate].
Qed.

(** What the first root validator leaves in the mapping it returns. *)
Lemma set_default_values_get (values input : kwargs) (n : nat) (k : pystr) :
  outcome (set_default_values pf values n) = Ret input ->
  pystr_eqb k (py "assignees") = false ->
  pystr_eqb k (py "assignee") = false ->
  pystr_eqb k (py "deletedAt") = false ->
  dict_get input k = dict_get (with_enums values) k.
Proof.
  rewrite set_default_values_run. cbn [outcome]. intros H H1 H2 H3.
  apply bind_Ret_inv in H. destruct H as [v [Hv H]].
  inversion H; subst. rewrite dict_get_pop_neq by exact H3.
  apply (@set_assignee_get _ _ _ _ Hv H1 H2).
Qed.

Lemma with_enums_severity (values : kwargs) :
  dict_get (with_enums values) (py "severity") =
  Some (PSeverity (severity_or_info (get_or_none values (py "severity")))).
Proof.
  unfold with_enums. cbv zeta. rewrite dict_get_set_neq by reflexivity.
  apply dict_get_set_eq.
Qed.

Lemma with_enums_status (values : kwargs) :
  dict_get (with_enums values) (py "status") =
  Some (PStatus (status_or_firing (get_or_none values (py "status")))).
Proof. unfold with_enums. cbv zeta. apply dict_get_set_eq. Qed.

Lemma with_enums_other (values : kwargs) (k : pystr) :
  pystr_eqb k (py "severity") = false ->
  pystr_eqb k (py "status") = false ->
  dict_get (with_enums values) k = dict_get values k.
Proof.
  intros H1 H2. unfold with_enums. cbv zeta.
  rewrite dict_get_set_neq by exact H2. apply dict_get_set_neq. exact H1.
Qed.

End RootValidators.

(** ** The loop over the fields *)

Section FieldsLoop.

Variable pf : platform.

Lemma validate_items_kinds (l : list pyval) (i : nat) :
  Forall (fun e => snd e = StrError) (fst (validate_items i l)).
Proof.
  revert i. induction l as [|x l IH]; intros i; simpl; [constructor|].
  specialize (IH (S i)). destruct (validate_items (S i) l) as [errs vals].
  destruct (str_validator x); simpl in *; [exact IH|].
  constructor; [reflexivity | exact IH].
Qed.

Lemma type_validate_errors (t : ftype) (v : pyval) (errs : list (option nat * error_kind)) :
  type_validate pf t v = inl errs ->
  errs <> [] /\ Forall (fun e => snd e <> MissingError) errs.
Proof.
  destruct t; simpl.
  - destruct (str_validator v); intros H; inversion H; subst.
    split; [discriminate | repeat constructor; discriminate].
  - destruct (bool_validator v); intros H; inversion H; subst.
    split; [discriminate | repeat constructor; discriminate].
  - destruct (severity_member_validator v); intros H; inversion H; subst.
    split; [discriminate | repeat constructor; discriminate].
  - destruct (status_member_validator v); intros H; inversion H; subst.
    split; [discriminate | repeat constructor; discriminate].
  - destruct v; try (intros H; inversion H; subst;
                     split; [discriminate | repeat constructor; discriminate]).
    pose proof (validate_items_kinds l 0) as Hk.
    destruct (validate_items 0 l) as [[|e es] vals]; intros H; inversion H; subst.
    split; [discriminate|]. simpl in Hk.
    eapply Forall_impl; [|exact Hk]. intros a Ha. rewrite Ha. discriminate.
  - destruct (dict_validator v); intros H; inversion H; subst.
    split; [discriminate | repeat constructor; discriminate].
  - destruct (any_http_url pf v); intros H; inversion H; subst.
    split; [discriminate | repeat constructor; discriminate].
Qed.

Lemma validate_typed_errors (f : field) (v : pyval) (errs : list error) :
  validate_typed pf f v = inl errs ->
  errs <> [] /\ Forall not_missing errs /\ Forall (located_at (f_name f)) errs.
Proof.
  unfold validate_typed.
  assert (Htyped : forall es, type_validate pf (f_type f) v = inl es ->
                              at_field f es <> [] /\ Forall not_missing (at_field f es)
                              /\ Forall (located_at (f_name f)) (at_field f es)).
  { intros es Hes. apply type_validate_errors in Hes. destruct Hes as [Hne Hall].
    split; [|split].
    - destruct es; [contradiction | discriminate].
    - unfold at_field. apply Forall_map. eapply Forall_impl; [|exact Hall].
      intros a Ha. exact Ha.
    - unfold at_field. apply Forall_map. apply Forall_forall. intros a _. reflexivity. }
  destruct v;
    try (destruct (type_validate pf (f_type f) _) as [es|x] eqn:E;
         intros H; inversion H; subst; apply Htyped; reflexivity).
  destruct (f_allow_none f); intros H; inversion H; subst.
  split; [discriminate|].
  split; repeat constructor; discriminate.
Qed.

Lemma field_validate_errors (f : field) (v : pyval) (values : kwargs) (n : nat)
      (errs : list error) :
  outcome (field_validate pf f v values n) = Ret (inl errs) ->
  errs <> [] /\ Forall not_missing errs /\ Forall (located_at (f_name f)) errs.
Proof.
  unfold field_validate. destruct (f_pre f) as [validator|].
  - destruct (outcome (validator v values n)) as [v'|e].
    + simpl. intros H. inversion H as [H']. apply validate_typed_errors in H'. exact H'.
    + destruct (caught_by_pydantic e); simpl; intros H; inversion H; subst.
      split; [discriminate|].
      split; repeat constructor; discriminate.
  - simpl. intros H. inversion H as [H']. apply validate_typed_errors in H'. exact H'.
Qed.

(** One turn either stores a value under the name of the field, or adds
    errors, all of them located at the field; a missing error is added only
    for a required field that the input does not have. *)
Lemma field_step_cases (input : kwargs) (st st' : loop_state) (f : field) (n : nat) :
  outcome (field_step pf input st f n) = Ret st' ->
  (exists x, st' = (dict_set (fst st) (f_name f) x, snd st))
  \/ (exists errs, errs <> [] /\ st' = (fst st, snd st ++ errs)
                   /\ Forall (located_at (f_name f)) errs
                   /\ (Forall not_missing errs
                       \/ (dict_get input (f_name f) = None /\ f_required f = true))).
Proof.
  unfold field_step.
  assert (Hval : forall v, outcome ((r <- field_validate pf f v (fst st) ;; ret (store f st r)) n)
                           = Ret st' ->
    (exists x, st' = (dict_set (fst st) (f_name f) x, snd st))
    \/ (exists errs, errs <> [] /\ st' = (fst st, snd st ++ errs)
                     /\ Forall (located_at (f_name f)) errs
                     /\ (Forall not_missing errs
                         \/ (dict_get input (f_name f) = None /\ f_required f = true)))).
  { intros v H. apply bind_Ret_inv in H. destruct H as [r [Hr H]].
    inversion H; subst. destruct r as [errs|x]; simpl.
    - right. exists errs. apply field_validate_errors in Hr.
      destruct Hr as [Hne [Hall Hloc]].
      repeat split; [exact Hne | exact Hloc | left; exact Hall].
    - left. exists x. reflexivity. }
  destruct (dict_get input (f_name f)) as [v|] eqn:Hget.
  - apply Hval.
  - destruct (f_required f) eqn:Hreq.
    + simpl. intros H. inversion H; subst. right.
      exists [((f_name f, None), MissingError)].
      repeat split; [discriminate | repeat constructor | right; split; reflexivity].
    + destruct (f_pre f) as [validator|] eqn:Hpre.
      * apply Hval.
      * simpl. intros H. inversion H; subst. left. eauto.
Qed.

(** A field that has no validator of its own and that the input gives: one
    turn stores what the validators of its type return. *)
Lemma field_step_plain (input : kwargs) (st : loop_state) (f : field) (n : nat) (v : pyval) :
  f_pre f = None ->
  dict_get input (f_name f) = Some v ->
  field_step pf input st f n = Run (Ret (store f st (validate_typed pf f v))) n [].
Proof.
  intros Hpre Hget. unfold field_step, field_validate. rewrite Hget, Hpre. reflexivity.
Qed.

Lemma loop_cons_inv (input : kwargs) (f : field) (fs : list field)
      (st st' : loop_state) (n : nat) :
  outcome (fields_loop pf input (f :: fs) st n) = Ret st' ->
  exists st1, outcome (field_step pf input st f n) = Ret st1
              /\ outcome (fields_loop pf input fs st1 (reads (field_step pf input st f n))) = Ret st'.
Proof. simpl. apply bind_Ret_inv. Qed.

Lemma loop_app_inv (input : kwargs) (fs1 fs2 : list field) (st st' : loop_state) (n : nat) :
  outcome (fields_loop pf input (fs1 ++ fs2) st n) = Ret st' ->
  exists st1 n1, outcome (fields_loop pf input fs1 st n) = Ret st1
                 /\ outcome (fields_loop pf input fs2 st1 n1) = Ret st'.
Proof.
  revert st n. induction fs1 as [|f fs1 IH]; intros st n H.
  - exists st, n. split; [reflexivity | exact H].
  - simpl app in H. apply loop_cons_inv in H. destruct H as [st0 [Hstep Hrest]].
    apply IH in Hrest. destruct Hrest as [st1 [n1 [H1 H2]]].
    exists st1, n1. split; [|exact H2].
    simpl. unfold bind. cbv zeta. rewrite Hstep. simpl. exact H1.
Qed.

(** The loop leaves alone every key that is not the name of one of its
    fields. *)
Lemma loop_preserves (input : kwargs) (fs : list field) (st st' : loop_state)
      (n : nat) (k : pystr) :
  outcome (fields_loop pf input fs st n) = Ret st' ->
  is_field fs k = false ->
  dict_get (fst st') k = dict_get (fst st) k.
Proof.
  revert st n. induction fs as [|f fs IH]; intros st n H Hk.
  - simpl in H. inversion H; subst. reflexivity.
  - apply loop_cons_inv in H. destruct H as [st1 [Hstep Hrest]].
    simpl in Hk. apply orb_false_iff in Hk. destruct Hk as [Hkf Hkfs].
    rewrite (IH _ _ Hrest Hkfs).
    apply field_step_cases in Hstep.
    destruct Hstep as [[x Hx] | [errs [_ [Hx _]]]]; subst st1; simpl.
    + apply dict_get_set_neq. exact Hkf.
    + reflexivity.
Qed.

(** Errors are only ever added. *)
Lemma loop_errors_grow (input : kwargs) (fs : list field) (st st' : loop_state) (n : nat) :
  outcome (fields_loop pf input fs st n) = Ret st' ->
  exists more, snd st' = snd st ++ more.
Proof.
  revert st n. induction fs as [|f fs IH]; intros st n H.
  - simpl in H. inversion H; subst. exists []. rewrite app_nil_r. reflexivity.
  - apply loop_cons_inv in H. destruct H as [st1 [Hstep Hrest]].
    apply IH in Hrest. destruct Hrest as [more Hmore].
    apply field_step_cases in Hstep.
    destruct Hstep as [[x Hx] | [errs [_ [Hx _]]]]; subst st1; simpl in Hmore.
    + exists more. exact Hmore.
    + exists (errs ++ more). rewrite Hmore. rewrite app_assoc. reflexivity.
Qed.

(** When the input has every required field, no error says one is missing. *)
Lemma loop_not_missing (input : kwargs) (fs : list field) (st st' : loop_state) (n : nat) :
  outcome (fields_loop pf input fs st n) = Ret st' ->
  (forall f, In f fs -> f_required f = true -> dict_get input (f_name f) <> None) ->
  Forall not_missing (snd st) ->
  Forall not_missing (snd st').
Proof.
  revert st n. induction fs as [|f fs IH]; intros st n H Hreq Hst.
  - simpl in H. inversion H; subst. exact Hst.
  - apply loop_cons_inv in H. destruct H as [st1 [Hstep Hrest]].
    apply (IH _ _ Hrest).
    + intros g Hg. apply Hreq. right. exact Hg.
    + apply field_step_cases in Hstep.
      destruct Hstep as [[x Hx] | [errs [_ [Hx [_ Hkind]]]]]; subst st1; simpl.
      * exact Hst.
      * apply Forall_app. split; [exact Hst|].
        destruct Hkind as [Hall | [Hnone Hr]]; [exact Hall|].
        exfalso. apply (Hreq f); [left; reflexivity | exact Hr | exact Hnone].
Qed.

(** No error is located at a key whose field, if there is one, gets from the
    input a value that the validators of its type accept. *)
Lemma loop_no_errors_at (input : kwargs) (fs : list field) (st st' : loop_state)
      (n : nat) (k : pystr) :
  outcome (fields_loop pf input fs st n) = Ret st' ->
  (forall f, In f fs -> f_name f = k ->
             f_pre f = None
             /\ exists v x, dict_get input k = Some v /\ validate_typed pf f v = inr x) ->
  Forall (fun e => ~ located_at k e) (snd st) ->
  Forall (fun e => ~ located_at k e) (snd st').
Proof.
  revert st n. induction fs as [|f fs IH]; intros st n H Hgood Hst.
  - simpl in H. inversion H; subst. exact Hst.
  - apply loop_cons_inv in H. destruct H as [st1 [Hstep Hrest]].
    apply (IH _ _ Hrest).
    + intros g Hg. apply Hgood. right. exact Hg.
    + destruct (pystr_eqb (f_name f) k) eqn:Hname.
      * apply pystr_eqb_eq in Hname.
        destruct (Hgood f (or_introl eq_refl) Hname) as [Hpre [v [x [Hget Hv]]]].
        rewrite <- Hname in Hget.
        rewrite (@field_step_plain input st f n v Hpre Hget) in Hstep.
        cbn [outcome] in Hstep. inversion Hstep; subst st1. rewrite Hv. exact Hst.
      * apply pystr_eqb_neq in Hname. apply field_step_cases in Hstep.
        destruct Hstep as [[x Hx] | [errs [_ [Hx [Hloc _]]]]]; subst st1; simpl.
        -- exact Hst.
        -- apply Forall_app. split; [exact Hst|].
           eapply Forall_impl; [|exact Hloc].
           intros e He Hk. unfold located_at in He, Hk. congruence.
Qed.

(** In an object that was built, such a field holds what the validators of
    its type made of the input. *)
Lemma loop_field_value (input : kwargs) (fs1 fs2 : list field) (f : field)
      (st st' : loop_state) (n : nat) (v : pyval) :
  outcome (fields_loop pf input (fs1 ++ f :: fs2) st n) = Ret st' ->
  snd st' = [] ->
  is_field fs2 (f_name f) = false ->
  f_pre f = None ->
  dict_get input (f_name f) = Some v ->
  exists x, validate_typed pf f v = inr x /\ dict_get (fst st') (f_name f) = Some x.
Proof.
  intros H Hok Hfs2 Hpre Hget.
  apply loop_app_inv in H. destruct H as [st1 [n1 [_ H]]].
  apply loop_cons_inv in H. destruct H as [st2 [Hstep Hrest]].
  rewrite (@field_step_plain input st1 f n1 v Hpre Hget) in Hstep, Hrest.
  cbn [outcome reads] in Hstep, Hrest. inversion Hstep; subst st2. clear Hstep.
  destruct (validate_typed pf f v) as [errs|x] eqn:Hv.
  - exfalso. apply validate_typed_errors in Hv. destruct Hv as [Hne _].
    apply loop_errors_grow in Hrest. destruct Hrest as [more Hmore].
    simpl in Hmore. rewrite Hok in Hmore.
    symmetry in Hmore. apply app_eq_nil in Hmore. destruct Hmore as [Hmore _].
    apply app_eq_nil in Hmore. destruct Hmore as [_ Hmore]. contradiction.
  - exists x. split; [reflexivity|].
    rewrite (@loop_preserves _ _ _ _ _ _ Hrest Hfs2). simpl. apply dict_get_set_eq.
Qed.

(** Unknown keys never replace a field. *)
Lemma add_extras_field (fs : list field) (input values : kwargs) (k : pystr) :
  is_field fs k = true ->
  dict_get (add_extras fs input values) k = dict_get values k.
Proof.
  intros Hk. unfold add_extras. revert values.
  induction input as [|[k' v'] input IH]; intros values; simpl; [reflexivity|].
  destruct (is_field fs k') eqn:Hk'; simpl; [apply IH|].
  rewrite IH. apply dict_get_set_neq.
  apply pystr_eqb_neq. intros E. subst k'. congruence.
Qed.

Lemma validate_status_run (values : kwargs) (n : nat) :
  validate_status values n = Run (Ret (after_validate_status values)) n [].
Proof.
  unfold validate_status, after_validate_status.
  destruct (truthy (get_or_none values (py "dismissed"))); reflexivity.
Qed.

Lemma after_validate_status_other (values : kwargs) (k : pystr) :
  pystr_eqb k (py "status") = false ->
  dict_get (after_validate_status values) k = dict_get values k.
Proof.
  intros H. unfold after_validate_status.
  destruct (truthy (get_or_none values (py "dismissed"))); [|reflexivity].
  apply dict_get_set_neq. exact H.
Qed.

Lemma after_validate_status_status (values : kwargs) :
  dict_get (after_validate_status values) (py "status") =
  if truthy (get_or_none (after_validate_status values) (py "dismissed"))
  then Some (PStatus SUPPRESSED)
  else dict_get values (py "status").
Proof.
  assert (Hd : get_or_none (after_validate_status values) (py "dismissed")
               = get_or_none values (py "dismissed")).
  { unfold get_or_none. rewrite after_validate_status_other by reflexivity. reflexivity. }
  rewrite Hd. unfold after_validate_status.
  destruct (truthy (get_or_none values (py "dismissed"))); [|reflexivity].
  apply dict_get_set_eq.
Qed.

(** ** The constructor, taken apart *)

Lemma AlertDto_new_run (payload : kwargs) (n : nat) (input : kwargs) :
  outcome (set_default_values pf payload n) = Ret input ->
  let pre := set_default_values pf payload n in
  let loop := fields_loop pf input (AlertDto_fields pf) ([], []) (reads pre) in
  outcome (AlertDto_new pf payload n) =
  match outcome loop with
  | Ret st =>
      Ret (match snd st with
           | [] => Object (after_validate_status
                             (add_extras (AlertDto_fields pf) input (fst st)))
           | errors => ValidationError errors
           end)
  | Raise e => Raise e
  end.
Proof.
  intros Hpre. cbv zeta. unfold AlertDto_new. cbv zeta. rewrite Hpre.
  cbn [outcome]. unfold bind at 1. cbv zeta.
  destruct (outcome (fields_loop pf input (AlertDto_fields pf) ([], []) _)) as [st|e];
    [|reflexivity].
  cbn [outcome]. unfold bind. cbv zeta. rewrite validate_status_run. reflexivity.
Qed.

Lemma AlertDto_new_Object_inv (payload : kwargs) (n : nat) (obj : kwargs) :
  outcome (AlertDto_new pf payload n) = Ret (Object obj) ->
  exists input st,
    outcome (set_default_values pf payload n) = Ret input
    /\ outcome (fields_loop pf input (AlertDto_fields pf) ([], [])
                            (reads (set_default_values pf payload n))) = Ret st
    /\ snd st = []
    /\ obj = after_validate_status (add_extras (AlertDto_fields pf) input (fst st)).
Proof.
  intros H.
  destruct (outcome (set_default_values pf payload n)) as [input|e] eqn:Hpre.
  - rewrite (@AlertDto_new_run _ _ _ Hpre) in H. cbv zeta in H.
    destruct (outcome (fields_loop pf input (AlertDto_fields pf) ([], []) _))
      as [st|e] eqn:Hloop; [|discriminate].
    exists input, st. split; [reflexivity|]. split; [exact Hloop|].
    destruct (snd st); inversion H; subst. split; reflexivity.
  - unfold AlertDto_new in H. cbv zeta in H. rewrite Hpre in H.
    destruct (caught_by_pydantic e); discriminate.
Qed.

Lemma AlertDto_new_errors_inv (payload : kwargs) (n : nat) (input : kwargs)
      (errs : list error) :
  outcome (set_default_values pf payload n) = Ret input ->
  outcome (AlertDto_new pf payload n) = Ret (ValidationError errs) ->
  exists st,
    outcome (fields_loop pf input (AlertDto_fields pf) ([], [])
                         (reads (set_default_values pf payload n))) = Ret st
    /\ snd st = errs.
Proof.
  intros Hpre H. rewrite (@AlertDto_new_run _ _ _ Hpre) in H. cbv zeta in H.
  destruct (outcome (fields_loop pf input (AlertDto_fields pf) ([], []) _))
    as [st|e] eqn:Hloop; [|discriminate].
  exists st. split; [reflexivity|].
  destruct (snd st); inversion H; subst. reflexivity.
Qed.

End FieldsLoop.

(** * The claims *)

(** ** The severity scale *)

Lemma from_number_order (m : AlertSeverity) (k : nat) :
  from_number (order m) k = Run (Ret m) k [].
Proof. destruct m; reflexivity. Qed.

Lemma member_by_order_sound (z : Z) (m : AlertSeverity) :
  member_by_order z = Some m -> order m = z.
Proof.
  unfold member_by_order. intros H. apply find_some in H. destruct H as [_ H].
  apply Z.eqb_eq in H. exact H.
Qed.

(** C9. The severities are totally ordered by their order, with
    critical > high > warning > info > low; [from_number] of the order of a
    member gives the member back, so for each of 1..5 it gives the member of
    that order, and a member it returns has the order asked for;
    [from_number(0)] raises [ValueError]. *)
Theorem severity_scale_total_order_and_from_number :
  (severity_gt CRITICAL (PSeverity HIGH) = Answer true
   /\ severity_gt HIGH (PSeverity WARNING) = Answer true
   /\ severity_gt WARNING (PSeverity INFO) = Answer true
   /\ severity_gt INFO (PSeverity LOW) = Answer true)
  /\ (forall a b : AlertSeverity,
        severity_lt a (PSeverity b) = Answer (order a <? order b)%Z
        /\ severity_le a (PSeverity b) = Answer (order a <=? order b)%Z
        /\ severity_gt a (PSeverity b) = Answer (order b <? order a)%Z
        /\ severity_ge a (PSeverity b) = Answer (order b <=? order a)%Z)
  /\ (forall a b : AlertSeverity, order a = order b <-> a = b)
  /\ (forall a b : AlertSeverity,
        severity_lt a (PSeverity b) = Answer true
        \/ a = b
        \/ severity_gt a (PSeverity b) = Answer true)
  /\ Forall (fun z => exists m, forall k,
                 from_number z k = Run (Ret m) k []
                 /\ order m = z
                 /\ from_number (order m) k = from_number z k)
            [1; 2; 3; 4; 5]%Z
  /\ (forall (z : Z) (m : AlertSeverity) (k : nat),
        outcome (from_number z k) = Ret m <-> order m = z)
  /\ (forall k, from_number 0 k = Run (Raise ValueError) k []).
Proof.
  split; [repeat split|].
  split.
  { intros a b. unfold severity_lt, severity_le, severity_gt, severity_ge, compare_orders.
    rewrite Z.gtb_ltb, Z.geb_leb. repeat split. }
  split.
  { intros a b. split; [|intros; subst; reflexivity].
    destruct a, b; simpl; intros H; solve [reflexivity | discriminate]. }
  split.
  { intros a b. destruct a, b; simpl; auto. }
  split.
  { repeat constructor.
    - exists LOW. intros k. repeat split.
    - exists INFO. intros k. repeat split.
    - exists WARNING. intros k. repeat split.
    - exists HIGH. intros k. repeat split.
    - exists CRITICAL. intros k. repeat split. }
  split.
  { intros z m k. split.
    - unfold from_number, lift. destruct (member_by_order z) as [m'|] eqn:E; simpl; intros H.
      + inversion H; subst. apply member_by_order_sound. exact E.
      + discriminate.
    - intros H. subst z. rewrite from_number_order. reflexivity. }
  intros k. reflexivity.
Qed.

(** ** The fingerprint *)

(** C8. An explicit fingerprint is returned cut to its first 255
    characters, without hashing, logging or reading the clock: one longer
    than 255 characters comes back 255 characters long, a shorter one comes
    back as it is. *)
Theorem explicit_fingerprint_is_truncated
        (s : pystr) (values : kwargs) (k : nat) :
  assign_fingerprint_if_none (PStr s) values k = Run (Ret (PStr (firstn 255 s))) k []
  /\ (255 < length s -> length (firstn 255 s) = 255)
  /\ (length s <= 255 -> firstn 255 s = s).
Proof.
  split; [reflexivity|]. split.
  - intros H. rewrite length_firstn. lia.
  - intros H. apply firstn_all2. exact H.
Qed.

Lemma explicit_fingerprint_is_truncated_witness :
  (255 < length (repeat 97%N 300) /\ length (repeat 97%N 10) <= 255)
  /\ assign_fingerprint_if_none (PStr (repeat 97%N 300)) [] 0
     = Run (Ret (PStr (repeat 97%N 255))) 0 []
  /\ length (firstn 255 (repeat 97%N 300)) = 255
  /\ firstn 255 (repeat 97%N 10) = repeat 97%N 10.
Proof.
  assert (H300 : 255 < length (repeat 97%N 300)) by (vm_compute; lia).
  assert (H10 : length (repeat 97%N 10) <= 255) by (vm_compute; lia).
  split; [split; assumption|].
  destruct (explicit_fingerprint_is_truncated (repeat 97%N 300) [] 0) as [Hrun [Hlong _]].
  destruct (explicit_fingerprint_is_truncated (repeat 97%N 10) [] 0) as [_ [_ Hshort]].
  split; [exact Hrun|]. split; [exact (Hlong H300) | exact (Hshort H10)].
Defined.

Lemma truthy_nonempty (s : pystr) : s <> [] -> truthy (PStr s) = true.
Proof. destruct s; [contradiction | reflexivity]. Qed.

Lemma fingerprint_of_name (values : kwargs) (name : pystr) (k : nat) :
  dict_get values (py "name") = Some (PStr name) ->
  name <> [] ->
  assign_fingerprint_if_none PNone values k =
  match encode name with
  | Some data => Run (Ret (PStr (SHA256.hexdigest data))) k []
  | None => Run (Raise UnicodeEncodeError) k []
  end.
Proof.
  intros Hname Hne. unfold assign_fingerprint_if_none, get_or_none. rewrite Hname.
  rewrite (truthy_nonempty Hne). simpl negb. cbv iota.
  unfold bind, ret, str_encode, lift. cbv zeta. cbn [outcome reads logged].
  destruct (encode name); reflexivity.
Qed.



Lemma hexdigest_not_empty (data : list byte) : SHA256.hexdigest data <> [].
Proof.
  intros H. pose proof (hexdigest_length data) as L. rewrite H in L. discriminate.
Qed.




(** ** Dismissal *)

(** C7. A raw [dismissed] that is a boolean is taken as it is and one that
    is a string counts as true when its lower-case form is [true].  When it
    is true: with [dismissUntil] absent, [None], empty or [forever] the
    result is true; with a [dismissUntil] that [strptime] reads, the result
    tells whether the instant read from the clock is strictly before it.
    When it is false the result is false, whatever [dismissUntil] is. *)
Theorem dismissed_resolution (pf : platform) (raw : pyval) (values : kwargs) (k : nat) :
  (forall b, normalize_dismissed (PBool b) = PBool b)
  /\ (forall s, normalize_dismissed (PStr s) = PBool (pystr_eqb (str_lower s) (py "true")))
  /\ (normalize_dismissed raw = PBool true ->
      (get_or_none values (py "dismissUntil") = PNone
       \/ get_or_none values (py "dismissUntil") = PStr []
       \/ get_or_none values (py "dismissUntil") = PStr (py "forever") ->
       validate_dismissed pf raw values k = Run (Ret (PBool true)) k [])
      /\ (forall s until,
            get_or_none values (py "dismissUntil") = PStr s ->
            s <> [] -> s <> py "forever" ->
            strptime_dismiss_until pf s = Some until ->
            validate_dismissed pf raw values k
            = Run (Ret (PBool (datetime_ltb (clock pf k) until))) (S k) []))
  /\ (normalize_dismissed raw = PBool false ->
      validate_dismissed pf raw values k = Run (Ret (PBool false)) k []).
Proof.
  split; [reflexivity|]. split; [reflexivity|]. split.
  - intros Hraw. split.
    + intros Hdu. unfold validate_dismissed. cbv zeta. rewrite Hraw.
      change (truthy (PBool true)) with true. cbn [negb].
      destruct Hdu as [H | [H | H]]; rewrite H; reflexivity.
    + intros s until Hdu Hne Hnf Hparse. unfold validate_dismissed. cbv zeta.
      rewrite Hraw, Hdu.
      change (truthy (PBool true)) with true. cbn [negb].
      rewrite (truthy_nonempty Hne). cbn [negb orb].
      unfold str_equals. apply pystr_eqb_neq in Hnf. rewrite Hnf.
      unfold strptime, bind, lift, now, ret. cbv zeta. rewrite Hparse. reflexivity.
  - intros Hraw. unfold validate_dismissed. cbv zeta. rewrite Hraw. reflexivity.
Qed.

Lemma dismissed_resolution_witness :
  validate_dismissed example_platform (str "True")
    (payload_of [("dismissUntil", str "forever")]%string) 0
  = Run (Ret (PBool true)) 0 []
  /\ validate_dismissed example_platform (PBool true)
       (payload_of [("dismissUntil", str "2099-01-01T00:00:00.000000Z")]%string) 0
     = Run (Ret (PBool true)) 1 []
  /\ validate_dismissed example_platform (str "TRUE")
       (payload_of [("dismissUntil", str "2000-01-01T00:00:00.000000Z")]%string) 0
     = Run (Ret (PBool false)) 1 []
  /\ validate_dismissed example_platform (str "yes")
       (payload_of [("dismissUntil", str "2099-01-01T00:00:00.000000Z")]%string) 0
     = Run (Ret (PBool false)) 0 [].
Proof.
  split; [|split; [|split]].
  - destruct (dismissed_resolution example_platform (str "True")
                (payload_of [("dismissUntil", str "forever")]%string) 0)
      as [_ [_ [Htrue _]]].
    destruct (Htrue eq_refl) as [Hpermanent _]. apply Hpermanent.
    right. right. reflexivity.
  - destruct (dismissed_resolution example_platform (PBool true)
                (payload_of [("dismissUntil", str "2099-01-01T00:00:00.000000Z")]%string) 0)
      as [_ [_ [Htrue _]]].
    destruct (Htrue eq_refl) as [_ Huntil].
    rewrite (Huntil (py "2099-01-01T00:00:00.000000Z") (DateTime 2099 1 1 0 0 0 0)).
    + reflexivity.
    + reflexivity.
    + discriminate.
    + discriminate.
    + vm_compute. reflexivity.
  - destruct (dismissed_resolution example_platform (str "TRUE")
                (payload_of [("dismissUntil", str "2000-01-01T00:00:00.000000Z")]%string) 0)
      as [_ [_ [Htrue _]]].
    destruct (Htrue eq_refl) as [_ Huntil].
    rewrite (Huntil (py "2000-01-01T00:00:00.000000Z") (DateTime 2000 1 1 0 0 0 0)).
    + reflexivity.
    + reflexivity.
    + discriminate.
    + discriminate.
    + vm_compute. reflexivity.
  - destruct (dismissed_resolution example_platform (str "yes")
                (payload_of [("dismissUntil", str "2099-01-01T00:00:00.000000Z")]%string) 0)
      as [_ [_ [_ Hfalse]]].
    apply Hfalse. reflexivity.
Defined.

(** ** The constructed object *)

Section Construction.

Variable pf : platform.

Lemma input_severity (payload input : kwargs) (n : nat) :
  outcome (set_default_values pf payload n) = Ret input ->
  dict_get input (py "severity")
  = Some (PSeverity (severity_or_info (get_or_none payload (py "severity")))).
Proof.
  intros H. rewrite (@set_default_values_get pf _ _ _ (py "severity") H) by reflexivity.
  apply with_enums_severity.
Qed.

Lemma input_status (payload input : kwargs) (n : nat) :
  outcome (set_default_values pf payload n) = Ret input ->
  dict_get input (py "status")
  = Some (PStatus (status_or_firing (get_or_none payload (py "status")))).
Proof.
  intros H. rewrite (@set_default_values_get pf _ _ _ (py "status") H) by reflexivity.
  apply with_enums_status.
Qed.

Lemma input_other (payload input : kwargs) (n : nat) (k : pystr) :
  outcome (set_default_values pf payload n) = Ret input ->
  pystr_eqb k (py "assignees") = false ->
  pystr_eqb k (py "assignee") = false ->
  pystr_eqb k (py "deletedAt") = false ->
  pystr_eqb k (py "severity") = false ->
  pystr_eqb k (py "status") = false ->
  dict_get input k = dict_get payload k.
Proof.
  intros H H1 H2 H3 H4 H5.
  rewrite (@set_default_values_get pf _ _ _ k H H1 H2 H3).
  apply with_enums_other; assumption.
Qed.

(** The severity of a built object is the value of the member the first
    root validator put in the mapping. *)
Lemma built_severity (payload obj : kwargs) (n : nat) :
  outcome (AlertDto_new pf payload n) = Ret (Object obj) ->
  attribute obj "severity"
  = Some (PStr (severity_value (severity_or_info (get_or_none payload (py "severity"))))).
Proof.
  intros H. apply AlertDto_new_Object_inv in H.
  destruct H as [input [st [Hpre [Hloop [Hok Hobj]]]]]. subst obj.
  pose proof (@input_severity _ _ _ Hpre) as Hin.
  change (AlertDto_fields pf)
    with (firstn 3 (AlertDto_fields pf) ++ severity_field :: skipn 4 (AlertDto_fields pf))
    in Hloop.
  destruct (@loop_field_value pf _ _ _ _ _ _ _ _ Hloop Hok eq_refl eq_refl Hin)
    as [x [Hx Hget]].
  simpl in Hx. inversion Hx; subst x. clear Hx.
  unfold attribute. rewrite after_validate_status_other by reflexivity.
  rewrite add_extras_field by reflexivity. exact Hget.
Qed.

(** Its status is [SUPPRESSED] when it is dismissed, and otherwise the value
    of the member the first root validator put in the mapping. *)
Lemma built_status (payload obj : kwargs) (n : nat) :
  outcome (AlertDto_new pf payload n) = Ret (Object obj) ->
  attribute obj "status"
  = Some (if truthy (get_or_none obj (py "dismissed"))
          then PStatus SUPPRESSED
          else PStr (status_value (status_or_firing (get_or_none payload (py "status"))))).
Proof.
  intros H. apply AlertDto_new_Object_inv in H.
  destruct H as [input [st [Hpre [Hloop [Hok Hobj]]]]]. subst obj.
  pose proof (@input_status _ _ _ Hpre) as Hin.
  change (AlertDto_fields pf)
    with (firstn 2 (AlertDto_fields pf) ++ status_field :: skipn 3 (AlertDto_fields pf))
    in Hloop.
  destruct (@loop_field_value pf _ _ _ _ _ _ _ _ Hloop Hok eq_refl eq_refl Hin)
    as [x [Hx Hget]].
  simpl in Hx. inversion Hx; subst x. clear Hx.
  unfold attribute. rewrite after_validate_status_status.
  destruct (truthy (get_or_none (after_validate_status _) (py "dismissed")));
    [reflexivity|].
  rewrite add_extras_field by reflexivity. exact Hget.
Qed.

(** The constructor looks at the first root validator only through what it
    returned or raised and through the clock. *)
Lemma AlertDto_new_same (payload1 payload2 : kwargs) (n : nat) :
  outcome (set_default_values pf payload1 n) = outcome (set_default_values pf payload2 n) ->
  reads (set_default_values pf payload1 n) = reads (set_default_values pf payload2 n) ->
  outcome (AlertDto_new pf payload1 n) = outcome (AlertDto_new pf payload2 n).
Proof.
  intros Ho Hr. unfold AlertDto_new. cbv zeta. rewrite Ho, Hr.
  destruct (outcome (set_default_values pf payload2 n)) as [input|e]; [reflexivity|].
  destruct (caught_by_pydantic e); reflexivity.
Qed.

Lemma with_enums_same (payload1 payload2 : kwargs) (n : nat) :
  with_enums payload1 = with_enums payload2 ->
  outcome (AlertDto_new pf payload1 n) = outcome (AlertDto_new pf payload2 n).
Proof.
  intros H. apply AlertDto_new_same; rewrite !set_default_values_run; cbv zeta;
    cbn [outcome reads]; rewrite H; reflexivity.
Qed.


End Construction.

(** C1. In every object the constructor builds, [dismissed] true means
    [status] is [SUPPRESSED], whatever status the payload gave. *)
Theorem dismissed_implies_suppressed
        (pf : platform) (payload obj : kwargs) (n : nat) :
  outcome (AlertDto_new pf payload n) = Ret (Object obj) ->
  attribute obj "dismissed" = Some (PBool true) ->
  attribute obj "status" = Some (PStatus SUPPRESSED).
Proof.
  intros H Hd. rewrite (@built_status pf payload obj n H).
  unfold attribute in Hd. unfold get_or_none. rewrite Hd. reflexivity.
Qed.

Lemma dismissed_implies_suppressed_witness :
  let payload :=
    payload_of [("id", str "2"); ("name", str "X"); ("status", str "firing");
                ("dismissed", str "true");
                ("dismissUntil", str "2099-01-01T00:00:00.000000Z");
                ("lastReceived", str "2024-01-01T00:00:00+00:00")]%string in
  let obj := object_of (AlertDto_new example_platform payload 0) in
  outcome (AlertDto_new example_platform payload 0) = Ret (Object obj)
  /\ attribute obj "dismissed" = Some (PBool true)
  /\ attribute obj "status" = Some (PStatus SUPPRESSED).
Proof.
  cbv zeta.
  match goal with
  | |- ?A /\ ?B /\ _ =>
      assert (Hbuilt : A) by (vm_compute; reflexivity);
      assert (Hdismissed : B) by (vm_compute; reflexivity)
  end.
  split; [exact Hbuilt|]. split; [exact Hdismissed|].
  exact (@dismissed_implies_suppressed _ _ _ _ Hbuilt Hdismissed).
Defined.

(** ** A payload without [lastReceived] *)



(** ** Severity and status that are invalid or absent *)

Section Degraded.

Variable pf : platform.

(** The first root validator always leaves members in the mapping, so the
    loop never reports an error for [severity] or [status]. *)
Lemma no_error_at_severity_or_status (payload : kwargs) (n : nat) (errs : list error) :
  outcome (AlertDto_new pf payload n) = Ret (ValidationError errs) ->
  Forall (fun e => ~ located_at (py "severity") e /\ ~ located_at (py "status") e) errs.
Proof.
  intros H.
  destruct (outcome (set_default_values pf payload n)) as [input|e] eqn:Hpre.
  - destruct (@AlertDto_new_errors_inv pf _ _ _ _ Hpre H) as [st [Hloop Herrs]].
    subst errs.
    pose proof (@input_severity pf _ _ _ Hpre) as Hsev.
    pose proof (@input_status pf _ _ _ Hpre) as Hsta.
    assert (H1 : Forall (fun e => ~ located_at (py "severity") e) (snd st)).
    { apply (@loop_no_errors_at pf _ _ _ _ _ (py "severity") Hloop); [|constructor].
      intros f Hin Hname. each_field Hin; try (cbv in Hname; discriminate).
      split; [reflexivity|]. eexists. eexists. split; [exact Hsev | reflexivity]. }
    assert (H2 : Forall (fun e => ~ located_at (py "status") e) (snd st)).
    { apply (@loop_no_errors_at pf _ _ _ _ _ (py "status") Hloop); [|constructor].
      intros f Hin Hname. each_field Hin; try (cbv in Hname; discriminate).
      split; [reflexivity|]. eexists. eexists. split; [exact Hsta | reflexivity]. }
    apply Forall_forall. intros e He. split.
    + exact (proj1 (Forall_forall _ _) H1 e He).
    + exact (proj1 (Forall_forall _ _) H2 e He).
  - unfold AlertDto_new in H. cbv zeta in H. rewrite Hpre in H.
    destruct (caught_by_pydantic e); [|discriminate].
    cbn [outcome] in H. inversion H; subst.
    constructor; [|constructor]. split; intros Hloc; cbv in Hloc; discriminate.
Qed.

(** When the payload has [id] and [name] and the first root validator
    returns, every required field is in the mapping the loop reads. *)
Lemma no_missing_error (payload : kwargs) (n : nat) (errs : list error) :
  dict_get payload (py "id") <> None ->
  dict_get payload (py "name") <> None ->
  outcome (AlertDto_new pf payload n) = Ret (ValidationError errs) ->
  Forall not_missing errs.
Proof.
  intros Hid Hname H.
  destruct (outcome (set_default_values pf payload n)) as [input|e] eqn:Hpre.
  - destruct (@AlertDto_new_errors_inv pf _ _ _ _ Hpre H) as [st [Hloop Herrs]].
    subst errs.
    apply (@loop_not_missing pf _ _ _ _ _ Hloop); [|constructor].
    intros f Hin Hreq. each_field Hin; try (cbv in Hreq; discriminate).
    + change (f_name (required "id" TStr None)) with (py "id").
      rewrite (@input_other pf _ _ _ (py "id") Hpre) by reflexivity. exact Hid.
    + change (f_name (required "name" TStr None)) with (py "name").
      rewrite (@input_other pf _ _ _ (py "name") Hpre) by reflexivity. exact Hname.
    + change (f_name (required "status" TStatus None)) with (py "status").
      rewrite (@input_status pf _ _ _ Hpre). discriminate.
    + change (f_name (required "severity" TSeverity None)) with (py "severity").
      rewrite (@input_severity pf _ _ _ Hpre). discriminate.
    + change (f_name (required "lastReceived" TStr (Some (validate_last_received pf))))
        with (py "lastReceived").
      rewrite (@set_default_values_get pf _ _ _ (py "lastReceived") Hpre) by reflexivity.
      rewrite set_default_values_run in Hpre. cbv zeta in Hpre. cbn [outcome] in Hpre.
      apply bind_Ret_inv in Hpre. destruct Hpre as [v [Hv _]].
      apply set_assignee_has_lastReceived in Hv. destruct Hv as [w Hw].
      rewrite Hw. discriminate.
  - unfold AlertDto_new in H. cbv zeta in H. rewrite Hpre in H.
    destruct (caught_by_pydantic e); [|discriminate].
    cbn [outcome] in H. inversion H; subst.
    constructor; [|constructor]. unfold not_missing. simpl. discriminate.
Qed.

Lemma dict_set_commute (d : kwargs) (k1 k2 : pystr) (v1 v2 : pyval) :
  dict_get d k1 <> None ->
  pystr_eqb k1 k2 = false ->
  dict_set (dict_set d k1 v1) k2 v2 = dict_set (dict_set d k2 v2) k1 v1.
Proof.
  intros Hin Hne. induction d as [|[k w] d IH]; [contradiction Hin; reflexivity|].
  simpl in Hin |- *.
  destruct (pystr_eqb k1 k) eqn:E1; destruct (pystr_eqb k2 k) eqn:E2; simpl;
    rewrite ?E1, ?E2; try reflexivity.
  - apply pystr_eqb_eq in E1. apply pystr_eqb_eq in E2. subst.
    rewrite pystr_eqb_refl in Hne. discriminate.
  - rewrite IH by exact Hin. reflexivity.
Qed.

Lemma with_enums_with_defaults (payload : kwargs) :
  with_enums (with_defaults payload) = with_enums payload.
Proof.
  unfold with_enums, with_defaults. cbv zeta.
  set (severity := get_or_none payload (py "severity")).
  set (status := get_or_none payload (py "status")).
  rewrite get_or_none_set_eq.
  rewrite (@get_or_none_set_neq _ (py "status") (py "severity")) by reflexivity.
  rewrite get_or_none_set_eq.
  assert (Hsev : severity_or_info
                   (match coerce_severity severity with
                    | Some _ => severity
                    | None => str "info"
                    end) = severity_or_info severity).
  { unfold severity_or_info. destruct (coerce_severity severity) eqn:E.
    - rewrite E. reflexivity.
    - reflexivity. }
  assert (Hsta : status_or_firing
                   (match status_by_value status with
                    | Some _ => status
                    | None => str "firing"
                    end) = status_or_firing status).
  { unfold status_or_firing. destruct (status_by_value status) eqn:E.
    - rewrite E. reflexivity.
    - reflexivity. }
  rewrite Hsev, Hsta.
  rewrite <- (@dict_set_commute _ (py "severity") (py "status") (PSeverity (severity_or_info severity))).
  - rewrite !dict_set_set. reflexivity.
  - rewrite dict_get_set_eq. discriminate.
  - reflexivity.
Qed.

(** Construction from a payload is construction from the payload with the
    defaults written in. *)
Lemma construction_with_defaults (payload : kwargs) (n : nat) :
  outcome (AlertDto_new pf payload n) = outcome (AlertDto_new pf (with_defaults payload) n).
Proof. apply with_enums_same. symmetry. apply with_enums_with_defaults. Qed.

Lemma with_defaults_absent (payload : kwargs) :
  dict_get payload (py "severity") = None ->
  dict_get payload (py "status") = None ->
  with_defaults payload
  = payload ++ [(py "severity", str "info"); (py "status", str "firing")].
Proof.
  intros Hsev Hsta. unfold with_defaults, get_or_none. cbv zeta. rewrite Hsev, Hsta.
  change (coerce_severity PNone) with (@None AlertSeverity).
  change (status_by_value PNone) with (@None AlertStatus). cbv iota.
  rewrite (@dict_set_absent payload (py "severity") (str "info") Hsev).
  rewrite dict_set_absent.
  - rewrite <- app_assoc. reflexivity.
  - rewrite <- (@dict_set_absent payload (py "severity") (str "info") Hsev).
    rewrite dict_get_set_neq by reflexivity. exact Hsta.
Qed.



End Degraded.

(** ** Which exceptions leave the constructor *)

Section Raising.

Variable pf : platform.

Lemma field_validate_raise (f : field) (v : pyval) (values : kwargs) (n : nat) (e : pyexn) :
  outcome (field_validate pf f v values n) = Raise e ->
  exists validator, f_pre f = Some validator /\ outcome (validator v values n) = Raise e.
Proof.
  unfold field_validate. destruct (f_pre f) as [validator|]; [|discriminate].
  intros H. exists validator. split; [reflexivity|].
  destruct (outcome (validator v values n)) as [x|e']; [discriminate|].
  destruct (caught_by_pydantic e'); [discriminate|]. cbn [outcome] in H.
  inversion H. reflexivity.
Qed.

Lemma bind_ret_Raise_inv {A B : Type} (m : M A) (g : A -> B) (n : nat) (e : pyexn) :
  outcome ((a <- m ;; ret (g a)) n) = Raise e -> outcome (m n) = Raise e.
Proof.
  unfold bind, ret. cbv zeta. destruct (outcome (m n)); [discriminate|].
  cbn [outcome]. intros H. inversion H. reflexivity.
Qed.

Lemma field_step_raise (input : kwargs) (st : loop_state) (f : field) (n : nat) (e : pyexn) :
  outcome (field_step pf input st f n) = Raise e ->
  exists validator v, f_pre f = Some validator
                      /\ outcome (validator v (fst st) n) = Raise e.
Proof.
  unfold field_step. destruct (dict_get input (f_name f)) as [v|].
  - intros H. apply bind_ret_Raise_inv in H. apply field_validate_raise in H.
    destruct H as [validator [Hpre H]]. eauto.
  - destruct (f_required f); [discriminate|].
    destruct (f_pre f) as [validator|] eqn:Hpre; [|discriminate].
    intros H. apply bind_ret_Raise_inv in H. apply field_validate_raise in H.
    destruct H as [validator' [Hpre' H]]. rewrite Hpre in Hpre'.
    inversion Hpre'; subst validator'.
    exists validator, (f_default f). split; [reflexivity | exact H].
Qed.

(** An exception that leaves the loop was raised by the validator of one
    of the fields. *)
Lemma loop_raise (input : kwargs) (fs : list field) (st : loop_state) (n : nat) (e : pyexn) :
  outcome (fields_loop pf input fs st n) = Raise e ->
  exists f validator v values m,
    In f fs /\ f_pre f = Some validator /\ outcome (validator v values m) = Raise e.
Proof.
  revert st n. induction fs as [|f fs IH]; intros st n; [discriminate|].
  simpl. unfold bind. cbv zeta.
  destruct (outcome (field_step pf input st f n)) as [st1|e1] eqn:Hstep; cbn [outcome].
  - intros H. apply IH in H.
    destruct H as [g [validator [v [values [m [Hin H]]]]]].
    exists g, validator, v, values, m. split; [right; exact Hin | exact H].
  - intros H. inversion H; subst e1. apply field_step_raise in Hstep.
    destruct Hstep as [validator [v [Hpre Hv]]].
    exists f, validator, v, (fst st), n. split; [left; reflexivity|]. split; assumption.
Qed.

Lemma assign_fingerprint_no_KeyError (fingerprint : pyval) (values : kwargs) (n : nat)
      (e : pyexn) :
  outcome (assign_fingerprint_if_none fingerprint values n) = Raise e -> is_KeyError e = false.
Proof.
  unfold assign_fingerprint_if_none.
  destruct fingerprint; try (simpl; intros H; inversion H; reflexivity).
  unfold bind, ret, warning, str_encode, lift, raise. cbv zeta.
  destruct (negb (truthy (get_or_none values (py "name")))).
  - cbn [outcome reads logged].
    destruct (json_dumps (as_pydict values)) as [text|]; cbn [outcome reads logged].
    + destruct (encode text); cbn [outcome]; intros H; inversion H; reflexivity.
    + intros H; inversion H; reflexivity.
  - cbn [outcome reads logged].
    destruct (get_or_none values (py "name")); cbn [outcome];
      try (intros H; inversion H; reflexivity).
    destruct (encode s); cbn [outcome]; intros H; inversion H; reflexivity.
Qed.

Lemma validate_dismissed_no_KeyError (dismissed : pyval) (values : kwargs) (n : nat)
      (e : pyexn) :
  outcome (validate_dismissed pf dismissed values n) = Raise e -> is_KeyError e = false.
Proof.
  unfold validate_dismissed. cbv zeta.
  destruct (negb (truthy (normalize_dismissed dismissed))); [discriminate|].
  destruct (negb (truthy (get_or_none values (py "dismissUntil")))
            || str_equals (get_or_none values (py "dismissUntil")) (py "forever"));
    [discriminate|].
  unfold bind, strptime, lift, now, ret, raise. cbv zeta.
  destruct (get_or_none values (py "dismissUntil")); cbn [outcome];
    try (intros H; inversion H; reflexivity).
  destruct (strptime_dismiss_until pf s); cbn [outcome]; intros H; inversion H; reflexivity.
Qed.

Lemma validate_last_received_returns (v : pyval) (values : kwargs) (n : nat) (e : pyexn) :
  outcome (validate_last_received pf v values n) <> Raise e.
Proof. unfold validate_last_received. destruct (negb (truthy v)); discriminate. Qed.

Lemma validate_deleted_returns (v : pyval) (values : kwargs) (n : nat) (e : pyexn) :
  outcome (validate_deleted v values n) <> Raise e.
Proof. destruct v; discriminate. Qed.

Lemma set_assignee_KeyError (values : kwargs) (n : nat) (key : pystr) :
  outcome (set_assignee pf values n) = Raise (KeyError key) ->
  dict_get values (py "lastReceived") = None.
Proof.
  unfold set_assignee, bind, lift. cbv zeta.
  destruct (dict_get values (py "lastReceived")) as [lr|]; [|reflexivity].
  cbn [outcome reads logged ret].
  destruct (truthy (get_or_none values (py "assignees"))); [|discriminate].
  unfold fromisoformat, lookup_assignee, ret, raise.
  destruct lr; cbn [outcome reads logged]; try discriminate.
  destruct (fromisoformat_parses pf s); cbn [outcome reads logged]; [|discriminate].
  destruct (get_or_none values (py "assignees")); cbn [outcome reads logged];
    try discriminate.
  destruct (pydict_get d (PStr s)) as [a|]; [destruct (truthy a)|]; discriminate.
Qed.

(** The constructor raises [KeyError] only for a payload that has no
    [lastReceived]. *)
Lemma KeyError_only_without_lastReceived (payload : kwargs) (n : nat) (key : pystr) :
  outcome (AlertDto_new pf payload n) = Raise (KeyError key) ->
  dict_get payload (py "lastReceived") = None.
Proof.
  intros H.
  destruct (outcome (set_default_values pf payload n)) as [input|e] eqn:Hpre.
  - exfalso. rewrite (@AlertDto_new_run pf _ _ _ Hpre) in H. cbv zeta in H.
    destruct (outcome (fields_loop pf input (AlertDto_fields pf) ([], []) _))
      as [st|e] eqn:Hloop; [discriminate|].
    inversion H; subst e. apply loop_raise in Hloop.
    destruct Hloop as [f [validator [v [values [m [Hin [Hf Hraise]]]]]]].
    unfold AlertDto_fields in Hin. simpl In in Hin.
    repeat (destruct Hin as [Hin | Hin]; [subst f; try discriminate Hf |]);
      [.. | contradiction]; inversion Hf; subst validator.
    + exact (validate_last_received_returns _ _ _ Hraise).
    + apply assign_fingerprint_no_KeyError in Hraise. discriminate.
    + exact (validate_deleted_returns _ _ _ Hraise).
    + apply validate_dismissed_no_KeyError in Hraise. discriminate.
  - unfold AlertDto_new in H. cbv zeta in H. rewrite Hpre in H.
    destruct (caught_by_pydantic e) eqn:Hc; [discriminate|].
    cbn [outcome] in H. inversion H; subst e.
    rewrite set_default_values_run in Hpre. cbv zeta in Hpre. cbn [outcome] in Hpre.
    unfold bind in Hpre. cbv zeta in Hpre.
    destruct (outcome (set_assignee pf (with_enums payload) n)) as [v|e] eqn:Ha;
      [discriminate|].
    cbn [outcome] in Hpre. inversion Hpre; subst e.
    apply set_assignee_KeyError in Ha.
    rewrite with_enums_other in Ha by reflexivity. exact Ha.
Qed.

End Raising.



(** C10. For a payload that has [id], [name] and [lastReceived] and neither
    a [severity] nor a [status] key: construction is construction from the
    payload with [severity: info] and [status: firing] added; the
    constructor does not raise [KeyError]; a validation error, if other
    fields cause one, holds no missing-field error and no error located at
    [severity] or [status]; a built object has severity [info] and status
    [firing] (or [SUPPRESSED] when it is dismissed). *)
Theorem absent_severity_and_status_default
        (pf : platform) (payload : kwargs) (n : nat) :
  dict_get payload (py "id") <> None ->
  dict_get payload (py "name") <> None ->
  dict_get payload (py "lastReceived") <> None ->
  dict_get payload (py "severity") = None ->
  dict_get payload (py "status") = None ->
  let built := AlertDto_new pf payload n in
  outcome built
  = outcome (AlertDto_new pf
               (payload ++ [(py "severity", str "info"); (py "status", str "firing")]) n)
  /\ (forall key, outcome built <> Raise (KeyError key))
  /\ (forall errs, outcome built = Ret (ValidationError errs) ->
        Forall not_missing errs
        /\ Forall (fun e => ~ located_at (py "severity") e /\ ~ located_at (py "status") e)
                  errs)
  /\ (forall obj, outcome built = Ret (Object obj) ->
        attribute obj "severity" = Some (str "info")
        /\ attribute obj "status"
           = Some (if truthy (get_or_none obj (py "dismissed"))
                   then PStatus SUPPRESSED
                   else str "firing")).
Proof.
  intros Hid Hname Hlr Hsev Hsta. cbv zeta.
  split.
  { rewrite <- (@with_defaults_absent payload Hsev Hsta). apply construction_with_defaults. }
  split.
  { intros key H. apply KeyError_only_without_lastReceived in H. contradiction. }
  split.
  { intros errs H. split.
    - exact (@no_missing_error pf payload n errs Hid Hname H).
    - exact (@no_error_at_severity_or_status pf payload n errs H). }
  intros obj Hobj. split.
  - rewrite (@built_severity pf payload obj n Hobj).
    unfold get_or_none. rewrite Hsev. reflexivity.
  - rewrite (@built_status pf payload obj n Hobj).
    unfold get_or_none at 2. rewrite Hsta. reflexivity.
Qed.

Lemma absent_severity_and_status_default_witness :
  let payload :=
    payload_of [("id", str "1"); ("name", str "x");
                ("lastReceived", str "2024-01-01T00:00:00+00:00")]%string in
  let obj := object_of (AlertDto_new example_platform payload 0) in
  outcome (AlertDto_new example_platform payload 0) = Ret (Object obj)
  /\ attribute obj "severity" = Some (str "info")
  /\ attribute obj "status" = Some (str "firing")
  /\ outcome (AlertDto_new example_platform payload 0)
     = outcome (AlertDto_new example_platform
                  (payload ++ [(py "severity", str "info"); (py "status", str "firing")]) 0).
Proof.
  cbv zeta.
  match goal with
  | |- ?B /\ _ =>
      assert (Hbuilt : B) by (vm_compute; reflexivity)
  end.
  match type of Hbuilt with
  | outcome (AlertDto_new _ ?p _) = _ =>
      assert (Hid : dict_get p (py "id") <> None) by discriminate;
      assert (Hname : dict_get p (py "name") <> None) by discriminate;
      assert (Hlr : dict_get p (py "lastReceived") <> None) by discriminate;
      destruct (@absent_severity_and_status_default example_platform p 0
                  Hid Hname Hlr eq_refl eq_refl)
        as [Hsame [_ [_ Hobj]]]
  end.
  cbv zeta in Hobj. destruct (Hobj _ Hbuilt) as [Hsev Hsta].
  split; [exact Hbuilt|]. split; [exact Hsev|]. split; [|exact Hsame].
  rewrite Hsta. vm_compute. reflexivity.
Defined.

(** ** A [dismissUntil] that [strptime] refuses *)

Section DismissUntil.

Variable pf : platform.




End DismissUntil.



Example exact_pattern_accepts_microseconds :
  exact_dismiss_until_pattern (py "2099-01-01T00:00:00.000000Z") = true.
Proof. reflexivity. Qed.


(** The same on every platform: whatever the clock and the tables are, the
    constructor builds an object from that payload. *)
Lemma millisecond_dismissUntil_is_accepted (pf : platform) (n : nat) :
  exists obj,
    outcome (AlertDto_new pf
               (payload_of [("id", str "2"); ("name", str "X"); ("status", str "firing");
                            ("severity", str "high");
                            ("dismissed", PBool true);
                            ("dismissUntil", str "2099-01-01T00:00:00.000Z");
                            ("lastReceived", str "2024-01-01T00:00:00+00:00")]%string) n)
    = Ret (Object obj)
    /\ attribute obj "dismissed"
       = Some (PBool (datetime_ltb (clock pf n) (DateTime 2099 1 1 0 0 0 0))).
Proof.
  destruct (datetime_ltb (clock pf n) (DateTime 2099 1 1 0 0 0 0)) eqn:E;
    eexists; (split; [cbv -[datetime_ltb clock]; rewrite E; reflexivity |]);
    vm_compute; reflexivity.
Qed.

(** ** Two fields computed by validators, in a built object *)

Section ComputedFields.

Variable pf : platform.

Lemma bind_reads {A B : Type} (m : M A) (k : A -> M B) :
  (forall n, reads (m n) = n) -> (forall a n, reads (k a n) = n) ->
  forall n, reads (bind m k n) = n.
Proof.
  intros Hm Hk n. unfold bind. cbv zeta.
  destruct (outcome (m n)); cbn [reads]; [rewrite Hk|]; apply Hm.
Qed.

(** The first root validator does not read the clock. *)
Lemma set_assignee_reads (values : kwargs) (n : nat) :
  reads (set_assignee pf values n) = n.
Proof.
  revert n. unfold set_assignee. apply bind_reads.
  - intros n. destruct (dict_get values (py "lastReceived")); reflexivity.
  - intros lr. destruct (truthy (get_or_none values (py "assignees"))); [|reflexivity].
    apply bind_reads.
    + intros n. destruct lr; try reflexivity. simpl.
      destruct (fromisoformat_parses pf s); reflexivity.
    + intros _. apply bind_reads; [|reflexivity].
      intros n. destruct (get_or_none values (py "assignees")); try reflexivity.
      simpl. destruct (pydict_get d lr) as [a|]; [destruct (truthy a)|]; reflexivity.
Qed.

Lemma set_default_values_reads (payload : kwargs) (n : nat) :
  reads (set_default_values pf payload n) = n.
Proof.
  rewrite set_default_values_run. cbv zeta. cbn [reads].
  revert n. apply bind_reads; [apply set_assignee_reads | reflexivity].
Qed.

(** Fields without a validator of their own do not read it either. *)
Lemma plain_fields_reads (input : kwargs) (fs : list field) (st : loop_state) (n : nat) :
  Forall (fun f => f_pre f = None) fs ->
  reads (fields_loop pf input fs st n) = n.
Proof.
  intros Hfs. revert st n. induction Hfs as [|f fs Hf Hfs IH]; intros st n; [reflexivity|].
  simpl. unfold bind. cbv zeta.
  assert (Hstep : exists st1, field_step pf input st f n = Run (Ret st1) n []).
  { unfold field_step, field_validate. rewrite Hf.
    destruct (dict_get input (f_name f)); [eexists; reflexivity|].
    destruct (f_required f); eexists; reflexivity. }
  destruct Hstep as [st1 Hstep]. rewrite Hstep. cbn [outcome reads logged]. apply IH.
Qed.

Lemma loop_app_inv_reads (input : kwargs) (fs1 fs2 : list field) (st st' : loop_state)
      (n : nat) :
  outcome (fields_loop pf input (fs1 ++ fs2) st n) = Ret st' ->
  exists st1, outcome (fields_loop pf input fs1 st n) = Ret st1
              /\ outcome (fields_loop pf input fs2 st1
                                      (reads (fields_loop pf input fs1 st n))) = Ret st'.
Proof.
  revert st n. induction fs1 as [|f fs1 IH]; intros st n H.
  - exists st. split; [reflexivity | exact H].
  - simpl app in H. apply loop_cons_inv in H. destruct H as [st0 [Hstep Hrest]].
    apply IH in Hrest. destruct Hrest as [st1 [H1 H2]].
    exists st1. simpl. unfold bind. cbv zeta. rewrite Hstep. cbn [outcome reads].
    split; [exact H1 | exact H2].
Qed.

(** A field with a validator, in a loop that ends without errors: the
    validator returned, the validators of the type accepted what it
    returned, and that is what the field holds. *)
Lemma loop_validated_value (input : kwargs) (fs1 fs2 : list field) (f : field)
      (validator : pyval -> kwargs -> M pyval) (st st' : loop_state) (n : nat) (v : pyval) :
  outcome (fields_loop pf input (fs1 ++ f :: fs2) st n) = Ret st' ->
  snd st' = [] ->
  is_field fs2 (f_name f) = false ->
  f_pre f = Some validator ->
  (dict_get input (f_name f) = Some v
   \/ (dict_get input (f_name f) = None /\ f_required f = false /\ v = f_default f)) ->
  exists st1 y x,
    outcome (fields_loop pf input fs1 st n) = Ret st1
    /\ snd st1 = []
    /\ outcome (fields_loop pf input (f :: fs2) st1
                            (reads (fields_loop pf input fs1 st n))) = Ret st'
    /\ outcome (validator v (fst st1) (reads (fields_loop pf input fs1 st n))) = Ret y
    /\ validate_typed pf f y = inr x
    /\ dict_get (fst st') (f_name f) = Some x.
Proof.
  intros H Hok Hfs2 Hpre Hv.
  apply loop_app_inv_reads in H. destruct H as [st1 [H1 H2]].
  set (n1 := reads (fields_loop pf input fs1 st n)) in *.
  pose proof H2 as Htail.
  apply loop_cons_inv in H2. destruct H2 as [st2 [Hstep Hrest]].
  assert (Hgrow : forall errs, st2 = (fst st1, snd st1 ++ errs) -> errs <> [] -> False).
  { intros errs Hst2 Hne. subst st2. apply loop_errors_grow in Hrest.
    destruct Hrest as [more Hmore]. rewrite Hok in Hmore. cbn [snd] in Hmore.
    symmetry in Hmore. apply app_eq_nil in Hmore. destruct Hmore as [Hmore _].
    apply app_eq_nil in Hmore. destruct Hmore as [_ Hmore]. contradiction. }
  assert (Hbind : outcome ((r <- field_validate pf f v (fst st1) ;; ret (store f st1 r)) n1)
                  = Ret st2).
  { unfold field_step in Hstep. destruct Hv as [Hv | [Hv [Hreq Hdef]]]; rewrite Hv in Hstep.
    - exact Hstep.
    - rewrite Hreq, Hpre in Hstep. subst v. exact Hstep. }
  clear Hstep. apply bind_Ret_inv in Hbind. destruct Hbind as [r [Hr Hst2]].
  cbn [outcome ret] in Hst2. inversion Hst2 as [Hst2']. clear Hst2.
  unfold field_validate in Hr. rewrite Hpre in Hr.
  destruct (outcome (validator v (fst st1) n1)) as [y|e] eqn:Hy.
  - cbn [outcome] in Hr. inversion Hr as [Hr']. clear Hr.
    destruct (validate_typed pf f y) as [errs|x] eqn:Hx.
    + exfalso. apply validate_typed_errors in Hx. destruct Hx as [Hne _].
      subst r. apply (Hgrow errs); [symmetry; exact Hst2' | exact Hne].
    + exists st1, y, x. subst r. cbn [store] in Hst2'.
      assert (Hst1 : snd st1 = []).
      { apply loop_errors_grow in Hrest. destruct Hrest as [more Hmore].
        rewrite Hok, <- Hst2' in Hmore. cbn [snd] in Hmore.
        symmetry in Hmore. apply app_eq_nil in Hmore. tauto. }
      split; [exact H1|]. split; [exact Hst1|]. split; [exact Htail|].
      split; [exact Hy|]. split; [exact Hx|].
      rewrite (@loop_preserves pf _ _ _ _ _ _ Hrest Hfs2). rewrite <- Hst2'.
      cbn [fst]. apply dict_get_set_eq.
  - exfalso. destruct (caught_by_pydantic e); [|discriminate].
    cbn [outcome] in Hr. inversion Hr as [Hr']. subst r.
    apply (Hgrow [((f_name f, None), ValidatorError e)]);
      [symmetry; exact Hst2' | discriminate].
Qed.

Lemma isoformat_not_empty (d : datetime) : isoformat d <> [].
Proof.
  intros H. apply (f_equal (@length N)) in H. unfold isoformat in H.
  rewrite !length_app in H. simpl in H. lia.
Qed.

End ComputedFields.

(** X1.  When [lastReceived] is in the payload
    and is empty ([None], the empty string, or any other false value), a
    built object has the ISO form of the instant the clock gave at its first
    reading of the construction, which is not empty. *)
Theorem empty_lastReceived_defaults_to_now
        (pf : platform) (payload obj : kwargs) (n : nat) (v : pyval) :
  outcome (AlertDto_new pf payload n) = Ret (Object obj) ->
  dict_get payload (py "lastReceived") = Some v ->
  truthy v = false ->
  attribute obj "lastReceived" = Some (PStr (isoformat (clock pf n)))
  /\ isoformat (clock pf n) <> [].
Proof.
  intros H Hv Hfalsy. split; [|apply isoformat_not_empty].
  apply AlertDto_new_Object_inv in H.
  destruct H as [input [st [Hpre [Hloop [Hok Hobj]]]]]. subst obj.
  rewrite set_default_values_reads in Hloop.
  assert (Hin : dict_get input (py "lastReceived") = Some v).
  { rewrite (@input_other pf _ _ _ (py "lastReceived") Hpre) by reflexivity. exact Hv. }
  change (AlertDto_fields pf)
    with (firstn 4 (AlertDto_fields pf)
          ++ required "lastReceived" TStr (Some (validate_last_received pf))
          :: skipn 5 (AlertDto_fields pf)) in Hloop.
  destruct (@loop_validated_value pf _ _ _ _ (validate_last_received pf) _ _ _ v
              Hloop Hok eq_refl eq_refl (or_introl Hin))
    as [st1 [y [x [_ [_ [_ [Hy [Hx Hget]]]]]]]].
  rewrite plain_fields_reads in Hy by (repeat constructor).
  unfold validate_last_received in Hy. rewrite Hfalsy in Hy.
  cbn [negb] in Hy. unfold bind, now, ret in Hy. cbn [outcome reads logged] in Hy.
  inversion Hy; subst y. clear Hy.
  cbn [validate_typed type_validate str_validator required f_type] in Hx.
  inversion Hx; subst x. clear Hx.
  unfold attribute. rewrite after_validate_status_other by reflexivity.
  rewrite add_extras_field by reflexivity. exact Hget.
Qed.

Lemma empty_lastReceived_defaults_to_now_witness :
  let payload :=
    payload_of [("id", str "1"); ("name", str "x"); ("severity", str "low");
                ("status", str "pending"); ("lastReceived", str "")]%string in
  let obj := object_of (AlertDto_new example_platform payload 0) in
  outcome (AlertDto_new example_platform payload 0) = Ret (Object obj)
  /\ attribute obj "lastReceived" = Some (str "2024-05-17T10:30:00.123456+00:00").
Proof.
  cbv zeta.
  match goal with
  | |- ?B /\ _ => assert (Hbuilt : B) by (vm_compute; reflexivity)
  end.
  split; [exact Hbuilt|].
  destruct (@empty_lastReceived_defaults_to_now example_platform _ _ 0 (str "")
              Hbuilt eq_refl eq_refl) as [Hnow _].
  rewrite Hnow. vm_compute. reflexivity.
Defined.

(** X2.  In a built object: when the payload gives no fingerprint (no key, or
    [None]) and the name of the object is not empty, the name has a UTF-8
    form and the fingerprint of the object is the hexadecimal SHA-256 digest
    of it. *)
Theorem built_fingerprint_is_sha256_of_name
        (pf : platform) (payload obj : kwargs) (n : nat) (name : pystr) :
  outcome (AlertDto_new pf payload n) = Ret (Object obj) ->
  dict_get payload (py "fingerprint") = None
  \/ dict_get payload (py "fingerprint") = Some PNone ->
  attribute obj "name" = Some (PStr name) ->
  name <> [] ->
  exists data,
    encode name = Some data
    /\ attribute obj "fingerprint" = Some (PStr (SHA256.hexdigest data)).
Proof.
  intros H Hfp Hname Hne.
  apply AlertDto_new_Object_inv in H.
  destruct H as [input [st [Hpre [Hloop [Hok Hobj]]]]]. subst obj.
  assert (Hin : dict_get input (py "fingerprint") = Some PNone
                \/ (dict_get input (py "fingerprint") = None
                    /\ false = false /\ PNone = PNone)).
  { rewrite (@input_other pf _ _ _ (py "fingerprint") Hpre) by reflexivity.
    destruct Hfp as [Hfp | Hfp]; rewrite Hfp; [right | left]; repeat split. }
  change (AlertDto_fields pf)
    with (firstn 17 (AlertDto_fields pf)
          ++ optional "fingerprint" TStr (Some assign_fingerprint_if_none)
          :: skipn 18 (AlertDto_fields pf)) in Hloop.
  destruct (@loop_validated_value pf _ _ _ _ assign_fingerprint_if_none _ _ _ PNone
              Hloop Hok eq_refl eq_refl Hin)
    as [st1 [y [x [_ [_ [Htail [Hy [Hx Hget]]]]]]]].
  unfold attribute in Hname |- *.
  rewrite after_validate_status_other in Hname |- * by reflexivity.
  rewrite add_extras_field in Hname |- * by reflexivity.
  rewrite (@loop_preserves pf _ _ _ _ _ (py "name") Htail eq_refl) in Hname.
  rewrite (fingerprint_of_name _ _ Hname Hne) in Hy.
  destruct (encode name) as [data|]; [|discriminate].
  cbn [outcome] in Hy. inversion Hy; subst y. clear Hy.
  cbn [validate_typed type_validate str_validator optional f_type] in Hx.
  inversion Hx; subst x. clear Hx.
  exists data. split; [reflexivity | exact Hget].
Qed.

Lemma built_fingerprint_is_sha256_of_name_witness :
  let payload :=
    payload_of [("id", str "1"); ("name", str "Disk full"); ("severity", PInt 5);
                ("status", str "firing");
                ("lastReceived", str "2024-01-01T00:00:00+00:00")]%string in
  let obj := object_of (AlertDto_new example_platform payload 0) in
  outcome (AlertDto_new example_platform payload 0) = Ret (Object obj)
  /\ attribute obj "severity" = Some (str "critical")
  /\ attribute obj "status" = Some (str "firing")
  /\ attribute obj "fingerprint"
     = Some (str "dc301aee29819d4795e137e85575b03e3a41004b604f2e41bc57eda244ea1442").
Proof.
  cbv zeta.
  match goal with
  | |- ?B /\ _ => assert (Hbuilt : B) by (vm_compute; reflexivity)
  end.
  split; [exact Hbuilt|]. split; [vm_compute; reflexivity|].
  split; [vm_compute; reflexivity|].
  assert (Hne : py "Disk full" <> []) by discriminate.
  destruct (@built_fingerprint_is_sha256_of_name example_platform _ _ 0 (py "Disk full")
              Hbuilt (or_introl eq_refl) eq_refl Hne) as [data [Hdata Hfp]].
  rewrite Hfp. vm_compute in Hdata. inversion Hdata; subst data.
  vm_compute. reflexivity.
Defined.

(** ** More about built objects: helper lemmas *)

Section BuiltObjects.

Variable pf : platform.

(** What is known of an object that was built: the mapping the first root
    validator returned, the state the loop ended in (without errors), and
    how the keys of the object read in them. *)
Lemma built_inv (payload obj : kwargs) (n : nat) :
  outcome (AlertDto_new pf payload n) = Ret (Object obj) ->
  exists input st,
    outcome (set_default_values pf payload n) = Ret input
    /\ outcome (fields_loop pf input (AlertDto_fields pf) ([], []) n) = Ret st
    /\ snd st = []
    /\ obj = after_validate_status (add_extras (AlertDto_fields pf) input (fst st))
    /\ (forall k, is_field (AlertDto_fields pf) k = true ->
                  pystr_eqb k (py "status") = false ->
                  dict_get obj k = dict_get (fst st) k)
    /\ (forall k, pystr_eqb k (py "assignees") = false ->
                  pystr_eqb k (py "assignee") = false ->
                  pystr_eqb k (py "deletedAt") = false ->
                  pystr_eqb k (py "severity") = false ->
                  pystr_eqb k (py "status") = false ->
                  dict_get input k = dict_get payload k).
Proof.
  intros H. apply AlertDto_new_Object_inv in H.
  destruct H as [input [st [Hpre [Hloop [Hok Hobj]]]]].
  rewrite set_default_values_reads in Hloop.
  exists input, st. repeat split; try assumption.
  - intros k Hk Hs. subst obj. rewrite after_validate_status_other by exact Hs.
    apply add_extras_field. exact Hk.
  - intros k H1 H2 H3 H4 H5. exact (@input_other pf _ _ _ k Hpre H1 H2 H3 H4 H5).
Qed.

(** A field whose validation fails in the same way whatever the values
    validated before it: its errors are among the errors of the loop. *)
Lemma loop_field_reports (input : kwargs) (fs1 fs2 : list field) (f : field)
      (st st' : loop_state) (n : nat) (v : pyval) (errs : list error) :
  (dict_get input (f_name f) = Some v
   \/ (dict_get input (f_name f) = None /\ f_required f = false
       /\ f_pre f <> None /\ v = f_default f)) ->
  (forall values k, outcome (field_validate pf f v values k) = Ret (inl errs)) ->
  outcome (fields_loop pf input (fs1 ++ f :: fs2) st n) = Ret st' ->
  incl errs (snd st').
Proof.
  intros Hv Hfail H.
  apply loop_app_inv in H. destruct H as [st1 [n1 [_ H]]].
  apply loop_cons_inv in H. destruct H as [st2 [Hstep Hrest]].
  assert (Hbind : outcome ((r <- field_validate pf f v (fst st1) ;; ret (store f st1 r)) n1)
                  = Ret st2).
  { unfold field_step in Hstep. destruct Hv as [Hv | [Hv [Hreq [Hpre Hdef]]]];
      rewrite Hv in Hstep.
    - exact Hstep.
    - rewrite Hreq in Hstep. destruct (f_pre f); [|contradiction Hpre; reflexivity].
      subst v. exact Hstep. }
  apply bind_Ret_inv in Hbind. destruct Hbind as [r [Hr Hst2]].
  rewrite Hfail in Hr. inversion Hr; subst r. clear Hr.
  cbn [outcome ret store] in Hst2. inversion Hst2; subst st2. clear Hst2.
  apply loop_errors_grow in Hrest. destruct Hrest as [more Hmore].
  rewrite Hmore. cbn [snd]. intros e He.
  apply in_or_app. left. apply in_or_app. right. exact He.
Qed.

(** What [assign_fingerprint_if_none] returns, when it returns: a text of
    at most 255 characters, or the slice of a list. *)
Lemma assign_fingerprint_returns (fingerprint : pyval) (values : kwargs) (n : nat) (y : pyval) :
  outcome (assign_fingerprint_if_none fingerprint values n) = Ret y ->
  (exists h, y = PStr h /\ length h <= 255) \/ (exists l, y = PList l).
Proof.
  unfold assign_fingerprint_if_none.
  destruct fingerprint; try (cbn [slice_255 raise outcome]; discriminate).
  - unfold bind, ret, warning, str_encode, lift, raise. cbv zeta.
    assert (Hdigest : forall data, length (SHA256.hexdigest data) <= 255).
    { intros data. rewrite hexdigest_length. lia. }
    destruct (negb (truthy (get_or_none values (py "name")))).
    + cbn [outcome reads logged].
      destruct (json_dumps (as_pydict values)) as [text|]; cbn [outcome reads logged];
        [|discriminate].
      destruct (encode text); cbn [outcome]; [|discriminate].
      intros H. inversion H. left. eexists. split; [reflexivity | apply Hdigest].
    + cbn [outcome reads logged].
      destruct (get_or_none values (py "name")); cbn [outcome]; try discriminate.
      destruct (encode s); cbn [outcome]; [|discriminate].
      intros H. inversion H. left. eexists. split; [reflexivity | apply Hdigest].
  - intros H. left. exists (firstn 255 s). split.
    + cbn [slice_255 ret outcome] in H. congruence.
    + rewrite length_firstn. lia.
  - intros H. right. exists (firstn 255 l).
    cbn [slice_255 ret outcome] in H. congruence.
Qed.

(** The ways the constructor returns: the first root validator raised an
    exception pydantic catches, or the loop over the fields ran. *)
Lemma AlertDto_new_cases (payload : kwargs) (n : nat) (c : construction) :
  outcome (AlertDto_new pf payload n) = Ret c ->
  (exists e, outcome (set_default_values pf payload n) = Raise e
             /\ c = ValidationError [(root_location, ValidatorError e)])
  \/ (exists input st,
        outcome (set_default_values pf payload n) = Ret input
        /\ outcome (fields_loop pf input (AlertDto_fields pf) ([], []) n) = Ret st
        /\ c = match snd st with
               | [] => Object (after_validate_status
                                 (add_extras (AlertDto_fields pf) input (fst st)))
               | errors => ValidationError errors
               end).
Proof.
  intros H.
  destruct (outcome (set_default_values pf payload n)) as [input|e] eqn:Hpre.
  - right. rewrite (@AlertDto_new_run pf _ _ _ Hpre) in H. cbv zeta in H.
    rewrite set_default_values_reads in H.
    destruct (outcome (fields_loop pf input (AlertDto_fields pf) ([], []) n))
      as [st|e] eqn:Hloop; [|discriminate].
    exists input, st. split; [reflexivity|]. split; [exact Hloop|].
    inversion H. reflexivity.
  - left. unfold AlertDto_new in H. cbv zeta in H. rewrite Hpre in H.
    destruct (caught_by_pydantic e); cbn [outcome] in H; [|discriminate].
    exists e. split; [reflexivity|]. inversion H. reflexivity.
Qed.

(** A field whose validation fails whatever was validated before it: no
    object is built, and the validation error raised after the first root
    validator has returned holds the errors of the field. *)
Lemma refused_field_is_reported (payload : kwargs) (n : nat)
      (fs1 fs2 : list field) (f : field) (v : pyval) (errs : list error) (e : error) :
  AlertDto_fields pf = fs1 ++ f :: fs2 ->
  (forall input, outcome (set_default_values pf payload n) = Ret input ->
     dict_get input (f_name f) = Some v
     \/ (dict_get input (f_name f) = None /\ f_required f = false
         /\ f_pre f <> None /\ v = f_default f)) ->
  (forall values k, outcome (field_validate pf f v values k) = Ret (inl errs)) ->
  In e errs ->
  (forall obj, outcome (AlertDto_new pf payload n) <> Ret (Object obj))
  /\ (forall input all,
        outcome (set_default_values pf payload n) = Ret input ->
        outcome (AlertDto_new pf payload n) = Ret (ValidationError all) ->
        In e all).
Proof.
  intros Hfs Hv Hfail He.
  assert (Hall : forall c, outcome (AlertDto_new pf payload n) = Ret c ->
                 exists all, c = ValidationError all
                   /\ (In e all
                       \/ exists x, outcome (set_default_values pf payload n) = Raise x)).
  { intros c H. apply AlertDto_new_cases in H.
    destruct H as [[x [Hx Hc]] | [input [st [Hpre [Hloop Hc]]]]].
    - eexists. split; [exact Hc|]. right. eauto.
    - rewrite Hfs in Hloop.
      pose proof (@loop_field_reports input fs1 fs2 f _ _ _ v errs
                    (Hv input Hpre) Hfail Hloop) as Hincl.
      apply Hincl in He. exists (snd st). split; [|left; exact He].
      rewrite Hc. destruct (snd st); [contradiction He | reflexivity]. }
  split.
  - intros obj H. apply Hall in H. destruct H as [all [H _]]. discriminate.
  - intros input all Hpre H. apply Hall in H.
    destruct H as [all' [Hc [Hin | [x Hx]]]].
    + inversion Hc. exact Hin.
    + rewrite Hpre in Hx. discriminate.
Qed.

Lemma member_by_order_complete (m : AlertSeverity) : member_by_order (order m) = Some m.
Proof. destruct m; reflexivity. Qed.

End BuiltObjects.

(** ** The validated fields of a built object *)

(** X3.  The fingerprint of every built object is a text of at most 255
    characters: the digest has 64, an explicit text is cut, and anything
    else the validator lets through is refused by the type of the field. *)
Theorem built_fingerprint_is_short_text
        (pf : platform) (payload obj : kwargs) (n : nat) :
  outcome (AlertDto_new pf payload n) = Ret (Object obj) ->
  exists h, attribute obj "fingerprint" = Some (PStr h) /\ length h <= 255.
Proof.
  intros H.
  destruct (@built_inv pf _ _ _ H) as [input [st [Hpre [Hloop [Hok [_ [Hfield _]]]]]]].
  assert (Hin : exists v,
             dict_get input (py "fingerprint") = Some v
             \/ (dict_get input (py "fingerprint") = None
                 /\ false = false /\ v = PNone)).
  { destruct (dict_get input (py "fingerprint")) as [v|];
      [exists v; left | exists PNone; right]; repeat split. }
  destruct Hin as [v Hin].
  change (AlertDto_fields pf)
    with (firstn 17 (AlertDto_fields pf)
          ++ optional "fingerprint" TStr (Some assign_fingerprint_if_none)
          :: skipn 18 (AlertDto_fields pf)) in Hloop.
  destruct (@loop_validated_value pf _ _ _ _ assign_fingerprint_if_none _ _ _ v
              Hloop Hok eq_refl eq_refl Hin)
    as [st1 [y [x [_ [_ [_ [Hy [Hx Hget]]]]]]]].
  apply assign_fingerprint_returns in Hy.
  destruct Hy as [[h [Hy Hlen]] | [l Hy]]; subst y.
  - cbn [validate_typed type_validate str_validator optional f_type] in Hx.
    inversion Hx; subst x. exists h. split; [|exact Hlen].
    unfold attribute. rewrite Hfield by reflexivity. exact Hget.
  - cbn [validate_typed type_validate str_validator optional f_type] in Hx.
    discriminate Hx.
Qed.

Lemma built_fingerprint_is_short_text_witness :
  let payload :=
    payload_of [("id", str "7"); ("name", str "CPU high"); ("severity", str "warning");
                ("status", str "firing");
                ("lastReceived", str "2024-01-01T00:00:00+00:00")]%string in
  let obj := object_of (AlertDto_new example_platform payload 0) in
  outcome (AlertDto_new example_platform payload 0) = Ret (Object obj)
  /\ exists h, attribute obj "fingerprint" = Some (PStr h) /\ length h <= 255.
Proof.
  cbv zeta.
  match goal with
  | |- ?B /\ _ => assert (Hbuilt : B) by (vm_compute; reflexivity)
  end.
  split; [exact Hbuilt|].
  exact (@built_fingerprint_is_short_text example_platform _ _ 0 Hbuilt).
Defined.

(** X4.  An explicit fingerprint that is a text reaches the object cut to
    its first 255 characters and otherwise as it is, whatever the name. *)
Theorem built_explicit_fingerprint_is_prefix
        (pf : platform) (payload obj : kwargs) (n : nat) (s : pystr) :
  outcome (AlertDto_new pf payload n) = Ret (Object obj) ->
  dict_get payload (py "fingerprint") = Some (PStr s) ->
  attribute obj "fingerprint" = Some (PStr (firstn 255 s)).
Proof.
  intros H Hfp.
  destruct (@built_inv pf _ _ _ H) as [input [st [Hpre [Hloop [Hok [_ [Hfield Hother]]]]]]].
  assert (Hin : dict_get input (py "fingerprint") = Some (PStr s)
                \/ (dict_get input (py "fingerprint") = None
                    /\ false = false /\ PStr s = PNone)).
  { left. rewrite Hother by reflexivity. exact Hfp. }
  change (AlertDto_fields pf)
    with (firstn 17 (AlertDto_fields pf)
          ++ optional "fingerprint" TStr (Some assign_fingerprint_if_none)
          :: skipn 18 (AlertDto_fields pf)) in Hloop.
  destruct (@loop_validated_value pf _ _ _ _ assign_fingerprint_if_none _ _ _ (PStr s)
              Hloop Hok eq_refl eq_refl Hin)
    as [st1 [y [x [_ [_ [_ [Hy [Hx Hget]]]]]]]].
  cbn [assign_fingerprint_if_none slice_255 ret outcome] in Hy.
  injection Hy as Hy. subst y.
  cbn [validate_typed type_validate str_validator optional f_type] in Hx.
  injection Hx as Hx. subst x.
  unfold attribute. rewrite Hfield by reflexivity. exact Hget.
Qed.

Lemma built_explicit_fingerprint_is_prefix_witness :
  let long := repeat 97%N 300 in
  let payload :=
    payload_of [("id", str "7"); ("name", str "CPU high"); ("severity", str "warning");
                ("status", str "firing");
                ("lastReceived", str "2024-01-01T00:00:00+00:00");
                ("fingerprint", PStr long)]%string in
  let obj := object_of (AlertDto_new example_platform payload 0) in
  outcome (AlertDto_new example_platform payload 0) = Ret (Object obj)
  /\ attribute obj "fingerprint" = Some (PStr (repeat 97%N 255)).
Proof.
  cbv zeta.
  match goal with
  | |- ?B /\ _ => assert (Hbuilt : B) by (vm_compute; reflexivity)
  end.
  split; [exact Hbuilt|].
  rewrite (@built_explicit_fingerprint_is_prefix example_platform _ _ 0
             (repeat 97%N 300) Hbuilt eq_refl).
  vm_compute. reflexivity.
Defined.

(** X5.  An explicit fingerprint that is neither [None] nor a text is
    refused: no object is built.  A list is cut and then refused by the
    type of the field; a number, a boolean, a dictionary or a member cannot
    be cut, and the [TypeError] of the validator becomes the error of the
    field. *)
Theorem non_text_fingerprint_is_refused
        (pf : platform) (payload : kwargs) (n : nat) (v : pyval) :
  dict_get payload (py "fingerprint") = Some v ->
  match v with PNone | PStr _ => False | _ => True end ->
  (forall obj, outcome (AlertDto_new pf payload n) <> Ret (Object obj))
  /\ (forall input errs,
        outcome (set_default_values pf payload n) = Ret input ->
        outcome (AlertDto_new pf payload n) = Ret (ValidationError errs) ->
        In ((py "fingerprint", None),
            match v with PList _ => StrError | _ => ValidatorError TypeError end) errs).
Proof.
  intros Hfp Hv.
  apply (@refused_field_is_reported pf payload n
           (firstn 17 (AlertDto_fields pf))
           (skipn 18 (AlertDto_fields pf))
           (optional "fingerprint" TStr (Some assign_fingerprint_if_none)) v
           [((py "fingerprint", None),
             match v with PList _ => StrError | _ => ValidatorError TypeError end)]).
  - reflexivity.
  - intros input Hpre. left. change (dict_get input (py "fingerprint") = Some v).
    rewrite (@input_other pf _ _ _ (py "fingerprint") Hpre) by reflexivity. exact Hfp.
  - intros values k. destruct v; try contradiction; reflexivity.
  - left. reflexivity.
Qed.

Lemma non_text_fingerprint_is_refused_witness :
  let payload :=
    payload_of [("id", str "7"); ("name", str "CPU high"); ("severity", str "warning");
                ("status", str "firing");
                ("lastReceived", str "2024-01-01T00:00:00+00:00");
                ("fingerprint", PInt 42)]%string in
  outcome (AlertDto_new example_platform payload 0)
  = Ret (ValidationError [((py "fingerprint", None), ValidatorError TypeError) : error])
  /\ (forall obj, outcome (AlertDto_new example_platform payload 0) <> Ret (Object obj))
  /\ In (((py "fingerprint", None), ValidatorError TypeError) : error)
        [((py "fingerprint", None), ValidatorError TypeError) : error].
Proof.
  cbv zeta.
  match goal with
  | |- ?B /\ _ => assert (Hfails : B) by (vm_compute; reflexivity)
  end.
  match type of Hfails with
  | outcome (AlertDto_new _ ?p _) = _ =>
      destruct (@non_text_fingerprint_is_refused example_platform p 0 (PInt 42) eq_refl I)
        as [Hnone Herr];
      assert (Hpre : outcome (set_default_values example_platform p 0)
                     = Ret (match outcome (set_default_values example_platform p 0) with
                            | Ret input => input
                            | Raise _ => []
                            end)) by (vm_compute; reflexivity)
  end.
  split; [exact Hfails|]. split; [exact Hnone|].
  exact (Herr _ _ Hpre Hfails).
Defined.

(** X6.  When [deleted] comes as a list, the built object is deleted exactly
    when its own [lastReceived] (as validated) is an element of the list. *)
Theorem deleted_list_means_membership
        (pf : platform) (payload obj : kwargs) (n : nat) (l : list pyval) :
  outcome (AlertDto_new pf payload n) = Ret (Object obj) ->
  dict_get payload (py "deleted") = Some (PList l) ->
  attribute obj "deleted"
  = Some (PBool (existsb (scalar_eq (get_or_none obj (py "lastReceived"))) l)).
Proof.
  intros H Hdel.
  destruct (@built_inv pf _ _ _ H) as [input [st [Hpre [Hloop [Hok [_ [Hfield Hother]]]]]]].
  assert (Hin : dict_get input (py "deleted") = Some (PList l)
                \/ (dict_get input (py "deleted") = None
                    /\ false = false /\ PList l = PBool false)).
  { left. rewrite Hother by reflexivity. exact Hdel. }
  change (AlertDto_fields pf)
    with (firstn 18 (AlertDto_fields pf)
          ++ defaulted "deleted" TBool (PBool false) (Some validate_deleted)
          :: skipn 19 (AlertDto_fields pf)) in Hloop.
  destruct (@loop_validated_value pf _ _ _ _ validate_deleted _ _ _ (PList l)
              Hloop Hok eq_refl eq_refl Hin)
    as [st1 [y [x [_ [_ [Htail [Hy [Hx Hget]]]]]]]].
  cbn [validate_deleted ret outcome] in Hy. injection Hy as Hy. subst y.
  cbn [validate_typed type_validate bool_validator defaulted f_type] in Hx.
  injection Hx as Hx. subst x.
  unfold attribute, get_or_none.
  rewrite !Hfield by reflexivity.
  rewrite (@loop_preserves pf _ _ _ _ _ (py "lastReceived") Htail eq_refl).
  exact Hget.
Qed.

Lemma deleted_list_means_membership_witness :
  let stamps := [str "2023-12-31T00:00:00+00:00"; str "2024-01-01T00:00:00+00:00"] in
  let payload :=
    payload_of [("id", str "7"); ("name", str "CPU high"); ("severity", str "warning");
                ("status", str "firing");
                ("lastReceived", str "2024-01-01T00:00:00+00:00");
                ("deleted", PList stamps)]%string in
  let obj := object_of (AlertDto_new example_platform payload 0) in
  outcome (AlertDto_new example_platform payload 0) = Ret (Object obj)
  /\ attribute obj "deleted" = Some (PBool true).
Proof.
  cbv zeta.
  match goal with
  | |- ?B /\ _ => assert (Hbuilt : B) by (vm_compute; reflexivity)
  end.
  split; [exact Hbuilt|].
  rewrite (@deleted_list_means_membership example_platform _ _ 0 _ Hbuilt eq_refl).
  vm_compute. reflexivity.
Defined.

(** X7.  A [deleted] that is neither a boolean nor a list (a text such as
    [true], a number, [None]) makes the validator return [None], which the
    field does not accept: no object is built. *)
Theorem deleted_of_another_shape_is_refused
        (pf : platform) (payload : kwargs) (n : nat) (v : pyval) :
  dict_get payload (py "deleted") = Some v ->
  match v with PBool _ | PList _ => False | _ => True end ->
  (forall obj, outcome (AlertDto_new pf payload n) <> Ret (Object obj))
  /\ (forall input errs,
        outcome (set_default_values pf payload n) = Ret input ->
        outcome (AlertDto_new pf payload n) = Ret (ValidationError errs) ->
        In ((py "deleted", None), NoneIsNotAllowedError) errs).
Proof.
  intros Hdel Hv.
  apply (@refused_field_is_reported pf payload n
           (firstn 18 (AlertDto_fields pf))
           (skipn 19 (AlertDto_fields pf))
           (defaulted "deleted" TBool (PBool false) (Some validate_deleted)) v
           [((py "deleted", None), NoneIsNotAllowedError)]).
  - reflexivity.
  - intros input Hpre. left. change (dict_get input (py "deleted") = Some v).
    rewrite (@input_other pf _ _ _ (py "deleted") Hpre) by reflexivity. exact Hdel.
  - intros values k. destruct v; try contradiction; reflexivity.
  - left. reflexivity.
Qed.

Lemma deleted_of_another_shape_is_refused_witness :
  let payload :=
    payload_of [("id", str "7"); ("name", str "CPU high"); ("severity", str "warning");
                ("status", str "firing");
                ("lastReceived", str "2024-01-01T00:00:00+00:00");
                ("deleted", str "true")]%string in
  outcome (AlertDto_new example_platform payload 0)
  = Ret (ValidationError [((py "deleted", None), NoneIsNotAllowedError) : error])
  /\ (forall obj, outcome (AlertDto_new example_platform payload 0) <> Ret (Object obj))
  /\ In (((py "deleted", None), NoneIsNotAllowedError) : error)
        [((py "deleted", None), NoneIsNotAllowedError) : error].
Proof.
  cbv zeta.
  match goal with
  | |- ?B /\ _ => assert (Hfails : B) by (vm_compute; reflexivity)
  end.
  match type of Hfails with
  | outcome (AlertDto_new _ ?p _) = _ =>
      destruct (@deleted_of_another_shape_is_refused example_platform p 0 (str "true")
                  eq_refl I)
        as [Hnone Herr];
      assert (Hpre : outcome (set_default_values example_platform p 0)
                     = Ret (match outcome (set_default_values example_platform p 0) with
                            | Ret input => input
                            | Raise _ => []
                            end)) by (vm_compute; reflexivity)
  end.
  split; [exact Hfails|]. split; [exact Hnone|].
  exact (Herr _ _ Hpre Hfails).
Defined.

(** X8.  A severity given as a number (a boolean is a number: [True] is 1)
    is read as an order: the built object has the name of the member of
    that order, and [info] when no member has it. *)
Theorem numeric_severity_is_an_order
        (pf : platform) (payload obj : kwargs) (n : nat) (z : Z) :
  outcome (AlertDto_new pf payload n) = Ret (Object obj) ->
  as_int (get_or_none payload (py "severity")) = Some z ->
  (forall m, order m = z -> attribute obj "severity" = Some (PStr (severity_value m)))
  /\ ((forall m, order m <> z) -> attribute obj "severity" = Some (str "info")).
Proof.
  intros H Hz. rewrite (@built_severity pf _ _ _ H).
  unfold severity_or_info, coerce_severity. rewrite Hz. split.
  - intros m Hm. subst z. rewrite member_by_order_complete. reflexivity.
  - intros Hno. destruct (member_by_order z) as [m|] eqn:Hm; [|reflexivity].
    apply member_by_order_sound in Hm. contradiction (Hno m).
Qed.

Lemma numeric_severity_is_an_order_witness :
  let payload :=
    payload_of [("id", str "7"); ("name", str "CPU high"); ("severity", PBool true);
                ("status", str "firing");
                ("lastReceived", str "2024-01-01T00:00:00+00:00")]%string in
  let obj := object_of (AlertDto_new example_platform payload 0) in
  outcome (AlertDto_new example_platform payload 0) = Ret (Object obj)
  /\ attribute obj "severity" = Some (str "low").
Proof.
  cbv zeta.
  match goal with
  | |- ?B /\ _ => assert (Hbuilt : B) by (vm_compute; reflexivity)
  end.
  split; [exact Hbuilt|].
  destruct (@numeric_severity_is_an_order example_platform _ _ 0 1%Z Hbuilt eq_refl)
    as [Hmember _].
  exact (Hmember LOW eq_refl).
Defined.

(** X9.  A [dismissed] given as a text counts as true only when it reads
    [true] in any case: with any other text, also [yes], [on] or [1], the
    built object is not dismissed and keeps the status of the payload. *)
Theorem text_dismissed_other_than_true_is_false
        (pf : platform) (payload obj : kwargs) (n : nat) (s : pystr) :
  outcome (AlertDto_new pf payload n) = Ret (Object obj) ->
  dict_get payload (py "dismissed") = Some (PStr s) ->
  str_lower s <> py "true" ->
  attribute obj "dismissed" = Some (PBool false)
  /\ attribute obj "status"
     = Some (PStr (status_value (status_or_firing (get_or_none payload (py "status"))))).
Proof.
  intros H Hd Hs.
  assert (Hdismissed : attribute obj "dismissed" = Some (PBool false)).
  { destruct (@built_inv pf _ _ _ H) as [input [st [Hpre [Hloop [Hok [_ [Hfield Hother]]]]]]].
    assert (Hin : dict_get input (py "dismissed") = Some (PStr s)
                  \/ (dict_get input (py "dismissed") = None
                      /\ false = false /\ PStr s = PBool false)).
    { left. rewrite Hother by reflexivity. exact Hd. }
    change (AlertDto_fields pf)
      with (firstn 20 (AlertDto_fields pf)
            ++ dismissed_field pf :: skipn 21 (AlertDto_fields pf)) in Hloop.
    destruct (@loop_validated_value pf _ _ _ _ (validate_dismissed pf) _ _ _ (PStr s)
                Hloop Hok eq_refl eq_refl Hin)
      as [st1 [y [x [_ [_ [_ [Hy [Hx Hget]]]]]]]].
    unfold validate_dismissed in Hy. cbv zeta in Hy. cbn [normalize_dismissed] in Hy.
    apply pystr_eqb_neq in Hs. rewrite Hs in Hy.
    cbn [truthy negb ret outcome] in Hy. injection Hy as Hy. subst y.
    cbn [validate_typed type_validate bool_validator dismissed_field defaulted f_type] in Hx.
    injection Hx as Hx. subst x.
    unfold attribute. rewrite Hfield by reflexivity. exact Hget. }
  split; [exact Hdismissed|].
  rewrite (@built_status pf _ _ _ H). unfold attribute in Hdismissed. unfold get_or_none.
  rewrite Hdismissed. reflexivity.
Qed.

Lemma text_dismissed_other_than_true_is_false_witness :
  let payload :=
    payload_of [("id", str "7"); ("name", str "CPU high"); ("severity", str "warning");
                ("status", str "acknowledged");
                ("lastReceived", str "2024-01-01T00:00:00+00:00");
                ("dismissed", str "yes")]%string in
  let obj := object_of (AlertDto_new example_platform payload 0) in
  outcome (AlertDto_new example_platform payload 0) = Ret (Object obj)
  /\ attribute obj "dismissed" = Some (PBool false)
  /\ attribute obj "status" = Some (str "acknowledged").
Proof.
  cbv zeta.
  match goal with
  | |- ?B /\ _ => assert (Hbuilt : B) by (vm_compute; reflexivity)
  end.
  split; [exact Hbuilt|].
  assert (Hne : str_lower (py "yes") <> py "true") by (vm_compute; discriminate).
  destruct (@text_dismissed_other_than_true_is_false example_platform _ _ 0 (py "yes")
              Hbuilt eq_refl Hne) as [Hd Hs].
  split; [exact Hd|]. rewrite Hs. vm_compute. reflexivity.
Defined.

(** ** The assignee *)

Section Assignee.

Variable pf : platform.

(** What the first root validator gives for a payload whose [assignees] is
    true: the text of [lastReceived] must be one [fromisoformat] reads, and
    [assignees] must have [get]. *)
Lemma set_default_values_assignees (payload : kwargs) (n : nat) (lr assignees : pyval) :
  dict_get payload (py "lastReceived") = Some lr ->
  get_or_none payload (py "assignees") = assignees ->
  truthy assignees = true ->
  outcome (set_default_values pf payload n) =
  match lr with
  | PStr t =>
      if fromisoformat_parses pf t then
        match assignees with
        | PDict d =>
            Ret (dict_pop
                   (dict_set (dict_pop (with_enums payload) (py "assignees"))
                             (py "assignee")
                             (match pydict_get d lr with
                              | Some a => if truthy a then a else PNone
                              | None => PNone
                              end))
                   (py "deletedAt"))
        | _ => Raise AttributeError
        end
      else Raise ValueError
  | _ => Raise TypeError
  end.
Proof.
  intros Hlr Ha Ht. rewrite set_default_values_run. cbv zeta. cbn [outcome].
  unfold set_assignee, bind, lift. cbv zeta.
  rewrite (@with_enums_other payload (py "lastReceived")) by reflexivity.
  rewrite Hlr. cbn [outcome reads logged].
  assert (Hget : get_or_none (with_enums payload) (py "assignees") = assignees).
  { unfold get_or_none. rewrite with_enums_other by reflexivity. exact Ha. }
  rewrite Hget, Ht.
  unfold fromisoformat, lookup_assignee, ret, raise.
  destruct lr; cbn [outcome reads logged]; try reflexivity.
  destruct (fromisoformat_parses pf s); cbn [outcome reads logged]; [|reflexivity].
  destruct assignees; cbn [outcome reads logged]; try reflexivity.
  destruct (pydict_get d (PStr s)) as [a|]; [destruct (truthy a)|]; reflexivity.
Qed.


End Assignee.

(** X10.  When the payload has a dictionary [assignees] that is not empty,
    the assignee of the built object is what the dictionary holds under the
    text of [lastReceived] as the payload gave it; what the payload gave as
    [assignee] is not looked at, and the assignee is [None] when the
    dictionary has no such key. *)
Theorem assignee_is_looked_up_by_lastReceived
        (pf : platform) (payload obj : kwargs) (n : nat)
        (d : list (pyval * pyval)) (t : pystr) :
  outcome (AlertDto_new pf payload n) = Ret (Object obj) ->
  dict_get payload (py "assignees") = Some (PDict d) ->
  d <> [] ->
  dict_get payload (py "lastReceived") = Some (PStr t) ->
  (forall a, pydict_get d (PStr t) = Some (PStr a) -> a <> [] ->
             attribute obj "assignee" = Some (PStr a))
  /\ (pydict_get d (PStr t) = None -> attribute obj "assignee" = Some PNone).
Proof.
  intros H Ha Hd Hlr.
  destruct (@built_inv pf _ _ _ H) as [input [st [Hpre [Hloop [Hok [_ [Hfield _]]]]]]].
  assert (Hget : get_or_none payload (py "assignees") = PDict d).
  { unfold get_or_none. rewrite Ha. reflexivity. }
  assert (Ht : truthy (PDict d) = true) by (destruct d; [contradiction | reflexivity]).
  rewrite (@set_default_values_assignees pf _ n _ _ Hlr Hget Ht) in Hpre.
  cbv beta iota in Hpre.
  destruct (fromisoformat_parses pf t); [|discriminate].
  injection Hpre as Hinput.
  assert (Hassignee : dict_get input (py "assignee")
                      = Some (match pydict_get d (PStr t) with
                              | Some a => if truthy a then a else PNone
                              | None => PNone
                              end)).
  { subst input. rewrite dict_get_pop_neq by reflexivity. apply dict_get_set_eq. }
  change (AlertDto_fields pf)
    with (firstn 21 (AlertDto_fields pf)
          ++ optional "assignee" TStr None :: skipn 22 (AlertDto_fields pf)) in Hloop.
  destruct (@loop_field_value pf _ _ _ _ _ _ _ _ Hloop Hok eq_refl eq_refl Hassignee)
    as [x [Hx Hstored]].
  unfold attribute. rewrite Hfield by reflexivity.
  change (f_name (optional "assignee" TStr None)) with (py "assignee") in Hstored.
  rewrite Hstored. split.
  - intros a Hfound Hne. rewrite Hfound in Hx. rewrite (truthy_nonempty Hne) in Hx.
    cbn [validate_typed type_validate str_validator optional f_type] in Hx.
    injection Hx as Hx. subst x. reflexivity.
  - intros Hnone. rewrite Hnone in Hx.
    cbn [validate_typed optional f_allow_none] in Hx.
    injection Hx as Hx. subst x. reflexivity.
Qed.

Lemma assignee_is_looked_up_by_lastReceived_witness :
  let stamp := "2024-01-01T00:00:00+00:00"%string in
  let payload :=
    payload_of [("id", str "7"); ("name", str "CPU high"); ("severity", str "warning");
                ("status", str "firing"); ("lastReceived", str stamp);
                ("assignee", str "alice");
                ("assignees", PDict [(str stamp, str "bob")])]%string in
  let obj := object_of (AlertDto_new example_platform payload 0) in
  outcome (AlertDto_new example_platform payload 0) = Ret (Object obj)
  /\ attribute obj "assignee" = Some (str "bob").
Proof.
  cbv zeta.
  match goal with
  | |- ?B /\ _ => assert (Hbuilt : B) by (vm_compute; reflexivity)
  end.
  split; [exact Hbuilt|].
  assert (Hd : [(str "2024-01-01T00:00:00+00:00", str "bob")] <> []) by discriminate.
  assert (Hne : py "bob" <> []) by discriminate.
  destruct (@assignee_is_looked_up_by_lastReceived example_platform _ _ 0
              [(str "2024-01-01T00:00:00+00:00", str "bob")]
              (py "2024-01-01T00:00:00+00:00") Hbuilt eq_refl Hd eq_refl)
    as [Hfound _].
  exact (Hfound (py "bob") eq_refl Hne).
Defined.





(** ** The keys of a built object *)

Lemma dict_get_None_iff (d : kwargs) (k : pystr) :
  dict_get d k = None <-> ~ In k (map fst d).
Proof.
  induction d as [|[k' v'] d IH]; simpl.
  - split; [intros _ []| reflexivity].
  - destruct (pystr_eqb k k') eqn:E.
    + apply pystr_eqb_eq in E. subst k'. split; [discriminate|].
      intros H. contradiction H. left. reflexivity.
    + apply pystr_eqb_neq in E. rewrite IH. split.
      * intros H [H1 | H1]; [congruence | contradiction].
      * intros H H1. apply H. right. exact H1.
Qed.

Lemma dict_set_keys (d : kwargs) (k k' : pystr) (v : pyval) :
  In k' (map fst (dict_set d k v)) -> k' = k \/ In k' (map fst d).
Proof.
  induction d as [|[k0 v0] d IH]; simpl.
  - intros [H | []]. left. symmetry. exact H.
  - destruct (pystr_eqb k k0); simpl.
    + intros H. right. exact H.
    + intros [H | H]; [right; left; exact H|].
      destruct (IH H) as [H1 | H1]; [left; exact H1 | right; right; exact H1].
Qed.

Lemma dict_pop_keys (d : kwargs) (k k' : pystr) :
  In k' (map fst (dict_pop d k)) -> In k' (map fst d).
Proof.
  induction d as [|[k0 v0] d IH]; simpl; [intros []|].
  destruct (pystr_eqb k k0); simpl.
  - intros H. right. exact H.
  - intros [H | H]; [left; exact H | right; exact (IH H)].
Qed.

Lemma dict_set_unique (d : kwargs) (k : pystr) (v : pyval) :
  unique_keys d -> unique_keys (dict_set d k v).
Proof.
  unfold unique_keys. induction d as [|[k0 v0] d IH]; simpl; intros H.
  - constructor; [intros [] | constructor].
  - inversion H as [|? ? Hnot Hrest]; subst.
    destruct (pystr_eqb k k0) eqn:E; simpl.
    + constructor; assumption.
    + constructor; [|exact (IH Hrest)].
      intros Hin. apply dict_set_keys in Hin. destruct Hin as [Hin | Hin].
      * subst k0. rewrite pystr_eqb_refl in E. discriminate.
      * contradiction.
Qed.

Lemma dict_pop_unique (d : kwargs) (k : pystr) :
  unique_keys d -> unique_keys (dict_pop d k).
Proof.
  unfold unique_keys. induction d as [|[k0 v0] d IH]; simpl; intros H; [constructor|].
  inversion H as [|? ? Hnot Hrest]; subst.
  destruct (pystr_eqb k k0); simpl; [exact Hrest|].
  constructor; [|exact (IH Hrest)].
  intros Hin. apply dict_pop_keys in Hin. contradiction.
Qed.

(** In a dictionary, a popped key is gone. *)
Lemma dict_get_pop_eq (d : kwargs) (k : pystr) :
  unique_keys d -> dict_get (dict_pop d k) k = None.
Proof.
  unfold unique_keys. induction d as [|[k0 v0] d IH]; simpl; intros H; [reflexivity|].
  inversion H as [|? ? Hnot Hrest]; subst.
  destruct (pystr_eqb k k0) eqn:E; simpl.
  - apply pystr_eqb_eq in E. subst k0. apply dict_get_None_iff. exact Hnot.
  - rewrite E. exact (IH Hrest).
Qed.

Lemma filter_unique (p : pystr * pyval -> bool) (d : kwargs) :
  unique_keys d -> unique_keys (filter p d).
Proof.
  unfold unique_keys. induction d as [|kv d IH]; simpl; intros H; [constructor|].
  inversion H as [|? ? Hnot Hrest]; subst.
  destruct (p kv); simpl; [|exact (IH Hrest)].
  constructor; [|exact (IH Hrest)].
  intros Hin. apply Hnot. apply in_map_iff in Hin. destruct Hin as [x [Hx Hin]].
  apply filter_In in Hin. destruct Hin as [Hin _].
  apply in_map_iff. exists x. split; assumption.
Qed.

Lemma dict_get_filter (p : pystr -> bool) (d : kwargs) (k : pystr) :
  p k = true ->
  dict_get (filter (fun kv => p (fst kv)) d) k = dict_get d k.
Proof.
  intros Hk. induction d as [|[k0 v0] d IH]; simpl; [reflexivity|].
  destruct (pystr_eqb k k0) eqn:E.
  - apply pystr_eqb_eq in E. subst k0. rewrite Hk. simpl.
    rewrite pystr_eqb_refl. reflexivity.
  - destruct (p k0); simpl; [rewrite E|]; exact IH.
Qed.

(** Writing the items of a dictionary into another one, as [add_extras]
    does: a key of the first reads as in the first, any other key as
    before. *)
Lemma fold_set_get (items values : kwargs) (k : pystr) :
  unique_keys items ->
  dict_get (fold_left (fun vals kv => dict_set vals (fst kv) (snd kv)) items values) k
  = match dict_get items k with
    | Some v => Some v
    | None => dict_get values k
    end.
Proof.
  unfold unique_keys. revert values.
  induction items as [|[k0 v0] items IH]; simpl; intros values H; [reflexivity|].
  inversion H as [|? ? Hnot Hrest]; subst.
  rewrite (IH _ Hrest).
  destruct (pystr_eqb k k0) eqn:E.
  - apply pystr_eqb_eq in E. subst k0.
    apply dict_get_None_iff in Hnot. rewrite Hnot. apply dict_get_set_eq.
  - destruct (dict_get items k); [reflexivity|]. apply dict_get_set_neq. exact E.
Qed.

Section Keys.

Variable pf : platform.

Lemma set_assignee_shape (values v : kwargs) (n : nat) :
  outcome (set_assignee pf values n) = Ret v ->
  v = dict_pop values (py "assignees")
  \/ exists a, v = dict_set (dict_pop values (py "assignees")) (py "assignee") a.
Proof.
  unfold set_assignee. intros H.
  apply bind_Ret_inv in H. destruct H as [lr [_ H]].
  destruct (truthy (get_or_none values (py "assignees"))).
  - apply bind_Ret_inv in H. destruct H as [u [_ H]].
    apply bind_Ret_inv in H. destruct H as [a [_ H]].
    inversion H; subst. right. exists a. reflexivity.
  - inversion H; subst. left. reflexivity.
Qed.

(** What the first root validator returns is a dictionary again, without
    the two keys it pops. *)
Lemma set_default_values_unique (payload input : kwargs) (n : nat) :
  unique_keys payload ->
  outcome (set_default_values pf payload n) = Ret input ->
  unique_keys input
  /\ dict_get input (py "assignees") = None
  /\ dict_get input (py "deletedAt") = None.
Proof.
  intros Hu H. rewrite set_default_values_run in H. cbn [outcome] in H.
  apply bind_Ret_inv in H. destruct H as [v [Hv H]].
  inversion H; subst input. clear H.
  assert (Hw : unique_keys (with_enums payload)).
  { unfold with_enums. cbv zeta. apply dict_set_unique. apply dict_set_unique. exact Hu. }
  assert (Hv' : unique_keys v /\ dict_get v (py "assignees") = None).
  { apply set_assignee_shape in Hv. destruct Hv as [Hv | [a Hv]]; subst v.
    - split; [apply dict_pop_unique; exact Hw | apply dict_get_pop_eq; exact Hw].
    - split; [apply dict_set_unique; apply dict_pop_unique; exact Hw|].
      rewrite dict_get_set_neq by reflexivity. apply dict_get_pop_eq. exact Hw. }
  destruct Hv' as [Hvu Hva].
  split; [apply dict_pop_unique; exact Hvu|]. split.
  - rewrite dict_get_pop_neq by reflexivity. exact Hva.
  - apply dict_get_pop_eq. exact Hvu.
Qed.

(** [Extra.allow]: a key that is no field reads in the object as in the
    input of the loop. *)
Lemma add_extras_other (input : kwargs) (st : loop_state) (n : nat) (k : pystr) :
  unique_keys input ->
  outcome (fields_loop pf input (AlertDto_fields pf) ([], []) n) = Ret st ->
  is_field (AlertDto_fields pf) k = false ->
  dict_get (add_extras (AlertDto_fields pf) input (fst st)) k = dict_get input k.
Proof.
  intros Hu Hloop Hk. unfold add_extras.
  rewrite fold_set_get by (apply filter_unique; exact Hu).
  rewrite (@dict_get_filter (fun key => negb (is_field (AlertDto_fields pf) key)) input k)
    by (rewrite Hk; reflexivity).
  destruct (dict_get input k); [reflexivity|].
  rewrite (@loop_preserves pf _ _ _ _ _ k Hloop Hk). reflexivity.
Qed.

Lemma is_field_false (fs : list field) (k : pystr) :
  is_field fs k = false <-> ~ In k (map f_name fs).
Proof.
  unfold is_field. induction fs as [|f fs IH]; simpl.
  - split; [intros _ [] | reflexivity].
  - rewrite orb_false_iff, IH. split.
    + intros [H1 H2] [H | H]; [|contradiction].
      subst k. rewrite pystr_eqb_refl in H1. discriminate.
    + intros H. split.
      * apply pystr_eqb_neq. intros E. apply H. left. symmetry. exact E.
      * intros H1. apply H. right. exact H1.
Qed.

(** A field without validator that the input does not give and that is not
    required gets its default. *)
Lemma loop_absent_default (input : kwargs) (fs : list field) (f : field)
      (st st' : loop_state) (n : nat) :
  NoDup (map f_name fs) ->
  In f fs ->
  f_pre f = None -> f_required f = false ->
  dict_get input (f_name f) = None ->
  outcome (fields_loop pf input fs st n) = Ret st' ->
  dict_get (fst st') (f_name f) = Some (f_default f).
Proof.
  intros Hnd Hin Hpre Hreq Hget. revert st n.
  induction fs as [|g fs IH]; intros st n H; [contradiction Hin|].
  inversion Hnd as [|? ? Hnot Hrest]; subst.
  apply loop_cons_inv in H. destruct H as [st1 [Hstep Hloop]].
  destruct Hin as [Hin | Hin].
  - subst g. unfold field_step in Hstep. rewrite Hget, Hreq, Hpre in Hstep.
    cbn [ret outcome] in Hstep. injection Hstep as Hst1. subst st1.
    rewrite (@loop_preserves pf _ _ _ _ _ (f_name f) Hloop)
      by (apply is_field_false; exact Hnot).
    cbn [fst]. apply dict_get_set_eq.
  - exact (IH Hrest Hin _ _ Hloop).
Qed.

Lemma AlertDto_fields_names :
  map f_name (AlertDto_fields pf)
  = map py ["id"; "name"; "status"; "severity"; "lastReceived"; "environment";
            "isDuplicate"; "duplicateReason"; "service"; "source"; "apiKeyRef";
            "message"; "description"; "pushed"; "event_id"; "url"; "labels";
            "fingerprint"; "deleted"; "dismissUntil"; "dismissed"; "assignee";
            "providerId"; "providerType"; "group"; "note"; "startedAt";
            "isNoisy"]%string.
Proof. reflexivity. Qed.

Lemma AlertDto_fields_distinct : NoDup (map f_name (AlertDto_fields pf)).
Proof.
  rewrite AlertDto_fields_names.
  repeat (constructor; [vm_compute; intuition discriminate|]). constructor.
Qed.

End Keys.

(** X13.  [Extra.allow], and the two keys the first root validator pops: a
    key of the payload that is no field of the model is kept in the built
    object with its value as it is, except [assignees] and [deletedAt],
    which the object never has; and the object has no other key that is no
    field. *)
Theorem unknown_keys_are_kept_but_the_popped_ones
        (pf : platform) (payload obj : kwargs) (n : nat) (k : pystr) :
  unique_keys payload ->
  outcome (AlertDto_new pf payload n) = Ret (Object obj) ->
  is_field (AlertDto_fields pf) k = false ->
  dict_get obj k
  = if pystr_eqb k (py "assignees") || pystr_eqb k (py "deletedAt")
    then None
    else dict_get payload k.
Proof.
  intros Hu H Hk.
  destruct (@built_inv pf _ _ _ H) as [input [st [Hpre [Hloop [_ [Hobj [_ Hother]]]]]]].
  destruct (@set_default_values_unique pf _ _ _ Hu Hpre) as [Hui [Ha Hd]].
  assert (Hstatus : pystr_eqb k (py "status") = false).
  { destruct (pystr_eqb k (py "status")) eqn:E; [|reflexivity].
    apply pystr_eqb_eq in E. subst k. discriminate Hk. }
  assert (Hseverity : pystr_eqb k (py "severity") = false).
  { destruct (pystr_eqb k (py "severity")) eqn:E; [|reflexivity].
    apply pystr_eqb_eq in E. subst k. discriminate Hk. }
  assert (Hassignee : pystr_eqb k (py "assignee") = false).
  { destruct (pystr_eqb k (py "assignee")) eqn:E; [|reflexivity].
    apply pystr_eqb_eq in E. subst k. discriminate Hk. }
  subst obj. rewrite after_validate_status_other by exact Hstatus.
  rewrite (@add_extras_other pf _ _ _ k Hui Hloop Hk).
  destruct (pystr_eqb k (py "assignees")) eqn:E1.
  { apply pystr_eqb_eq in E1. subst k. exact Ha. }
  destruct (pystr_eqb k (py "deletedAt")) eqn:E2.
  { apply pystr_eqb_eq in E2. subst k. exact Hd. }
  cbn [orb]. apply Hother; assumption.
Qed.

Lemma unknown_keys_are_kept_but_the_popped_ones_witness :
  let payload :=
    payload_of [("id", str "7"); ("name", str "CPU high"); ("severity", str "warning");
                ("status", str "firing");
                ("lastReceived", str "2024-01-01T00:00:00+00:00");
                ("ticket_url", str "https://example.org/456");
                ("deletedAt", str "2024-01-02T00:00:00+00:00")]%string in
  let obj := object_of (AlertDto_new example_platform payload 0) in
  unique_keys payload
  /\ outcome (AlertDto_new example_platform payload 0) = Ret (Object obj)
  /\ dict_get obj (py "ticket_url") = Some (str "https://example.org/456")
  /\ dict_get obj (py "deletedAt") = None.
Proof.
  cbv zeta.
  match goal with
  | |- ?U /\ ?B /\ _ =>
      assert (Hu : U)
        by (unfold unique_keys; repeat (constructor; [vm_compute; intuition discriminate|]);
            constructor);
      assert (Hbuilt : B) by (vm_compute; reflexivity)
  end.
  split; [exact Hu|]. split; [exact Hbuilt|]. split.
  - rewrite (@unknown_keys_are_kept_but_the_popped_ones example_platform _ _ 0
               (py "ticket_url") Hu Hbuilt eq_refl).
    reflexivity.
  - rewrite (@unknown_keys_are_kept_but_the_popped_ones example_platform _ _ 0
               (py "deletedAt") Hu Hbuilt eq_refl).
    reflexivity.
Defined.

(** X14.  The defaults of the class body: a field that is not required and
    has no validator of its own, and that the payload does not give, has
    in the built object the default written in the class: [undefined] for
    [environment], the empty list for [source], the empty dictionary for
    [labels], [False] for [pushed], [group] and [isNoisy], [None] for the
    others.  ([assignee] is left out: the first root validator may set
    it.) *)
Theorem absent_fields_take_the_defaults_of_the_class
        (pf : platform) (payload obj : kwargs) (n : nat) (f : field) :
  outcome (AlertDto_new pf payload n) = Ret (Object obj) ->
  In f (AlertDto_fields pf) ->
  f_required f = false ->
  f_pre f = None ->
  f_name f <> py "assignee" ->
  dict_get payload (f_name f) = None ->
  dict_get obj (f_name f) = Some (f_default f).
Proof.
  intros H Hin Hreq Hpre' Hname Hget.
  destruct (@built_inv pf _ _ _ H) as [input [st [Hpre [Hloop [_ [_ [Hfield Hother]]]]]]].
  assert (Hisfield : is_field (AlertDto_fields pf) (f_name f) = true).
  { unfold is_field. apply existsb_exists. exists f. split; [exact Hin|].
    apply pystr_eqb_refl. }
  assert (Hnot : pystr_eqb (f_name f) (py "assignees") = false
                 /\ pystr_eqb (f_name f) (py "deletedAt") = false
                 /\ pystr_eqb (f_name f) (py "severity") = false
                 /\ pystr_eqb (f_name f) (py "status") = false).
  { each_field Hin; try discriminate Hreq; try discriminate Hpre';
      repeat split; reflexivity. }
  destruct Hnot as [H1 [H2 [H3 H4]]].
  rewrite Hfield by assumption.
  apply (@loop_absent_default pf input (AlertDto_fields pf) f ([], []) st n
           (AlertDto_fields_distinct pf) Hin Hpre' Hreq); [|exact Hloop].
  rewrite Hother; try assumption.
  apply pystr_eqb_neq. exact Hname.
Qed.

Lemma absent_fields_take_the_defaults_of_the_class_witness :
  let payload :=
    payload_of [("id", str "7"); ("name", str "CPU high"); ("severity", str "warning");
                ("status", str "firing");
                ("lastReceived", str "2024-01-01T00:00:00+00:00")]%string in
  let obj := object_of (AlertDto_new example_platform payload 0) in
  outcome (AlertDto_new example_platform payload 0) = Ret (Object obj)
  /\ attribute obj "environment" = Some (str "undefined")
  /\ attribute obj "source" = Some (PList [])
  /\ attribute obj "labels" = Some (PDict []).
Proof.
  cbv zeta.
  match goal with
  | |- ?B /\ _ => assert (Hbuilt : B) by (vm_compute; reflexivity)
  end.
  split; [exact Hbuilt|].
  split; [|split].
  - apply (@absent_fields_take_the_defaults_of_the_class example_platform _ _ 0
             (defaulted "environment" TStr (PStr (py "undefined")) None) Hbuilt);
      [do 5 right; left; reflexivity | reflexivity | reflexivity | discriminate
       | reflexivity].
  - apply (@absent_fields_take_the_defaults_of_the_class example_platform _ _ 0
             (Field (py "source") TListStr false (PList []) true None) Hbuilt);
      [do 9 right; left; reflexivity | reflexivity | reflexivity | discriminate
       | reflexivity].
  - apply (@absent_fields_take_the_defaults_of_the_class example_platform _ _ 0
             (Field (py "labels") TDict false (PDict []) true None) Hbuilt);
      [do 16 right; left; reflexivity | reflexivity | reflexivity | discriminate
       | reflexivity].
Defined.

(** ** The exceptions that leave the constructor *)

Section Exceptions.

Variable pf : platform.







End Exceptions.



(** ** Comparing two objects *)



Lemma dict_method_set (d : kwargs) (k : pystr) (v : pyval) :
  dict_method (dict_set d k v) = dict_set (dict_method d) k (get_value v).
Proof.
  induction d as [|[k0 v0] d IH]; simpl; [reflexivity|].
  destruct (pystr_eqb k k0); simpl; [reflexivity|]. rewrite <- IH. reflexivity.
Qed.

Lemma dict_pop_set_eq (d : kwargs) (k : pystr) (v : pyval) :
  dict_pop (dict_set d k v) k = dict_pop d k.
Proof.
  induction d as [|[k0 v0] d IH]; simpl.
  - rewrite pystr_eqb_refl. reflexivity.
  - destruct (pystr_eqb k k0) eqn:E; simpl; rewrite E; [reflexivity|].
    rewrite IH. reflexivity.
Qed.

Lemma dict_pop_set_neq (d : kwargs) (k k' : pystr) (v : pyval) :
  pystr_eqb k' k = false ->
  dict_pop (dict_set d k v) k' = dict_set (dict_pop d k') k v.
Proof.
  intros Hk. induction d as [|[k0 v0] d IH]; simpl.
  - rewrite Hk. reflexivity.
  - destruct (pystr_eqb k k0) eqn:E; destruct (pystr_eqb k' k0) eqn:E'; simpl;
      rewrite ?E, ?E'; try reflexivity.
    + apply pystr_eqb_eq in E. apply pystr_eqb_eq in E'. subst.
      rewrite pystr_eqb_refl in Hk. discriminate.
    + rewrite IH. reflexivity.
Qed.

(** The three pops of [__eq__] undo a write to an excluded field. *)
Lemma excluded_pops_undo_set (d : kwargs) (k : pystr) (v : pyval) :
  In k exclude_fields ->
  fold_left dict_pop exclude_fields (dict_set d k v) = fold_left dict_pop exclude_fields d.
Proof.
  unfold exclude_fields. cbn [fold_left In].
  intros [H | [H | [H | []]]]; subst k.
  - rewrite dict_pop_set_eq. reflexivity.
  - rewrite dict_pop_set_neq by reflexivity. rewrite dict_pop_set_eq. reflexivity.
  - rewrite dict_pop_set_neq by reflexivity. rewrite dict_pop_set_neq by reflexivity.
    rewrite dict_pop_set_eq. reflexivity.
Qed.







(** X16.  The three fields that [__eq__] excludes play no part in it:
    giving [lastReceived], [startedAt] or [event_id] any value, in either
    operand, changes neither the result of [==] nor the result of [!=]. *)
Theorem equality_ignores_the_excluded_fields
        (self other : kwargs) (k : pystr) (v : pyval) :
  In k exclude_fields ->
  AlertDto_eq (dict_set self k v) (Instance other) = AlertDto_eq self (Instance other)
  /\ AlertDto_eq self (Instance (dict_set other k v)) = AlertDto_eq self (Instance other)
  /\ AlertDto_ne (dict_set self k v) (Instance other) = AlertDto_ne self (Instance other)
  /\ AlertDto_ne self (Instance (dict_set other k v)) = AlertDto_ne self (Instance other).
Proof.
  intros Hk.
  assert (H1 : AlertDto_eq (dict_set self k v) (Instance other)
               = AlertDto_eq self (Instance other)).
  { unfold AlertDto_eq. cbv zeta. rewrite dict_method_set.
    rewrite excluded_pops_undo_set by exact Hk. reflexivity. }
  assert (H2 : AlertDto_eq self (Instance (dict_set other k v))
               = AlertDto_eq self (Instance other)).
  { unfold AlertDto_eq. cbv zeta. rewrite dict_method_set.
    rewrite excluded_pops_undo_set by exact Hk. reflexivity. }
  unfold AlertDto_ne. rewrite H1, H2. repeat split.
Qed.

Lemma equality_ignores_the_excluded_fields_witness :
  let a := payload_of [("id", str "7"); ("name", str "CPU high");
                       ("lastReceived", str "2024-01-01T00:00:00+00:00")]%string in
  let b := payload_of [("id", str "7"); ("name", str "CPU high");
                       ("lastReceived", str "2024-06-30T12:00:00+00:00")]%string in
  In (py "lastReceived") exclude_fields
  /\ AlertDto_eq a (Instance b) = true
  /\ AlertDto_ne a (Instance b) = false.
Proof.
  cbv zeta.
  assert (Hin : In (py "lastReceived") exclude_fields) by (left; reflexivity).
  split; [exact Hin|].
  destruct (@equality_ignores_the_excluded_fields
              (payload_of [("id", str "7"); ("name", str "CPU high")]%string)
              (payload_of [("id", str "7"); ("name", str "CPU high");
                           ("lastReceived", str "2024-06-30T12:00:00+00:00")]%string)
              (py "lastReceived") (str "2024-01-01T00:00:00+00:00") Hin)
    as [Heq [_ [Hne _]]].
  split.
  - change (AlertDto_eq
              (dict_set (payload_of [("id", str "7"); ("name", str "CPU high")]%string)
                        (py "lastReceived") (str "2024-01-01T00:00:00+00:00"))
              (Instance
                 (payload_of [("id", str "7"); ("name", str "CPU high");
                              ("lastReceived", str "2024-06-30T12:00:00+00:00")]%string))
            = true).
    rewrite Heq. reflexivity.
  - change (AlertDto_ne
              (dict_set (payload_of [("id", str "7"); ("name", str "CPU high")]%string)
                        (py "lastReceived") (str "2024-01-01T00:00:00+00:00"))
              (Instance
                 (payload_of [("id", str "7"); ("name", str "CPU high");
                              ("lastReceived", str "2024-06-30T12:00:00+00:00")]%string))
            = false).
    rewrite Hne. reflexivity.
Defined.



(** ** The request bodies *)

Section RequestBodies.

Variable pf : platform.



End RequestBodies.




(** ** A [lastReceived] that the payload gives *)

(** X20.  A [lastReceived] that is not empty is kept as it is: a text
    reaches the built object unchanged, whether or not it reads as a date (a
    number or [True] is written out); nothing in the field checks its
    form. *)
Theorem given_lastReceived_is_kept_as_it_is
        (pf : platform) (payload obj : kwargs) (n : nat) (v : pyval) :
  outcome (AlertDto_new pf payload n) = Ret (Object obj) ->
  dict_get payload (py "lastReceived") = Some v ->
  truthy v = true ->
  exists s, str_validator v = Some s
            /\ attribute obj "lastReceived" = Some (PStr s)
            /\ (forall t, v = PStr t -> s = t).
Proof.
  intros H Hv Ht.
  destruct (@built_inv pf _ _ _ H) as [input [st [Hpre [Hloop [Hok [_ [Hfield Hother]]]]]]].
  assert (Hin : dict_get input (py "lastReceived") = Some v
                \/ (dict_get input (py "lastReceived") = None
                    /\ true = false /\ v = PNone)).
  { left. rewrite Hother by reflexivity. exact Hv. }
  change (AlertDto_fields pf)
    with (firstn 4 (AlertDto_fields pf)
          ++ required "lastReceived" TStr (Some (validate_last_received pf))
          :: skipn 5 (AlertDto_fields pf)) in Hloop.
  destruct (@loop_validated_value pf _ _ _ _ (validate_last_received pf) _ _ _ v
              Hloop Hok eq_refl eq_refl Hin)
    as [st1 [y [x [_ [_ [_ [Hy [Hx Hget]]]]]]]].
  unfold validate_last_received in Hy. rewrite Ht in Hy.
  cbn [negb ret outcome] in Hy. injection Hy as Hy. subst y.
  unfold validate_typed in Hx. cbn [required f_allow_none f_type f_name type_validate] in Hx.
  unfold attribute. rewrite Hfield by reflexivity.
  change (f_name (required "lastReceived" TStr (Some (validate_last_received pf))))
    with (py "lastReceived") in Hget.
  destruct v as [|[|]| | | | | |]; cbn [str_validator] in Hx |- *;
    try discriminate Hx; try discriminate Ht;
    injection Hx as Hx; subst x; eexists; (split; [reflexivity|]);
    (split; [exact Hget|]); intros t Et; try discriminate Et.
  injection Et as Et. exact Et.
Qed.

Lemma given_lastReceived_is_kept_as_it_is_witness :
  let payload :=
    payload_of [("id", str "7"); ("name", str "CPU high"); ("severity", str "warning");
                ("status", str "firing"); ("lastReceived", str "yesterday")]%string in
  let obj := object_of (AlertDto_new example_platform payload 0) in
  outcome (AlertDto_new example_platform payload 0) = Ret (Object obj)
  /\ attribute obj "lastReceived" = Some (str "yesterday").
Proof.
  cbv zeta.
  match goal with
  | |- ?B /\ _ => assert (Hbuilt : B) by (vm_compute; reflexivity)
  end.
  split; [exact Hbuilt|].
  destruct (@given_lastReceived_is_kept_as_it_is example_platform _ _ 0 (str "yesterday")
              Hbuilt eq_refl eq_refl) as [s [_ [Hobj Hs]]].
  rewrite Hobj. rewrite (Hs (py "yesterday") eq_refl). reflexivity.
Defined.
